(** * HoloPy scattering theories: T-matrix and DDA orchestration

    A shallow embedding of [holopy/scattering/theory/tmatrix.py]
    (class [Tmatrix]) and [scatterpy/theory/dda.py] (class [DDA]):
    the input encoders, the calls to the external solvers, the
    parsing of their output and the assembly of the per-point
    scattering matrices, together with the file-system effects of
    each step. *)

From Stdlib Require Import ZArith List Ascii String Bool Arith Lia Reals Lra.
From Stdlib Require Import Permutation.
Import ListNotations.
Open Scope string_scope.
Open Scope list_scope.

Set Implicit Arguments.

(** ** Numbers

    The arithmetic of Python floats and complex numbers is kept behind
    an interface; every operation the two modules apply to a number is
    a field of it.  [fdiv] and [cdiv] are the quotients where the
    divisor is not zero; Python's [/] tests the divisor first and
    raises at zero, which is [truediv] and [ctruediv] below. *)

Class PyNum : Type := {
  float : Type;
  complex : Type;
  is_zero : float -> bool;             (* y == 0 *)
  of_int : Z -> float;                 (* an int promoted to float; the literal n.0 *)
  fmul : float -> float -> float;
  fdiv : float -> float -> float;
  fpow : float -> float -> float;      (* x ** y *)
  np_pi : float;                       (* np.pi *)
  of_float : float -> complex;         (* a float operand promoted to complex *)
  imag : float -> complex;             (* the literal xj *)
  cadd : complex -> complex -> complex;
  cmul : complex -> complex -> complex;
  cdiv : complex -> complex -> complex;
  cneg : complex -> complex
}.

Declare Scope py_scope.
Delimit Scope py_scope with py.
Infix "[*]" := fmul (at level 40, left associativity) : py_scope.
Infix "[/]" := fdiv (at level 40, left associativity) : py_scope.
Infix "[**]" := fpow (at level 30, right associativity) : py_scope.
Open Scope py_scope.

(** What [_raw_fields] needs besides: [np.cos], [np.sin] and the
    negation of a float. *)
Class PyTrig {num : PyNum} : Type := {
  np_cos : float -> float;
  np_sin : float -> float;
  fneg : float -> float
}.

(** ** The order of a directory listing

    [glob.glob] returns the names in the order the file system lists
    them, which need not be the order they were written in and is decided
    by nothing in the two modules: an unknown rearrangement of the
    names, the same every time the same names are listed. *)

Class FileSystem : Type := {
  dir_order : list string -> list string;
  dir_order_perm : forall names, Permutation (dir_order names) names
}.

(** ** Exceptions and outcomes *)

Inductive outcome (E A : Type) : Type :=
| Return (a : A)
| Raise (e : E).
Arguments Return {E A} a.
Arguments Raise {E A} e.

(** ** Generic list helpers used by the array model *)

(** [l[0::2]] *)
Fixpoint step2 {X : Type} (l : list X) : list X :=
  match l with
  | [] => []
  | x :: l' => x :: match l' with
                    | [] => []
                    | _ :: l'' => step2 l''
                    end
  end.

(** [l[start::2]] *)
Definition slice2 {X : Type} (start : nat) (l : list X) : list X :=
  step2 (skipn start l).

Fixpoint list_eqb {X : Type} (eqb : X -> X -> bool) (a b : list X) : bool :=
  match a, b with
  | [], [] => true
  | x :: a', y :: b' => eqb x y && list_eqb eqb a' b'
  | _, _ => false
  end.

Fixpoint zip_with {X Y Z : Type} (f : X -> Y -> Z) (a : list X) (b : list Y) : list Z :=
  match a, b with
  | x :: a', y :: b' => f x y :: zip_with f a' b'
  | _, _ => []
  end.

(** Sequence a list of outcomes, left to right; the first exception wins. *)
Fixpoint all_ok {E X : Type} (l : list (outcome E X)) : outcome E (list X) :=
  match l with
  | [] => Return []
  | Return x :: l' =>
      match all_ok l' with
      | Return xs => Return (x :: xs)
      | Raise e => Raise e
      end
  | Raise e :: _ => Raise e
  end.

(** [a[k][j][i]] for a nested list *)
Definition item3 {X : Type} (a : list (list (list X))) (k j i : nat) : option X :=
  match nth_error a k with
  | Some ak => match nth_error ak j with
               | Some akj => nth_error akj i
               | None => None
               end
  | None => None
  end.

(** [a.transpose()] for an array of shape [(d0, d1, d2)]: numpy reverses
    the order of the axes, so the result has shape [(d2, d1, d0)] and
    [a.transpose()[i][j][k] = a[k][j][i]]. *)
Definition transpose3 {X : Type} (d0 d1 d2 : nat) (a : list (list (list X)))
  : list (list (list X)) :=
  map (fun i =>
    map (fun j =>
      flat_map (fun k => match item3 a k j i with
                         | Some x => [x]
                         | None => []
                         end)
               (seq 0 d0))
        (seq 0 d1))
      (seq 0 d2).

Section Model.
Context {num : PyNum}.

(** ** Scatterers and sampling points *)

(** [Sphere] and [Axisymmetric] are the two classes [Tmatrix] tests
    for with [isinstance]; [OtherScatterer] stands for an instance of
    any other class.  [n] is a Python complex, read through [n.real]
    and [n.imag]; [r] and [rotation] of an [Axisymmetric] are pairs. *)
Inductive scatterer : Type :=
| Sphere (r : float) (n_real n_imag : float)
| Axisymmetric (r0 r1 : float) (n_real n_imag : float)
               (rotation0 rotation1 : float) (shape : Z)
| OtherScatterer (class_name : string).

(** One row of [pos]: [(kr, theta, phi)]. *)
Record point : Type := Point { pt_kr : float; pt_theta : float; pt_phi : float }.

(** ** Text written to and read from files *)

(** What [str] is applied to. *)
Inductive pyval : Type :=
| PInt (z : Z)
| PFloat (x : float).

(** A line of a text file: [str(v) + '\n'], one row written by
    [np.savetxt], literal text, or literal text followed by [str(v)]. *)
Inductive line : Type :=
| Str (v : pyval)
| Row (xs : list float)
| Text (s : string)
| Labelled (label : string) (v : pyval).

(** A command-line argument: a literal or [str(v)]. *)
Inductive arg : Type :=
| Lit (s : string)
| StrOf (v : pyval).

(** ** The file system and the external programs *)

Inductive root : Type :=
| TempDir (n : nat)     (* a directory made by [tempfile.mkdtemp] *)
| PackageDir            (* the directory of [tmatrix.py] *)
| StartDir.             (* the directory the process starts in *)

Definition path : Type := (root * list string)%type.

(** What a finished subprocess leaves behind: its exit status and the
    text files it wrote, named relative to its working directory. *)
Record completed : Type := Completed {
  returncode : Z;
  outputs : list (list string * list line)
}.

(** An external program: from its arguments and the text files of its
    working directory to what it leaves behind. *)
Definition program : Type :=
  list arg -> list (list string * list line) -> completed.

Inductive content : Type :=
| Data (ls : list line)
| Exe (p : program).

Inductive event : Type :=
| Mkdtemp (d : root)
| Copy (src dst : path)
| Chdir (d : root)
| Open (p : path)
| Close (p : path)
| Rmtree (d : root)
| Exec (cmd : string) (args : list arg) (cwd : root)
       (inputs : list (list string * list line))
| Print (d : root).

Record world : Type := World {
  made : nat;                           (* temporary directories made so far *)
  tmpdirs : list nat;                   (* temporary directories that exist *)
  files : list (path * content);        (* in the order written *)
  cwd : root;                           (* the process's working directory *)
  on_path : list (string * program);    (* programs found through PATH *)
  log : list event                      (* effects so far, oldest first *)
}.

Definition root_eqb (a b : root) : bool :=
  match a, b with
  | TempDir n, TempDir m => Nat.eqb n m
  | PackageDir, PackageDir => true
  | StartDir, StartDir => true
  | _, _ => false
  end.

Definition path_eqb (a b : path) : bool :=
  root_eqb (fst a) (fst b) && list_eqb String.eqb (snd a) (snd b).

Definition lookup (p : path) (fs : list (path * content)) : option content :=
  match find (fun e => path_eqb (fst e) p) fs with
  | Some e => Some (snd e)
  | None => None
  end.

(** Writing a file replaces what was at the path; a new file is listed last. *)
Definition store (p : path) (c : content) (fs : list (path * content))
  : list (path * content) :=
  filter (fun e => negb (path_eqb (fst e) p)) fs ++ [(p, c)].

(** The text files a process started in [d] can read. *)
Definition visible (d : root) (fs : list (path * content))
  : list (list string * list line) :=
  flat_map (fun e =>
    match snd e with
    | Data ls => if root_eqb (fst (fst e)) d then [(snd (fst e), ls)] else []
    | Exe _ => []
    end) fs.

(** The names directly inside [d], in the order written, each once. *)
Definition listdir (d : root) (fs : list (path * content)) : list string :=
  nodup string_dec
    (flat_map (fun e =>
       if root_eqb (fst (fst e)) d
       then match snd (fst e) with
            | name :: _ => [name]
            | [] => []
            end
       else []) fs).

Definition dir_exists (d : root) (w : world) : bool :=
  match d with
  | TempDir n => existsb (Nat.eqb n) (tmpdirs w)
  | _ => true
  end.

(** ** Exceptions

    [TheoryNotCompatibleError] is imported by [tmatrix.py] and
    [DependencyMissing] is defined in [dda.py]; the others are what
    the library calls of the two modules raise, and neither module
    catches them (but for [DDA.__init__]) or defines any other. *)

(** The [Tmatrix] theory object. *)
Record Tmatrix_t : Type := Tmatrix { delete : bool }.

Inductive exn : Type :=
| TheoryNotCompatibleError (theory : Tmatrix_t) (s : scatterer)
| DependencyMissing (dep : string)
| CalledProcessError (returncode : Z) (cmd : string)
| OSError (p : path)           (* file, directory or executable not found *)
| IndexError
| ValueError
| ZeroDivisionError.

(** ** A state-and-exception monad for the effects *)

Definition M (A : Type) : Type := world -> outcome exn A * world.

Definition ret {A : Type} (a : A) : M A := fun w => (Return a, w).

Definition raise {A : Type} (e : exn) : M A := fun w => (Raise e, w).

Definition bind {A B : Type} (c : M A) (k : A -> M B) : M B :=
  fun w => match c w with
           | (Return a, w') => k a w'
           | (Raise e, w') => (Raise e, w')
           end.

(** [try: c  except ...: h e] *)
Definition try_except {A : Type} (c : M A) (h : exn -> M A) : M A :=
  fun w => match c w with
           | (Return a, w') => (Return a, w')
           | (Raise e, w') => h e w'
           end.

(** A pure computation that may raise. *)
Definition lift {A : Type} (r : outcome exn A) : M A := fun w => (r, w).

Definition emit (e : event) : M unit :=
  fun w => (Return tt,
            World (made w) (tmpdirs w) (files w) (cwd w) (on_path w) (log w ++ [e])).

(** [x / y] on two Python floats: a zero divisor raises. *)
Definition truediv (x y : float) : outcome exn float :=
  if is_zero y then Raise ZeroDivisionError else Return (x [/] y).

(** [z / y] on a Python complex and a float. *)
Definition ctruediv (z : complex) (y : float) : outcome exn complex :=
  if is_zero y then Raise ZeroDivisionError else Return (cdiv z (of_float y)).

End Model.

Notation "x <- c ;; k" := (bind c (fun x => k))
  (at level 61, c at next level, right associativity).
Notation "c ;;; k" := (bind c (fun _ => k))
  (at level 61, right associativity).

(** ** Operating-system calls *)

Section OS.
Context {num : PyNum} {fsys : FileSystem}.

Definition set_files (fs : list (path * content)) (w : world) : world :=
  World (made w) (tmpdirs w) fs (cwd w) (on_path w) (log w).

(** [tempfile.mkdtemp()]: a directory that did not exist before. *)
Definition mkdtemp : M root :=
  fun w =>
    let d := TempDir (made w) in
    (Return d,
     World (S (made w)) (made w :: tmpdirs w) (files w) (cwd w) (on_path w)
           (log w ++ [Mkdtemp d])).

(** [os.getcwd()] *)
Definition getcwd : M root := fun w => (Return (cwd w), w).

(** [os.chdir(d)] *)
Definition chdir (d : root) : M unit :=
  fun w =>
    if dir_exists d w
    then (Return tt,
          World (made w) (tmpdirs w) (files w) d (on_path w) (log w ++ [Chdir d]))
    else (Raise (OSError (d, [])), w).

(** [shutil.copy(src, dst_dir)]: the copy keeps the last component of
    [src] as its name; a missing source raises. *)
Definition copy (src : path) (dst_dir : root) : M unit :=
  fun w =>
    match lookup src (files w) with
    | Some c =>
        let dst := (dst_dir, [last (snd src) EmptyString]) in
        (Return tt,
         World (made w) (tmpdirs w) (store dst c (files w)) (cwd w) (on_path w)
               (log w ++ [Copy src dst]))
    | None => (Raise (OSError src), w)
    end.

(** [shutil.rmtree(d)]: the directory and everything below it. *)
Definition rmtree (d : root) : M unit :=
  fun w =>
    if dir_exists d w
    then (Return tt,
          World (made w)
                (match d with
                 | TempDir n => filter (fun m => negb (Nat.eqb n m)) (tmpdirs w)
                 | _ => tmpdirs w
                 end)
                (filter (fun e => negb (root_eqb (fst (fst e)) d)) (files w))
                (cwd w) (on_path w) (log w ++ [Rmtree d]))
    else (Raise (OSError (d, [])), w).

(** A file object open for writing: what was written to it reaches
    the file when it is closed. *)
Record file : Type := File { fh_path : path; fh_buf : list line }.

(** [open(p, 'w')]: creates the file, or empties it. *)
Definition open (p : path) : M file :=
  fun w =>
    (Return (File p []),
     World (made w) (tmpdirs w) (store p (Data []) (files w)) (cwd w) (on_path w)
           (log w ++ [Open p])).

(** [outf.write(l)] *)
Definition write (outf : file) (l : line) : file :=
  File (fh_path outf) (fh_buf outf ++ [l]).

(** [np.savetxt(outf, a)]: one row per line. *)
Definition savetxt (outf : file) (a : list (list float)) : file :=
  File (fh_path outf) (fh_buf outf ++ map Row a).

(** [outf.close()] *)
Definition close (outf : file) : M unit :=
  fun w =>
    (Return tt,
     World (made w) (tmpdirs w)
           (store (fh_path outf) (Data (fh_buf outf)) (files w))
           (cwd w) (on_path w) (log w ++ [Close (fh_path outf)])).

(** [print(d)] *)
Definition print (d : root) : M unit := emit (Print d).

(** Where a command is found: [./name] in the working directory of
    the subprocess, any other name through PATH. *)
Definition resolve (cmd : string) (dir : root) (w : world) : option program :=
  if prefix "./" cmd
  then match lookup (dir, [substring 2 (String.length cmd - 2) cmd]) (files w) with
       | Some (Exe p) => Some p
       | _ => None
       end
  else match find (fun e => String.eqb (fst e) cmd) (on_path w) with
       | Some e => Some (snd e)
       | None => None
       end.

Definition store_all (d : root) (outs : list (list string * list line))
                     (fs : list (path * content)) : list (path * content) :=
  fold_left (fun acc o => store (d, fst o) (Data (snd o)) acc) outs fs.

(** Run [cmd] with [args] in directory [dir] and wait for it. *)
Definition run_process (cmd : string) (args : list arg) (dir : root) : M completed :=
  fun w =>
    match resolve cmd dir w with
    | Some p =>
        let inputs := visible dir (files w) in
        let c := p args inputs in
        (Return c,
         World (made w) (tmpdirs w) (store_all dir (outputs c) (files w))
               (cwd w) (on_path w) (log w ++ [Exec cmd args dir inputs]))
    | None => (Raise (OSError (dir, [cmd])), w)
    end.

(** [subprocess.check_call([cmd] + args, cwd=dir)] *)
Definition check_call (cmd : string) (args : list arg) (dir : root) : M unit :=
  c <- run_process cmd args dir ;;
  if Z.eqb (returncode c) 0 then ret tt
  else raise (CalledProcessError (returncode c) cmd).

(** [subprocess.check_output([cmd] + args)], run in the current
    directory; the text it returns is not modelled. *)
Definition check_output (cmd : string) (args : list arg) : M unit :=
  d <- getcwd ;;
  check_call cmd args d.

(** The file-name patterns the two modules pass to [glob.glob]. *)
Inductive pattern : Type :=
| Exact (name : string)         (* no wildcard *)
| StartsWith (pre : string).    (* [pre*] *)

Definition matches (pat : pattern) (name : string) : bool :=
  match pat with
  | Exact n => String.eqb n name
  | StartsWith pre => prefix pre name
  end.

(** [glob.glob(os.path.join(d, pat))]: the matching names, in the
    order the file system lists the directory. *)
Definition glob (d : root) (pat : pattern) : M (list path) :=
  fun w =>
    (Return (map (fun name => (d, [name]))
                 (filter (matches pat) (dir_order (listdir d (files w))))), w).

(** [l[0]] *)
Definition item0 {X : Type} (l : list X) : outcome exn X :=
  match l with
  | x :: _ => Return x
  | [] => Raise IndexError
  end.

(** [l[i]] for [i >= 0] *)
Definition item {X : Type} (l : list X) (i : nat) : outcome exn X :=
  match nth_error l i with
  | Some x => Return x
  | None => Raise IndexError
  end.

End OS.

(** ** numpy arrays of solver output *)

Section Numpy.
Context {num : PyNum}.

(** What [np.loadtxt] returns: a two-dimensional array, or a
    one-dimensional one where a dimension of length one was squeezed
    away. *)
Inductive ndarray : Type :=
| Arr1 (v : list float)
| Arr2 (rows : list (list float)).

(** Whether nothing but white space comes before the first [#] of a
    line, or before its end: [np.loadtxt] cuts a line at the comment
    character and skips it when nothing is left. *)
Fixpoint blank_before_comment (s : string) : bool :=
  match s with
  | EmptyString => true
  | String c s' =>
      if Ascii.eqb c "#" then true
      else if Ascii.eqb c " " || Ascii.eqb c "009" then blank_before_comment s'
           else false
  end.

(** The numbers on one line.  A line that is a comment counts as an
    empty one; other text ([Text] and the label of [Labelled] stand
    for text that is not a number) raises. *)
Definition parse_line (l : line) : outcome exn (list float) :=
  match l with
  | Row xs => Return xs
  | Str (PFloat x) => Return [x]
  | Str (PInt z) => Return [of_int z]
  | Text s => if blank_before_comment s then Return [] else Raise ValueError
  | Labelled label v =>
      if blank_before_comment label
      then if existsb (Ascii.eqb "#") (list_ascii_of_string label)
           then Return []
           else match v with
                | PFloat x => Return [x]
                | PInt z => Return [of_int z]
                end
      else Raise ValueError
  end.

Definition is_empty {X : Type} (l : list X) : bool :=
  match l with [] => true | _ => false end.

Definition same_width (rows : list (list float)) : bool :=
  match rows with
  | [] => true
  | r :: rs => forallb (fun r' => Nat.eqb (List.length r') (List.length r)) rs
  end.

(** [np.loadtxt] on the lines of a file: skip [skiprows] lines, drop
    empty ones, demand the same number of columns on every line, and
    squeeze (the default [ndmin=0]). *)
Definition parse_table (skiprows : nat) (ls : list line) : outcome exn ndarray :=
  match all_ok (map parse_line (skipn skiprows ls)) with
  | Raise e => Raise e
  | Return rows0 =>
      let rows := filter (fun r => negb (is_empty r)) rows0 in
      if same_width rows
      then match rows with
           | [] => Return (Arr1 [])
           | [r] => Return (Arr1 r)
           | r :: _ => if Nat.eqb (List.length r) 1
                       then Return (Arr1 (List.concat rows))
                       else Return (Arr2 rows)
           end
      else Raise ValueError
  end.

(** [np.loadtxt(p, skiprows=skiprows)] *)
Definition loadtxt (p : path) (skiprows : nat) : M ndarray :=
  fun w =>
    match lookup p (files w) with
    | Some (Data ls) => (parse_table skiprows ls, w)
    | Some (Exe _) => (Raise ValueError, w)
    | None => (Raise (OSError p), w)
    end.

(** [a[:, start::2]]: two indices on a one-dimensional array raise. *)
Definition cols_from (start : nat) (a : ndarray) : outcome exn (list (list float)) :=
  match a with
  | Arr1 _ => Raise IndexError
  | Arr2 rows => Return (map (slice2 start) rows)
  end.

(** [a[:, k]] on a float array from [np.loadtxt] *)
Definition fcolumn (k : nat) (a : ndarray) : outcome exn (list float) :=
  match a with
  | Arr1 _ => Raise IndexError
  | Arr2 rows => all_ok (map (fun r => item r k) rows)
  end.

(** [s[:, k]] on a two-dimensional complex array *)
Definition column (k : nat) (s : list (list complex)) : outcome exn (list complex) :=
  all_ok (map (fun r => item r k) s).

(** One row of [re + 1.0j*im], with numpy's broadcasting of a row of
    length one. *)
Definition combine_row (re im : list float) : outcome exn (list complex) :=
  let c x y := cadd (of_float x) (cmul (imag (of_int 1)) (of_float y)) in
  if Nat.eqb (List.length re) (List.length im) then Return (zip_with c re im)
  else match im, re with
       | [y], _ => Return (map (fun x => c x y) re)
       | _, [x] => Return (map (fun y => c x y) im)
       | _, _ => Raise ValueError
       end.

(** [re + 1.0j*im] for two arrays with the same number of rows *)
Definition combine_complex (re im : list (list float))
  : outcome exn (list (list complex)) :=
  all_ok (zip_with combine_row re im).

(** [s*k] *)
Definition scale (s : list (list complex)) (k : complex) : list (list complex) :=
  map (map (fun z => cmul z k)) s.

End Numpy.

(** Sequencing of pure computations that may raise. *)
Notation "x <-- c ;; k" :=
  (match c with
   | Return x => k
   | Raise e => Raise e
   end)
  (at level 61, c at next level, right associativity).

(** ** [holopy/scattering/theory/tmatrix.py] *)

Module TmatrixTheory.
Section Tmatrix.
Context {num : PyNum} {fsys : FileSystem}.

(** [_can_handle]: [isinstance(scatterer, Sphere) or isinstance(scatterer, Axisymmetric)] *)
Definition _can_handle (self : Tmatrix_t) (s : scatterer) : bool :=
  match s with
  | Sphere _ _ _ => true
  | Axisymmetric _ _ _ _ _ _ _ => true
  | OtherScatterer _ => false
  end.

(** [_run_tmat]: [subprocess.check_call(['./S.exe'], cwd=temp_dir)] *)
Definition _run_tmat (self : Tmatrix_t) (temp_dir : root) : M unit :=
  check_call "./S.exe" [] temp_dir.

(** [x * 180/np.pi] *)
Definition degrees (x : float) : float := x [*] of_int 180 [/] np_pi.

(** [angles = pos[:, 1:] * 180/np.pi] *)
Definition angles_of (pos : list point) : list (list float) :=
  map (fun p => [degrees (pt_theta p); degrees (pt_phi p)]) pos.

(** [med_wavelen = 2*np.pi/medium_wavevec] *)
Definition med_wavelen_of (medium_wavevec : float) : float :=
  of_int 2 [*] np_pi [/] medium_wavevec.

(** [-2j*np.pi/med_wavelen] *)
Definition mishchenko_factor (med_wavelen : float) : complex :=
  cdiv (cmul (cneg (imag (of_int 2))) (of_float np_pi)) (of_float med_wavelen).

(** Lines 137 to 141 of [_raw_scat_matrs]: from the loaded table to
    [scat_matr].
<<
    s = tmat_result[:,0::2] + 1.0j*tmat_result[:,1::2]
    s = s*(-2j*np.pi/med_wavelen)
    scat_matr = np.array([[s[:,0], s[:,1]], [-s[:,2], -s[:,3]]]).transpose()
>> *)
Definition scat_matr_of (tmat_result : ndarray) (med_wavelen : float)
  : outcome exn (list (list (list complex))) :=
  re <-- cols_from 0 tmat_result ;;
  im <-- cols_from 1 tmat_result ;;
  s <-- combine_complex re im ;;
  k <-- ctruediv (cmul (cneg (imag (of_int 2))) (of_float np_pi)) med_wavelen ;;
  let s := scale s k in
  s0 <-- column 0 s ;;
  s1 <-- column 1 s ;;
  s2 <-- column 2 s ;;
  s3 <-- column 3 s ;;
  Return (transpose3 2 2 (List.length s)
            [[s0; s1]; [map cneg s2; map cneg s3]]).

(** [_raw_scat_matrs(self, scatterer, pos, medium_wavevec, medium_index)] *)
Definition _raw_scat_matrs (self : Tmatrix_t) (scat : scatterer) (pos : list point)
    (medium_wavevec medium_index : float) : M (list (list (list complex))) :=
  temp_dir <- mkdtemp ;;
  current_directory <- getcwd ;;
  let tmatrixlocation := (PackageDir, ["tmatrix_f"; "S.exe"]) in
  copy tmatrixlocation temp_dir ;;;
  chdir temp_dir ;;;
  let angles := angles_of pos in
  outf <- open (temp_dir, ["tmatrix_tmp.inp"]) ;;
  med_wavelen <- lift (truediv (of_int 2 [*] np_pi) medium_wavevec) ;;
  outf <- match scat with
          | Sphere r n_real n_imag =>
              let outf := write outf (Str (PFloat r)) in
              let outf := write outf (Str (PFloat med_wavelen)) in
              n_re <- lift (truediv n_real medium_index) ;;
              let outf := write outf (Str (PFloat n_re)) in
              n_im <- lift (truediv n_imag medium_index) ;;
              let outf := write outf (Str (PFloat n_im)) in
              let outf := write outf (Str (PInt 1)) in
              let outf := write outf (Str (PInt 0)) in
              let outf := write outf (Str (PInt 0)) in
              let outf := write outf (Str (PInt (-1))) in
              let outf := write outf (Str (PInt (Z.of_nat (List.length angles)))) in
              ret outf
          | Axisymmetric r0 r1 n_real n_imag rotation0 rotation1 shape =>
              let outf :=
                if Z.eqb shape (-1)
                then write outf
                       (Str (PFloat ((r1 [*] r0 [**] of_int 2) [**] (of_int 1 [/] of_int 3))))
                else outf in
              let outf :=
                if Z.eqb shape (-2)
                then write outf
                       (Str (PFloat ((of_int 3 [/] of_int 2 [*] r1 [*] r0 [**] of_int 2)
                                     [**] (of_int 1 [/] of_int 3))))
                else outf in
              let outf := write outf (Str (PFloat med_wavelen)) in
              n_re <- lift (truediv n_real medium_index) ;;
              let outf := write outf (Str (PFloat n_re)) in
              n_im <- lift (truediv n_imag medium_index) ;;
              let outf := write outf (Str (PFloat n_im)) in
              ratio <- lift (truediv r0 r1) ;;
              let outf := write outf (Str (PFloat ratio)) in
              let outf := write outf (Str (PFloat (degrees rotation1))) in
              let outf := write outf (Str (PFloat (degrees rotation0))) in
              let outf := write outf (Str (PInt shape)) in
              let outf := write outf (Str (PInt (Z.of_nat (List.length angles)))) in
              ret outf
          | OtherScatterer _ =>
              (* cleanup and raise error *)
              close outf ;;;
              rmtree temp_dir ;;;
              raise (TheoryNotCompatibleError self scat)
          end ;;
  (* Now write all the angles *)
  let outf := savetxt outf angles in
  close outf ;;;
  _run_tmat self temp_dir ;;;
  (* Go into the results directory *)
  found <- glob temp_dir (Exact "tmatrix_tmp.out") ;;
  result_file <- lift (item0 found) ;;
  tmat_result <- loadtxt result_file 0 ;;
  scat_matr <- lift (scat_matr_of tmat_result med_wavelen) ;;
  chdir current_directory ;;;
  (if delete self then rmtree temp_dir else ret tt) ;;;
  ret scat_matr.

End Tmatrix.

Section Fields.
Context {num : PyNum} {fsys : FileSystem} {trig : PyTrig}.

(** [mieangfuncs.calc_scat_field], a Fortran routine: the scattered
    field in spherical components from [kr], [phi], a 2x2 amplitude
    matrix and the polarization. *)
Variable calc_scat_field :
  float -> float -> list (list complex) -> list float -> complex * complex.

(** [mieangfuncs.fieldstocart], a Fortran routine: the three
    Cartesian components of a field given in spherical ones. *)
Variable fieldstocart : complex * complex -> float -> float -> complex * complex * complex.

(** One row of [np.dot(m, b)] for a 2x2 float matrix [b]; numpy
    raises when the shapes are not aligned. *)
Definition dot_row (row : list complex) (b : list (list float))
  : outcome exn (list complex) :=
  match row, b with
  | [a0; a1], [[b00; b01]; [b10; b11]] =>
      Return [cadd (cmul a0 (of_float b00)) (cmul a1 (of_float b10));
              cadd (cmul a0 (of_float b01)) (cmul a1 (of_float b11))]
  | _, _ => Raise ValueError
  end.

(** [np.dot(m, b)] *)
Definition dot (m : list (list complex)) (b : list (list float))
  : outcome exn (list (list complex)) :=
  all_ok (map (fun row => dot_row row b) m).

(** The body of the loop of [_raw_fields] for the point of index [i]. *)
Definition field_at (scat_matr : list (list (list complex)))
    (illum_polarization : list float) (i : nat) (point0 : point)
  : outcome exn (complex * complex * complex) :=
  let kr := pt_kr point0 in
  let theta := pt_theta point0 in
  let phi := pt_phi point0 in
  let postfactor := [[np_cos phi; np_sin phi]; [fneg (np_sin phi); np_cos phi]] in
  m <-- item scat_matr i ;;
  prod <-- dot m postfactor ;;
  let escat_sph := calc_scat_field kr phi prod (firstn 2 illum_polarization) in
  Return (fieldstocart escat_sph theta phi).

(** [_raw_fields(self, pos, scatterer, medium_wavevec, medium_index,
    illum_polarization)].  [pos] has shape (3, N) and is given by its
    N columns, which [pos.T] makes the rows; the result has shape
    (3, N) and is given by its three rows. *)
Definition _raw_fields (self : Tmatrix_t) (pos : list point) (scat : scatterer)
    (medium_wavevec medium_index : float) (illum_polarization : list float)
  : M (list (list complex)) :=
  scat_matr <- _raw_scat_matrs self scat pos medium_wavevec medium_index ;;
  fields <- lift (all_ok (map (fun ip => field_at scat_matr illum_polarization
                                           (fst ip) (snd ip))
                              (combine (seq 0 (List.length pos)) pos))) ;;
  (* fields.T *)
  ret [map (fun f => fst (fst f)) fields;
       map (fun f => snd (fst f)) fields;
       map (fun f => snd f) fields].

End Fields.
End TmatrixTheory.

(** ** [scatterpy/theory/dda.py] *)

Module DDATheory.
Section DDA.
Context {num : PyNum} {fsys : FileSystem}.

(** What [calc_holo] reads of [self.optics]. *)
Record Optics : Type := {
  med_wavelen : float;
  index : float;
  wavevec : float;
  polarization : float * float
}.

(** The [DDA] theory object. *)
Record DDA_t : Type := DDA { optics : Optics; imshape : nat * nat }.

(** What [calc_holo] reads of its scatterer. *)
Record sphere : Type := {
  center : float * float * float;
  r : float;
  n_real : float;
  n_imag : float;
  z : float
}.

Record Hologram : Type := { pixels : list (list float); holo_optics : Optics }.

(** [ScatteringTheory._spherical_grid], inherited from a base class
    that is not among the sources: the [(kr, theta, phi)] of every
    pixel, flattened. *)
Variable _spherical_grid : DDA_t -> float * float * float -> list point.

(** [mieangfuncs.paraxholocl], a Fortran routine: one pixel from
    [kr], [kz], [theta], [phi], the 2x2 matrix of the point, the
    polarization and [alpha]. *)
Variable paraxholocl :
  float -> float -> float -> float -> list (list complex) -> float * float -> float -> float.

(** [DDA.__init__]: check that adda is present and able to run. *)
Definition __init__ (optics0 : Optics) (imshape0 : nat * nat) : M DDA_t :=
  try_except (check_output "adda" [Lit "-V"])
    (fun e => match e with
              | CalledProcessError _ _ => raise (DependencyMissing "adda")
              | OSError _ => raise (DependencyMissing "adda")
              | _ => raise e
              end) ;;;
  ret (DDA optics0 imshape0).

(** [x * 180/np.pi] *)
Definition degrees (x : float) : float := x [*] of_int 180 [/] np_pi.

(** [_write_adda_angles_file(self, theta, phi, kr, temp_dir)] *)
Definition _write_adda_angles_file (self : DDA_t) (theta phi kr : list float)
    (temp_dir : root) : M unit :=
  (* adda expects degrees, so convert *)
  let angles := zip_with (fun t p => [degrees t; degrees p]) theta phi in
  outf <- open (temp_dir, ["scat_params.dat"]) ;;
  (* write the header on the scattering angles file *)
  let outf := write outf (Text "global_type=pairs") in
  let outf := write outf (Labelled "N=" (PInt (Z.of_nat (List.length phi)))) in
  let outf := write outf (Text "pairs=") in
  (* Now write all the angles *)
  let outf := savetxt outf angles in
  close outf.

(** Lines 142 to 146 of [calc_holo].
<<
    s = adda_result[:,2::2] + 1.0j*adda_result[:,3::2]
    scat_matr = np.array([[s[:,1], s[:,2]], [s[:,3], s[:,0]]]).transpose()
>> *)
Definition scat_matr_of (adda_result : ndarray)
  : outcome exn (list (list (list complex))) :=
  re <-- cols_from 2 adda_result ;;
  im <-- cols_from 3 adda_result ;;
  s <-- combine_complex re im ;;
  s1 <-- column 1 s ;;
  s2 <-- column 2 s ;;
  s3 <-- column 3 s ;;
  s0 <-- column 0 s ;;
  Return (transpose3 2 2 (List.length s) [[s1; s2]; [s3; s0]]).

(** [pixels.reshape(shape)] *)
Fixpoint chunks {X : Type} (rows cols : nat) (l : list X) : list (list X) :=
  match rows with
  | O => []
  | S rows' => firstn cols l :: chunks rows' cols (skipn cols l)
  end.

Definition reshape {X : Type} (shape : nat * nat) (l : list X)
  : outcome exn (list (list X)) :=
  if Nat.eqb (fst shape * snd shape) (List.length l)
  then Return (chunks (fst shape) (snd shape) l)
  else Raise ValueError.

(** The loop of [calc_holo] that fills [pixels]. *)
Definition fill_pixels (self : DDA_t) (scat : sphere) (alpha : float)
    (grid : list point) (scat_matr : list (list (list complex)))
  : outcome exn (list float) :=
  all_ok (map (fun ip =>
                 m <-- item scat_matr (fst ip) ;;
                 Return (paraxholocl (pt_kr (snd ip)) (z scat [*] wavevec (optics self))
                           (pt_theta (snd ip)) (pt_phi (snd ip)) m
                           (polarization (optics self)) alpha))
              (combine (seq 0 (List.length grid)) grid)).

(** [calc_holo(self, scatterer, alpha)], up to its first [return]. *)
Definition calc_holo (self : DDA_t) (scat : sphere) (alpha : float) : M Hologram :=
  temp_dir <- mkdtemp ;;
  let grid := _spherical_grid self (center scat) in
  let theta := map pt_theta grid in
  let phi := map pt_phi grid in
  let kr := map pt_kr grid in
  _write_adda_angles_file self theta phi kr temp_dir ;;;
  (* the argument list is built before adda is started *)
  m_re <- lift (truediv (n_real scat) (index (optics self))) ;;
  m_im <- lift (truediv (n_imag scat) (index (optics self))) ;;
  check_call "adda"
    [Lit "-scat_matr"; Lit "ampl"; Lit "-store_scat_grid";
     Lit "-lambda"; StrOf (PFloat (med_wavelen (optics self)));
     Lit "-eq_rad"; StrOf (PFloat (r scat)); Lit "-m";
     StrOf (PFloat m_re); StrOf (PFloat m_im)]
    temp_dir ;;;
  (* Go into the results directory, there should only be one run *)
  found <- glob temp_dir (StartsWith "run000") ;;
  result_dir <- lift (item0 found) ;;
  adda_result <- loadtxt (fst result_dir, (snd result_dir ++ ["ampl_scatgrid"])%list) 1 ;;
  out_theta <- lift (fcolumn 0 adda_result) ;;
  out_phi <- lift (fcolumn 1 adda_result) ;;
  scat_matr <- lift (scat_matr_of adda_result) ;;
  (* shutil.rmtree(temp_dir) is commented out in the source *)
  print temp_dir ;;;
  pixels0 <- lift (fill_pixels self scat alpha grid scat_matr) ;;
  shaped <- lift (reshape (imshape self) pixels0) ;;
  ret (Build_Hologram shaped (optics self)).

End DDA.

(** [DependencyMissing.__str__] *)
Definition __str__ (dep : string) : string :=
  String.append "External Dependency: "
    (String.append dep
       " could not be found.  Is it installed and configured properly?").

End DDATheory.

(** ** An instance of the arithmetic: real and complex numbers

    Floats read as the real numbers they stand for, complex numbers
    as pairs of them.  [Rpower] agrees with [**] on a positive base,
    which is what a radius is. *)

Module RealNum.

Record C : Type := mkC { re : R; im : R }.

Definition Cadd (a b : C) : C := mkC (re a + re b) (im a + im b).

Definition Cmul (a b : C) : C :=
  mkC (re a * re b - im a * im b) (re a * im b + im a * re b).

Definition Cdiv (a b : C) : C :=
  let d := (re b * re b + im b * im b)%R in
  mkC ((re a * re b + im a * im b) / d) ((im a * re b - re a * im b) / d).

Definition Cneg (a : C) : C := mkC (- re a) (- im a).

#[export] Instance real_num : PyNum := {|
  float := R;
  complex := C;
  is_zero := fun x => if Req_dec_T x 0 then true else false;
  of_int := IZR;
  fmul := Rmult;
  fdiv := Rdiv;
  fpow := Rpower;
  np_pi := PI;
  of_float := fun x => mkC x 0;
  imag := fun y => mkC 0 y;
  cadd := Cadd;
  cmul := Cmul;
  cdiv := Cdiv;
  cneg := Cneg
|}.

#[export] Instance real_trig : PyTrig := {|
  np_cos := cos;
  np_sin := sin;
  fneg := Ropp
|}.

End RealNum.

(** * Vocabulary of the specifications *)

Unset Implicit Arguments.

Section Vocabulary.
Context {num : PyNum} {fsys : FileSystem}.

(** [a + 1.0j*b] for two floats *)
Definition cplx (a b : float) : complex :=
  cadd (of_float a) (cmul (imag (of_int 1)) (of_float b)).

(** Column [i] of a row of floats. *)
Definition col (r : list float) (i : nat) : float := nth i r (of_int 0).

(** The complex numbers of a row whose real and imaginary parts
    alternate from column [start] on. *)
Definition pairs_from (start : nat) (r : list float) : list complex :=
  [cplx (col r start) (col r (start + 1));
   cplx (col r (start + 2)) (col r (start + 3));
   cplx (col r (start + 4)) (col r (start + 5));
   cplx (col r (start + 6)) (col r (start + 7))].

(** The matrix [TmatrixTheory.scat_matr_of] yields for one row of
    [tmatrix_tmp.out]. *)
Definition tmatrix_point (med_wavelen : float) (r : list float) : list (list complex) :=
  let k := TmatrixTheory.mishchenko_factor med_wavelen in
  let s i := cmul (cplx (col r (2 * i)) (col r (2 * i + 1))) k in
  [[s 0%nat; cneg (s 2%nat)]; [s 1%nat; cneg (s 3%nat)]].

(** The matrix [DDATheory.scat_matr_of] yields for one row of
    [ampl_scatgrid]. *)
Definition dda_point (r : list float) : list (list complex) :=
  let s i := cplx (col r (2 + 2 * i)) (col r (3 + 2 * i)) in
  [[s 1%nat; s 3%nat]; [s 2%nat; s 0%nat]].

(** [triple P c Q E]: started in a world satisfying [P], [c] either
    returns [a] in a world satisfying [Q a] or raises [e] in a world
    satisfying [E e]. *)
Definition triple {A : Type} (P : world -> Prop) (c : M A)
    (Q : A -> world -> Prop) (E : exn -> world -> Prop) : Prop :=
  forall w, P w ->
    match c w with
    | (Return a, w') => Q a w'
    | (Raise e, w') => E e w'
    end.

(** The exceptions of Python and numpy themselves, as opposed to
    [TheoryNotCompatibleError] and [DependencyMissing]. *)
Definition builtin (e : exn) : Prop :=
  match e with
  | TheoryNotCompatibleError _ _ => False
  | DependencyMissing _ => False
  | _ => True
  end.

(** [keeps I c]: [c] maintains [I] on every exit and raises only
    built-in exceptions. *)
Definition keeps {A : Type} (I : world -> Prop) (c : M A) : Prop :=
  triple I c (fun _ => I) (fun e w => builtin e /\ I w).

(** A pure computation raises nothing but built-in exceptions. *)
Definition raises_builtin {A : Type} (r : outcome exn A) : Prop :=
  match r with
  | Return _ => True
  | Raise e => builtin e
  end.

(** [w'] has every temporary directory and every log entry of [w]. *)
Definition extends (w w' : world) : Prop :=
  (exists l, log w' = (log w ++ l)%list) /\
  (forall n, In n (tmpdirs w) -> In n (tmpdirs w')).

(** [c] only adds to the world, and raises only built-in exceptions. *)
Definition grows {A : Type} (c : M A) : Prop :=
  forall w, extends w (snd (c w)) /\ raises_builtin (fst (c w)).

(** [I] survives additions to the world. *)
Definition monotone (I : world -> Prop) : Prop :=
  forall w w', extends w w' -> I w -> I w'.

(** The temporary directory [d] exists. *)
Definition tempdir_kept (d : root) (w : world) : Prop := dir_exists d w = true.

(** The effect [ev] has happened. *)
Definition logged (ev : event) (w : world) : Prop := In ev (log w).

(** Where [tmatrix.py] expects the compiled solver. *)
Definition solver_path : path := (PackageDir, ["tmatrix_f"; "S.exe"]).

(** No file lies below [d]: what holds of a directory that is about
    to be made. *)
Definition fresh (d : root) (fs : list (path * content)) : Prop :=
  forall e, In e fs -> root_eqb (fst (fst e)) d = false.

(** The lines [_raw_scat_matrs] writes for a [Sphere] before the angles. *)
Definition sphere_header (r n_real n_imag : float) (n_points : nat)
    (medium_wavevec medium_index : float) : list line :=
  [Str (PFloat r);
   Str (PFloat (of_int 2 [*] np_pi [/] medium_wavevec));
   Str (PFloat (n_real [/] medium_index));
   Str (PFloat (n_imag [/] medium_index));
   Str (PInt 1);
   Str (PInt 0);
   Str (PInt 0);
   Str (PInt (-1));
   Str (PInt (Z.of_nat n_points))].

(** The lines it writes for an [Axisymmetric] after the equivalent radius. *)
Definition axisymmetric_header (r0 r1 n_real n_imag rotation0 rotation1 : float)
    (shape : Z) (n_points : nat) (medium_wavevec medium_index : float) : list line :=
  [Str (PFloat (of_int 2 [*] np_pi [/] medium_wavevec));
   Str (PFloat (n_real [/] medium_index));
   Str (PFloat (n_imag [/] medium_index));
   Str (PFloat (r0 [/] r1));
   Str (PFloat (rotation1 [*] of_int 180 [/] np_pi));
   Str (PFloat (rotation0 [*] of_int 180 [/] np_pi));
   Str (PInt shape);
   Str (PInt (Z.of_nat n_points))].

(** The angle table: one row [(theta, phi)] in degrees per point. *)
Definition angle_rows (pos : list point) : list line :=
  map (fun p => Row [pt_theta p [*] of_int 180 [/] np_pi;
                     pt_phi p [*] of_int 180 [/] np_pi]) pos.

(** The world in which [_raw_scat_matrs] starts the solver, when the
    input file holds [payload]. *)
Definition staged (w : world) (c : content) (payload : list line) : world :=
  let d := TempDir (made w) in
  World (S (made w)) (made w :: tmpdirs w)
        (files w ++ [((d, ["S.exe"]), c); ((d, ["tmatrix_tmp.inp"]), Data payload)])
        d (on_path w)
        (log w ++ [Mkdtemp d; Copy solver_path (d, ["S.exe"]); Chdir d;
                   Open (d, ["tmatrix_tmp.inp"]); Close (d, ["tmatrix_tmp.inp"])]).

(** [_raw_scat_matrs] from the search for the result file on. *)
Definition read_result (self : Tmatrix_t) (temp_dir current_directory : root)
    (med_wavelen : float) : M (list (list (list complex))) :=
  found <- glob temp_dir (Exact "tmatrix_tmp.out") ;;
  result_file <- lift (item0 found) ;;
  tmat_result <- loadtxt result_file 0 ;;
  scat_matr <- lift (TmatrixTheory.scat_matr_of tmat_result med_wavelen) ;;
  chdir current_directory ;;;
  (if delete self then rmtree temp_dir else ret tt) ;;;
  ret scat_matr.

(** [_raw_scat_matrs] from the call of the solver on. *)
Definition solve_and_read (self : Tmatrix_t) (temp_dir current_directory : root)
    (med_wavelen : float) : M (list (list (list complex))) :=
  TmatrixTheory._run_tmat self temp_dir ;;;
  read_result self temp_dir current_directory med_wavelen.

(** The world the solver leaves, started on [payload] in [staged]. *)
Definition solved (w : world) (p : program) (payload : list line) : world :=
  let d := TempDir (made w) in
  let inputs := [(["tmatrix_tmp.inp"], payload)] in
  World (S (made w)) (made w :: tmpdirs w)
        (files w ++ store_all d (outputs (p [] inputs))
                      [((d, ["S.exe"]), Exe p); ((d, ["tmatrix_tmp.inp"]), Data payload)])
        d (on_path w)
        (log w ++ [Mkdtemp d; Copy solver_path (d, ["S.exe"]); Chdir d;
                   Open (d, ["tmatrix_tmp.inp"]); Close (d, ["tmatrix_tmp.inp"]);
                   Exec "./S.exe" [] d inputs]).

(** The line with the equivalent radius, where [_raw_scat_matrs]
    writes one. *)
Definition radius_lines (r0 r1 : float) (shape : Z) : list line :=
  ((if Z.eqb shape (-1)
    then [Str (PFloat ((r1 [*] r0 [**] of_int 2) [**] (of_int 1 [/] of_int 3)))]
    else []) ++
   (if Z.eqb shape (-2)
    then [Str (PFloat ((of_int 3 [/] of_int 2 [*] r1 [*] r0 [**] of_int 2)
                       [**] (of_int 1 [/] of_int 3)))]
    else []))%list.

(** The arguments [calc_holo] passes to adda. *)
Definition adda_args (self : DDATheory.DDA_t) (scat : DDATheory.sphere) : list arg :=
  [Lit "-scat_matr"; Lit "ampl"; Lit "-store_scat_grid";
   Lit "-lambda"; StrOf (PFloat (DDATheory.med_wavelen (DDATheory.optics self)));
   Lit "-eq_rad"; StrOf (PFloat (DDATheory.r scat)); Lit "-m";
   StrOf (PFloat (DDATheory.n_real scat [/] DDATheory.index (DDATheory.optics self)));
   StrOf (PFloat (DDATheory.n_imag scat [/] DDATheory.index (DDATheory.optics self)))].

(** What [_write_adda_angles_file] puts in [scat_params.dat]. *)
Definition scat_params (grid : list point) : list line :=
  [Text "global_type=pairs";
   Labelled "N=" (PInt (Z.of_nat (List.length grid)));
   Text "pairs="] ++ angle_rows grid.

(** None of the divisors of [_raw_scat_matrs] is zero:
    [medium_wavevec], [medium_index] and, for an [Axisymmetric],
    [r[1]]. *)
Definition divisors_nonzero (scat : scatterer) (medium_wavevec medium_index : float)
  : bool :=
  negb (is_zero medium_wavevec) && negb (is_zero medium_index) &&
  match scat with
  | Axisymmetric _ r1 _ _ _ _ _ => negb (is_zero r1)
  | _ => true
  end.

(** The input file [_raw_scat_matrs] writes for a scatterer it handles. *)
Definition input_lines (scat : scatterer) (pos : list point)
    (medium_wavevec medium_index : float) : list line :=
  match scat with
  | Sphere r n_real n_imag =>
      sphere_header r n_real n_imag (List.length pos) medium_wavevec medium_index
      ++ angle_rows pos
  | Axisymmetric r0 r1 n_real n_imag rotation0 rotation1 shape =>
      radius_lines r0 r1 shape
      ++ axisymmetric_header r0 r1 n_real n_imag rotation0 rotation1 shape
           (List.length pos) medium_wavevec medium_index
      ++ angle_rows pos
  | OtherScatterer _ => []
  end.

End Vocabulary.

Section DDAVocabulary.
Context {num : PyNum} {fsys : FileSystem}.
Variable spherical_grid : DDATheory.DDA_t -> float * float * float -> list point.
Variable paraxholocl :
  float -> float -> float -> float -> list (list complex) -> float * float -> float -> float.

(** The hologram [calc_holo] computes from the lines of one
    [ampl_scatgrid] file. *)
Definition hologram_from (self : DDATheory.DDA_t) (scat : DDATheory.sphere)
    (alpha : float) (table : list line) : outcome exn DDATheory.Hologram :=
  let grid := spherical_grid self (DDATheory.center scat) in
  adda_result <-- parse_table 1 table ;;
  out_theta <-- fcolumn 0 adda_result ;;
  out_phi <-- fcolumn 1 adda_result ;;
  scat_matr <-- DDATheory.scat_matr_of adda_result ;;
  pixels0 <-- DDATheory.fill_pixels paraxholocl self scat alpha grid scat_matr ;;
  shaped <-- DDATheory.reshape (DDATheory.imshape self) pixels0 ;;
  Return (DDATheory.Build_Hologram shaped (DDATheory.optics self)).

End DDAVocabulary.

(** ** Vocabulary of the further properties *)

Section FrameVocabulary.
Context {num : PyNum} {fsys : FileSystem}.

(** [c] stays inside the directory [d]: it leaves the working
    directory of the process, the temporary directories that exist
    and every file outside [d] as they were. *)
Definition inside (d : root) {A : Type} (c : M A) : Prop :=
  forall w,
    cwd (snd (c w)) = cwd w /\
    (forall n, In n (tmpdirs w) -> In n (tmpdirs (snd (c w)))) /\
    (forall q, fst q <> d -> lookup q (files (snd (c w))) = lookup q (files w)).

(** Every file outside [d] is as it is in [base]. *)
Definition outside_as (d : root) (base : list (path * content)) (w : world) : Prop :=
  forall q, fst q <> d -> lookup q (files w) = lookup q base.

(** What holds of [_raw_scat_matrs] between [os.chdir(temp_dir)] and
    the way back. *)
Definition in_tempdir (d : root) (base : list (path * content)) (w : world) : Prop :=
  cwd w = d /\ tempdir_kept d w /\ outside_as d base w.

End FrameVocabulary.

Section RunVocabulary.
Context {num : PyNum} {fsys : FileSystem}.
Variable spherical_grid : DDATheory.DDA_t -> float * float * float -> list point.
Variable paraxholocl :
  float -> float -> float -> float -> list (list complex) -> float * float -> float -> float.

(** The world adda leaves, started by [calc_holo] for [grid]. *)
Definition adda_done (w : world) (p : program) (args : list arg) (grid : list point)
  : world :=
  let d := TempDir (made w) in
  let inputs := [(["scat_params.dat"], scat_params grid)] in
  World (S (made w)) (made w :: tmpdirs w)
        (files w ++ store_all d (outputs (p args inputs))
                      [((d, ["scat_params.dat"]), Data (scat_params grid))])
        (cwd w) (on_path w)
        (log w ++ [Mkdtemp d; Open (d, ["scat_params.dat"]);
                   Close (d, ["scat_params.dat"]); Exec "adda" args d inputs]).

(** The first name [glob] lists for [run000*] in [d]. *)
Definition first_run_listed (d : root) (w : world) : option string :=
  hd_error (filter (matches (StartsWith "run000")) (dir_order (listdir d (files w)))).

(** [calc_holo] from the search for the run directory on. *)
Definition read_holo (self : DDATheory.DDA_t) (scat : DDATheory.sphere) (alpha : float)
    (temp_dir : root) : M DDATheory.Hologram :=
  let grid := spherical_grid self (DDATheory.center scat) in
  found <- glob temp_dir (StartsWith "run000") ;;
  result_dir <- lift (item0 found) ;;
  adda_result <- loadtxt (fst result_dir, (snd result_dir ++ ["ampl_scatgrid"])%list) 1 ;;
  out_theta <- lift (fcolumn 0 adda_result) ;;
  out_phi <- lift (fcolumn 1 adda_result) ;;
  scat_matr <- lift (DDATheory.scat_matr_of adda_result) ;;
  print temp_dir ;;;
  pixels0 <- lift (DDATheory.fill_pixels paraxholocl self scat alpha grid scat_matr) ;;
  shaped <- lift (DDATheory.reshape (DDATheory.imshape self) pixels0) ;;
  ret (DDATheory.Build_Hologram shaped (DDATheory.optics self)).

(** The run directories adda left, as its output files. *)
Definition run_outputs (runs : list (string * list line))
  : list (list string * list line) :=
  map (fun nt => ([fst nt; "ampl_scatgrid"], snd nt)) runs.

(** The pixel [calc_holo] computes for a grid point from a row of
    [ampl_scatgrid]. *)
Definition pixel_of (self : DDATheory.DDA_t) (scat : DDATheory.sphere) (alpha : float)
    (pt : point) (r : list float) : float :=
  paraxholocl (pt_kr pt) (DDATheory.z scat [*] DDATheory.wavevec (DDATheory.optics self))
    (pt_theta pt) (pt_phi pt) (dda_point r)
    (DDATheory.polarization (DDATheory.optics self)) alpha.

End RunVocabulary.

Section FieldVocabulary.
Context {num : PyNum} {fsys : FileSystem} {trig : PyTrig}.
Variable calc_scat_field :
  float -> float -> list (list complex) -> list float -> complex * complex.
Variable fieldstocart : complex * complex -> float -> float -> complex * complex * complex.

(** [np.dot([[a, b], [c, d]], postfactor)] for the [postfactor] of
    [_raw_fields] at [phi], written out. *)
Definition times_postfactor (a b c d : complex) (phi : float) : list (list complex) :=
  let co := of_float (np_cos phi) in
  let si := of_float (np_sin phi) in
  let msi := of_float (fneg (np_sin phi)) in
  [[cadd (cmul a co) (cmul b msi); cadd (cmul a si) (cmul b co)];
   [cadd (cmul c co) (cmul d msi); cadd (cmul c si) (cmul d co)]].

(** The field [_raw_fields] computes for a point from a row of
    [tmatrix_tmp.out]. *)
Definition field_of (med_wavelen : float) (illum_polarization : list float)
    (pt : point) (r : list float) : complex * complex * complex :=
  let k := TmatrixTheory.mishchenko_factor med_wavelen in
  let s i := cmul (cplx (col r (2 * i)) (col r (2 * i + 1))) k in
  fieldstocart
    (calc_scat_field (pt_kr pt) (pt_phi pt)
       (times_postfactor (s 0%nat) (cneg (s 2%nat)) (s 1%nat) (cneg (s 3%nat)) (pt_phi pt))
       (firstn 2 illum_polarization))
    (pt_theta pt) (pt_phi pt).

(** [fields.T]: the three rows of the transpose of a list of fields. *)
Definition components (fields : list (complex * complex * complex))
  : list (list complex) :=
  [map (fun f => fst (fst f)) fields;
   map (fun f => snd (fst f)) fields;
   map (fun f => snd f) fields].

End FieldVocabulary.

(** ** Concrete runs, over the real numbers *)

Module Examples.
Import RealNum.
Open Scope R_scope.

(** A file system that lists a directory in the order its files were
    written, and one that lists it in the opposite order. *)
#[export] Instance write_order : FileSystem := {|
  dir_order := fun names => names;
  dir_order_perm := fun names => Permutation_refl names
|}.

Definition reverse_order : FileSystem := {|
  dir_order := fun names => rev names;
  dir_order_perm := fun names => Permutation_sym (Permutation_rev names)
|}.

(** A solver that ignores its input, exits with [rc] and leaves [outs]. *)
Definition stub (rc : Z) (outs : list (list string * list line)) : program :=
  fun _ _ => Completed rc outs.

(** Two and three rows of [tmatrix_tmp.out]: s11, s12, s21, s22 as
    real and imaginary parts. *)
Definition rows2 : list (list R) :=
  [[1; 0; 2; 0; 3; 0; 4; 0]; [5; 0; 6; 0; 7; 0; 8; 0]].

Definition rows3 : list (list R) :=
  rows2 ++ [[9; 0; 10; 0; 11; 0; 12; 0]].

Definition tmatrix_out (rows : list (list R)) : list (list string * list line) :=
  [(["tmatrix_tmp.out"], map Row rows)].

(** Two rows of [ampl_scatgrid] below its header: theta, phi, then
    s1 to s4 as real and imaginary parts. *)
Definition adda_rows : list (list R) :=
  [[0; 0; 1; 0; 2; 0; 3; 0; 4; 0]; [90; 0; 5; 0; 6; 0; 7; 0; 8; 0]].

Definition ampl_scatgrid (rows : list (list R)) : list line :=
  Text "theta phi s1.r s1.i s2.r s2.i s3.r s3.i s4.r s4.i" :: map Row rows.

(** Solvers: one that writes [rows2], one that writes [rows3], one
    that writes nothing, one that fails. *)
Definition solver2 : program := stub 0 (tmatrix_out rows2).
Definition solver3 : program := stub 0 (tmatrix_out rows3).
Definition silent_solver : program := stub 0 [].
Definition failing_solver : program := stub 1 [].

(** An adda that leaves one run directory, and one that leaves two. *)
Definition adda_one : program :=
  stub 0 [(["run0001"; "ampl_scatgrid"], ampl_scatgrid adda_rows)].
Definition other_rows : list (list R) :=
  [[0; 0; 0; 0; 0; 0; 0; 0; 9; 0]; [90; 0; 0; 0; 0; 0; 0; 0; 9; 0]].
Definition adda_two : program :=
  stub 0 [(["run0001"; "ampl_scatgrid"], ampl_scatgrid adda_rows);
          (["run0002"; "ampl_scatgrid"], ampl_scatgrid other_rows)].

(** A file system holding the T-matrix solver and nothing else. *)
Definition world_with (p : program) : world :=
  World 0 [] [(solver_path, Exe p)] StartDir [] [].

(** A file system without the T-matrix solver and without adda. *)
Definition bare_world : world := World 0 [] [] StartDir [] [].

(** An empty file system, with adda on PATH. *)
Definition adda_world (p : program) : world :=
  World 0 [] [] StartDir [("adda", p)] [].

Definition a_sphere : scatterer := Sphere 0.5 1.58 0.0001.
Definition a_spheroid (shape : Z) : scatterer :=
  Axisymmetric 0.5 1 1.58 0.0001 0 0 shape.
Definition two_points : list point := [Point 100 0.1 0.2; Point 100 0.3 0.4].

Definition an_optics : DDATheory.Optics :=
  DDATheory.Build_Optics 0.658 1.33 (2 * PI / 0.658) (1, 0).
Definition a_dda : DDATheory.DDA_t := DDATheory.DDA an_optics (1%nat, 2%nat).
Definition a_dda_sphere : DDATheory.sphere :=
  DDATheory.Build_sphere (0, 0, 10) 0.5 1.58 0.0001 10.
Definition grid_of (self : DDATheory.DDA_t) (center : R * R * R) : list point :=
  two_points.
(** A stand-in for the Fortran routine: the pixel is the real part of
    the entry in row 1, column 2 of the matrix it is handed. *)
Definition probe (kr kz theta phi : R) (m : list (list C)) (pol : R * R) (alpha : R) : R :=
  match m with
  | [_; z] :: _ => re z
  | _ => 0
  end.

(** One row of [tmatrix_tmp.out], and a solver that writes it. *)
Definition rows1 : list (list R) := [[1; 0; 2; 0; 3; 0; 4; 0]].
Definition solver1 : program := stub 0 (tmatrix_out rows1).

(** An adda that exits with status 2, and one that leaves a log file
    and no run directory. *)
Definition adda_failing : program := stub 2 [].
Definition adda_stray : program := stub 0 [(["log"], [])].

(** Stand-ins for the Fortran routines of [_raw_fields]: the field is
    the diagonal of the matrix handed over, and its third Cartesian
    component is zero. *)
Definition probe_field (kr phi : R) (m : list (list C)) (pol : list R) : C * C :=
  match m with
  | [[a; _]; [_; d]] => (a, d)
  | _ => (mkC 0 0, mkC 0 0)
  end.
Definition probe_cart (e : C * C) (theta phi : R) : C * C * C :=
  (fst e, snd e, mkC 0 0).
Definition a_polarization : list R := [1; 0].

(** A DDA theory whose optics has a medium index of zero. *)
Definition zero_index_dda : DDATheory.DDA_t :=
  DDATheory.DDA (DDATheory.Build_Optics 0.658 0 0.658 (1, 0)) (1%nat, 2%nat).

(** A table with a comment line between its two rows. *)
Definition commented_table : list line :=
  [Text "theta phi s1.r s1.i s2.r s2.i s3.r s3.i s4.r s4.i";
   Row [0; 0; 1; 0; 2; 0; 3; 0; 4; 0];
   Text "# second angle";
   Row [90; 0; 5; 0; 6; 0; 7; 0; 8; 0]].

End Examples.

(** * Properties *)

(** ** Lists and arrays *)

Section ArrayFacts.
Context {num : PyNum} {fsys : FileSystem}.

Lemma map_seq_nth_error {X Y : Type} (F : option X -> Y) (l : list X) :
  map (fun i => F (nth_error l i)) (seq 0 (List.length l)) =
  map (fun x => F (Some x)) l.
Proof.
  induction l as [|x l IH]; [reflexivity|].
  cbn [List.length seq map nth_error]. f_equal.
  rewrite <- seq_shift, map_map. exact IH.
Qed.

Lemma all_ok_map_Return {E X Y : Type} (f : X -> Y) (g : X -> outcome E Y) (l : list X) :
  (forall x, In x l -> g x = Return (f x)) ->
  all_ok (map g l) = Return (map f l).
Proof.
  induction l as [|x l IH]; intros H; [reflexivity|].
  cbn [map all_ok]. rewrite (H x (or_introl eq_refl)).
  rewrite IH; [reflexivity|]. intros y Hy. apply H. right. exact Hy.
Qed.

Lemma column_map {X : Type} (k : nat) (f : X -> list complex) (g : X -> complex)
    (l : list X) :
  (forall x, In x l -> nth_error (f x) k = Some (g x)) ->
  column k (map f l) = Return (map g l).
Proof.
  intros H. unfold column. rewrite map_map.
  apply all_ok_map_Return. intros x Hx. unfold item. now rewrite (H x Hx).
Qed.

(** The four per-point entries laid out as [[[a; b]; [c; d]]] over the
    points and then transposed: numpy's reversal of the axes puts [c]
    in the first row and [b] in the second. *)
Lemma transpose3_columns {X Y : Type} (a b c d : X -> Y) (l : list X) :
  transpose3 2 2 (List.length l) [[map a l; map b l]; [map c l; map d l]] =
  map (fun x => [[a x; c x]; [b x; d x]]) l.
Proof.
  unfold transpose3.
  rewrite <- (map_seq_nth_error
                (fun o => match o with
                          | Some x => [[a x; c x]; [b x; d x]]
                          | None => [[]; []]
                          end) l).
  apply map_ext. intros i. cbn. unfold item3. cbn.
  rewrite !nth_error_map. destruct (nth_error l i); reflexivity.
Qed.

End ArrayFacts.

(** ** The per-point matrices *)

Section MatrixFacts.
Context {num : PyNum} {fsys : FileSystem}.

Ltac row_cases r H :=
  repeat (destruct r as [|? r]; [discriminate H|]);
  destruct r; [|discriminate H].

Lemma combine_row_8 (r : list float) :
  List.length r = 8%nat ->
  combine_row (slice2 0 r) (slice2 1 r) = Return (pairs_from 0 r).
Proof. intros H. row_cases r H. reflexivity. Qed.

Lemma combine_row_10 (r : list float) :
  List.length r = 10%nat ->
  combine_row (slice2 2 r) (slice2 3 r) = Return (pairs_from 2 r).
Proof. intros H. row_cases r H. reflexivity. Qed.

Lemma combine_complex_rows (start width : nat) (rows : list (list float)) :
  (forall r, List.length r = width ->
             combine_row (slice2 start r) (slice2 (S start) r)
             = Return (pairs_from start r)) ->
  Forall (fun r => List.length r = width) rows ->
  combine_complex (map (slice2 start) rows) (map (slice2 (S start)) rows)
  = Return (map (pairs_from start) rows).
Proof.
  intros Hrow Hall. unfold combine_complex.
  induction Hall as [|r rows Hr _ IH]; [reflexivity|].
  cbn [map zip_with all_ok]. rewrite (Hrow r Hr), IH. reflexivity.
Qed.

(** From rows of eight numbers [scat_matr_of] makes one matrix per
    row: every entry is a column pair times [-2j*pi/med_wavelen], and
    the matrix is [[s11, -s21], [s12, -s22]]. *)
Lemma tmatrix_scat_matr_rows (rows : list (list float)) (med_wavelen : float) :
  is_zero med_wavelen = false ->
  Forall (fun r => List.length r = 8%nat) rows ->
  TmatrixTheory.scat_matr_of (Arr2 rows) med_wavelen
  = Return (map (tmatrix_point med_wavelen) rows).
Proof.
  intros Hz Hall. unfold TmatrixTheory.scat_matr_of, cols_from.
  rewrite (combine_complex_rows 0 8 rows combine_row_8 Hall).
  unfold ctruediv. rewrite Hz.
  fold (TmatrixTheory.mishchenko_factor med_wavelen).
  unfold scale. rewrite map_map.
  set (k := TmatrixTheory.mishchenko_factor med_wavelen).
  set (f := fun r => map (fun z => cmul z k) (pairs_from 0 r)).
  rewrite (column_map 0 f (fun r => cmul (cplx (col r 0) (col r 1)) k)) by reflexivity.
  rewrite (column_map 1 f (fun r => cmul (cplx (col r 2) (col r 3)) k)) by reflexivity.
  rewrite (column_map 2 f (fun r => cmul (cplx (col r 4) (col r 5)) k)) by reflexivity.
  rewrite (column_map 3 f (fun r => cmul (cplx (col r 6) (col r 7)) k)) by reflexivity.
  rewrite !map_map, length_map.
  rewrite transpose3_columns. reflexivity.
Qed.

(** From rows of ten numbers [scat_matr_of] makes one matrix per
    row: [[s1, s3], [s2, s0]]. *)
Lemma dda_scat_matr_rows (rows : list (list float)) :
  Forall (fun r => List.length r = 10%nat) rows ->
  DDATheory.scat_matr_of (Arr2 rows) = Return (map dda_point rows).
Proof.
  intros Hall. unfold DDATheory.scat_matr_of, cols_from.
  rewrite (combine_complex_rows 2 10 rows combine_row_10 Hall).
  set (f := pairs_from 2).
  rewrite (column_map 1 f (fun r => cplx (col r 4) (col r 5))) by reflexivity.
  rewrite (column_map 2 f (fun r => cplx (col r 6) (col r 7))) by reflexivity.
  rewrite (column_map 3 f (fun r => cplx (col r 8) (col r 9))) by reflexivity.
  rewrite (column_map 0 f (fun r => cplx (col r 2) (col r 3))) by reflexivity.
  rewrite length_map.
  rewrite transpose3_columns. reflexivity.
Qed.

End MatrixFacts.

(** ** Loading a table *)

Section ParseFacts.
Context {num : PyNum} {fsys : FileSystem}.

Lemma all_ok_parse_rows (rows : list (list float)) :
  all_ok (map parse_line (map Row rows)) = Return rows.
Proof.
  rewrite map_map. rewrite (all_ok_map_Return (fun r => r)).
  - now rewrite map_id.
  - reflexivity.
Qed.

Lemma filter_nonempty (width : nat) (rows : list (list float)) :
  (0 < width)%nat ->
  Forall (fun r => List.length r = width) rows ->
  filter (fun r => negb (is_empty r)) rows = rows.
Proof.
  intros Hw Hall. induction Hall as [|r rows Hr _ IH]; [reflexivity|].
  cbn [filter]. destruct r; [cbn in Hr; lia|]. cbn. now rewrite IH.
Qed.

Lemma same_width_rows (width : nat) (rows : list (list float)) :
  Forall (fun r => List.length r = width) rows -> same_width rows = true.
Proof.
  intros Hall. destruct Hall as [|r rows Hr Hall]; [reflexivity|].
  cbn [same_width]. apply forallb_forall. intros r' Hin.
  rewrite Forall_forall in Hall. rewrite (Hall r' Hin), Hr. apply Nat.eqb_refl.
Qed.

(** A table of at least two rows and at least two columns loads as a
    two-dimensional array. *)
Lemma parse_table_rows (width : nat) (rows : list (list float)) :
  (2 <= width)%nat -> (2 <= List.length rows)%nat ->
  Forall (fun r => List.length r = width) rows ->
  parse_table 0 (map Row rows) = Return (Arr2 rows).
Proof.
  intros Hw Hn Hall. unfold parse_table. cbn [skipn].
  rewrite all_ok_parse_rows.
  rewrite (filter_nonempty width) by (assumption || lia).
  rewrite (same_width_rows width) by assumption.
  destruct rows as [|r1 [|r2 rows]]; cbn in Hn; try lia.
  inversion Hall as [|? ? Hr1 _]; subst.
  destruct (Nat.eqb_spec (List.length r1) 1); [lia|reflexivity].
Qed.

(** A table of one row loads as a one-dimensional array, on which
    the slicing of columns raises. *)
Lemma parse_table_one_row (r : list float) :
  r <> [] -> parse_table 0 [Row r] = Return (Arr1 r).
Proof.
  intros Hr. destruct r; [contradiction|]. reflexivity.
Qed.

Lemma one_row_raises (r : list float) (med_wavelen : float) :
  TmatrixTheory.scat_matr_of (Arr1 r) med_wavelen = Raise IndexError /\
  DDATheory.scat_matr_of (Arr1 r) = Raise IndexError.
Proof. split; reflexivity. Qed.

End ParseFacts.

(** ** The file system *)

Section FileFacts.
Context {num : PyNum} {fsys : FileSystem}.

Lemma root_eqb_refl (d : root) : root_eqb d d = true.
Proof. destruct d; cbn; auto using Nat.eqb_refl. Qed.

Lemma root_eqb_eq (a b : root) : root_eqb a b = true -> a = b.
Proof.
  destruct a, b; cbn; try discriminate; auto.
  intros H. apply Nat.eqb_eq in H. now subst.
Qed.

Lemma names_eqb_eq (a b : list string) : list_eqb String.eqb a b = true <-> a = b.
Proof.
  revert b. induction a as [|x a IH]; intros [|y b]; cbn; split;
    try discriminate; try reflexivity.
  - intros H. apply andb_true_iff in H as [Hx Ha].
    apply String.eqb_eq in Hx. apply IH in Ha. now subst.
  - intros H. injection H as -> ->. rewrite String.eqb_refl. now apply IH.
Qed.

Lemma path_eqb_eq (a b : path) : path_eqb a b = true <-> a = b.
Proof.
  destruct a as [ra na], b as [rb nb]. unfold path_eqb. cbn [fst snd]. split.
  - intros H. apply andb_true_iff in H as [Hr Hn].
    apply root_eqb_eq in Hr. apply names_eqb_eq in Hn. now subst.
  - intros H. injection H as -> ->. rewrite root_eqb_refl.
    now apply names_eqb_eq.
Qed.

Lemma path_eqb_refl (p : path) : path_eqb p p = true.
Proof. now apply path_eqb_eq. Qed.

Lemma path_eqb_neq (a b : path) : a <> b -> path_eqb a b = false.
Proof.
  intros H. destruct (path_eqb a b) eqn:E; [|reflexivity].
  apply path_eqb_eq in E. contradiction.
Qed.

Lemma find_app_none {X : Type} (f : X -> bool) (l1 l2 : list X) :
  find f l1 = None -> find f (l1 ++ l2) = find f l2.
Proof.
  induction l1 as [|x l1 IH]; [reflexivity|]. cbn.
  destruct (f x); [discriminate|]. exact IH.
Qed.

Lemma find_app_some {X : Type} (f : X -> bool) (l1 l2 : list X) (x : X) :
  find f l1 = Some x -> find f (l1 ++ l2) = Some x.
Proof.
  induction l1 as [|y l1 IH]; [discriminate|]. cbn.
  destruct (f y); [auto|]. exact IH.
Qed.

Lemma find_filter_out {X : Type} (f : X -> bool) (l : list X) :
  find f (filter (fun e => negb (f e)) l) = None.
Proof.
  induction l as [|x l IH]; [reflexivity|]. cbn.
  destruct (f x) eqn:E; cbn; [exact IH|]. now rewrite E.
Qed.

Lemma find_filter_keep {X : Type} (f g : X -> bool) (l : list X) :
  (forall e, f e = true -> g e = true) ->
  find f (filter g l) = find f l.
Proof.
  intros H. induction l as [|x l IH]; [reflexivity|]. cbn.
  destruct (f x) eqn:E.
  - rewrite (H x E). cbn. now rewrite E.
  - destruct (g x); cbn; [now rewrite E|exact IH].
Qed.

(** Reading back what was just written. *)
Lemma lookup_store_same (p : path) (c : content) (fs : list (path * content)) :
  lookup p (store p c fs) = Some c.
Proof.
  unfold lookup, store. rewrite find_app_none.
  - cbn. now rewrite path_eqb_refl.
  - apply (find_filter_out (fun e => path_eqb (fst e) p)).
Qed.

(** Writing one file leaves the others as they were. *)
Lemma lookup_store_other (p q : path) (c : content) (fs : list (path * content)) :
  q <> p -> lookup p (store q c fs) = lookup p fs.
Proof.
  intros Hne. unfold lookup, store.
  assert (Hkeep : find (fun e => path_eqb (fst e) p)
                       (filter (fun e => negb (path_eqb (fst e) q)) fs)
                  = find (fun e => path_eqb (fst e) p) fs).
  { apply find_filter_keep. intros e He. apply path_eqb_eq in He.
    rewrite He. rewrite path_eqb_neq; auto. }
  destruct (find (fun e => path_eqb (fst e) p) fs) as [e|] eqn:E.
  - now rewrite (find_app_some _ _ _ _ Hkeep).
  - rewrite (find_app_none _ _ _ Hkeep). cbn. now rewrite path_eqb_neq.
Qed.

Lemma in_store_same (p : path) (c c' : content) (fs : list (path * content)) :
  In (p, c') (store p c fs) -> c' = c.
Proof.
  unfold store. rewrite in_app_iff. intros [H|H].
  - apply filter_In in H as [_ H]. cbn in H. now rewrite path_eqb_refl in H.
  - destruct H as [H|[]]. now injection H.
Qed.

Lemma in_store (p : path) (c : content) (fs : list (path * content)) :
  In (p, c) (store p c fs).
Proof. unfold store. rewrite in_app_iff. right. now left. Qed.

(** What a process sees of a directory is what is stored there as text. *)
Lemma in_visible (d : root) (rel : list string) (ls : list line)
    (fs : list (path * content)) :
  In (rel, ls) (visible d fs) <-> In ((d, rel), Data ls) fs.
Proof.
  unfold visible. rewrite in_flat_map. split.
  - intros [[[r n] c] [Hin H]]. cbn in H. destruct c; [|contradiction].
    destruct (root_eqb r d) eqn:E; [|contradiction].
    destruct H as [H|[]]. injection H as -> ->.
    apply root_eqb_eq in E. now subst.
  - intros H. exists ((d, rel), Data ls). split; [exact H|].
    cbn. rewrite root_eqb_refl. now left.
Qed.

Lemma dir_exists_made (w : world) (fs : list (path * content)) (c : root)
    (ps : list (string * program)) (l : list event) (n : nat) :
  dir_exists (TempDir (made w)) (World n (made w :: tmpdirs w) fs c ps l) = true.
Proof. cbn. now rewrite Nat.eqb_refl. Qed.

Lemma existsb_filter_out (n : nat) (l : list nat) :
  existsb (Nat.eqb n) (filter (fun m => negb (Nat.eqb n m)) l) = false.
Proof.
  induction l as [|m l IH]; [reflexivity|]. cbn.
  destruct (Nat.eqb n m) eqn:E; cbn; [exact IH|]. now rewrite E.
Qed.

End FileFacts.

(** ** Running the monad one step at a time *)

Section MonadFacts.
Context {num : PyNum} {fsys : FileSystem}.

Lemma bind_run {A B : Type} (c : M A) (k : A -> M B) (w w' : world) (a : A) :
  c w = (Return a, w') -> bind c k w = k a w'.
Proof. intros H. unfold bind. now rewrite H. Qed.

Lemma bind_raise {A B : Type} (c : M A) (k : A -> M B) (w w' : world) (e : exn) :
  c w = (Raise e, w') -> bind c k w = (Raise e, w').
Proof. intros H. unfold bind. now rewrite H. Qed.

Lemma bind_assoc {A B D : Type} (c : M A) (k : A -> M B) (h : B -> M D) (w : world) :
  bind (bind c k) h w = bind c (fun a => bind (k a) h) w.
Proof. unfold bind. destruct (c w) as [[a|e] w']; reflexivity. Qed.

End MonadFacts.

(** The file operations and the array computations stay folded while
    a run is simplified. *)
Arguments store : simpl never.
Arguments lookup : simpl never.
Arguments visible : simpl never.
Arguments listdir : simpl never.
Arguments store_all : simpl never.
Arguments parse_table : simpl never.
Arguments TmatrixTheory.scat_matr_of : simpl never.
Arguments DDATheory.scat_matr_of : simpl never.
Arguments DDATheory.fill_pixels : simpl never.
Arguments DDATheory.reshape : simpl never.
Arguments fcolumn : simpl never.

Section StepFacts.
Context {num : PyNum} {fsys : FileSystem}.

Lemma copy_ok (src : path) (d : root) (c : content) (w : world) :
  lookup src (files w) = Some c ->
  copy src d w =
  (Return tt,
   World (made w) (tmpdirs w) (store (d, [last (snd src) EmptyString]) c (files w)) (cwd w)
         (on_path w) (log w ++ [Copy src (d, [last (snd src) EmptyString])])).
Proof. intros H. unfold copy. now rewrite H. Qed.

Lemma copy_missing (src : path) (d : root) (w : world) :
  lookup src (files w) = None -> copy src d w = (Raise (OSError src), w).
Proof. intros H. unfold copy. now rewrite H. Qed.

Lemma chdir_ok (d : root) (w : world) :
  dir_exists d w = true ->
  chdir d w =
  (Return tt, World (made w) (tmpdirs w) (files w) d (on_path w) (log w ++ [Chdir d])).
Proof. intros H. unfold chdir. now rewrite H. Qed.

Lemma rmtree_ok (d : root) (w : world) :
  dir_exists d w = true ->
  rmtree d w =
  (Return tt,
   World (made w)
         (match d with
          | TempDir n => filter (fun m => negb (Nat.eqb n m)) (tmpdirs w)
          | _ => tmpdirs w
          end)
         (filter (fun e => negb (root_eqb (fst (fst e)) d)) (files w))
         (cwd w) (on_path w) (log w ++ [Rmtree d])).
Proof. intros H. unfold rmtree. now rewrite H. Qed.

Lemma run_process_ok (cmd : string) (args : list arg) (d : root) (p : program) (w : world) :
  resolve cmd d w = Some p ->
  run_process cmd args d w =
  (Return (p args (visible d (files w))),
   World (made w) (tmpdirs w)
         (store_all d (outputs (p args (visible d (files w)))) (files w))
         (cwd w) (on_path w)
         (log w ++ [Exec cmd args d (visible d (files w))])).
Proof. intros H. unfold run_process. now rewrite H. Qed.

End StepFacts.

(** ** Outcome-indexed specifications *)

Section Triples.
Context {num : PyNum} {fsys : FileSystem}.

Lemma triple_bind {A B : Type} (P : world -> Prop) (c : M A) (k : A -> M B)
    (Q : A -> world -> Prop) (Q' : B -> world -> Prop) (E : exn -> world -> Prop) :
  triple P c Q E -> (forall a, triple (Q a) (k a) Q' E) -> triple P (bind c k) Q' E.
Proof.
  intros Hc Hk w Hw. unfold bind. specialize (Hc w Hw).
  destruct (c w) as [[a|e] w']; [apply (Hk a w' Hc)|exact Hc].
Qed.

Lemma triple_weaken {A : Type} (P : world -> Prop) (c : M A)
    (Q Q' : A -> world -> Prop) (E E' : exn -> world -> Prop) :
  triple P c Q E ->
  (forall a w, Q a w -> Q' a w) -> (forall e w, E e w -> E' e w) ->
  triple P c Q' E'.
Proof.
  intros Hc HQ HE w Hw. specialize (Hc w Hw).
  destruct (c w) as [[a|e] w']; auto.
Qed.

(** A fact in the precondition that does not depend on the world. *)
Lemma triple_pure {A : Type} (phi : Prop) (P : world -> Prop) (c : M A)
    (Q : A -> world -> Prop) (E : exn -> world -> Prop) :
  (phi -> triple P c Q E) -> triple (fun w => phi /\ P w) c Q E.
Proof. intros H w [Hphi Hw]. exact (H Hphi w Hw). Qed.

(** A step that keeps [I], followed by a continuation specified from [I]. *)
Lemma triple_step {A B : Type} (I : world -> Prop) (c : M A) (k : A -> M B)
    (Q : B -> world -> Prop) (E : exn -> world -> Prop) :
  keeps I c -> (forall e w, builtin e -> I w -> E e w) ->
  (forall a, triple I (k a) Q E) -> triple I (bind c k) Q E.
Proof.
  intros Hc HE Hk. apply triple_bind with (Q := fun _ => I); [|exact Hk].
  eapply triple_weaken; [exact Hc|auto|]. intros e w [He Hw]. auto.
Qed.

Lemma triple_ret {A : Type} (a : A) (Q : A -> world -> Prop) (E : exn -> world -> Prop) :
  triple (Q a) (ret a) Q E.
Proof. intros w Hw. exact Hw. Qed.

Lemma keeps_bind {A B : Type} (I : world -> Prop) (c : M A) (k : A -> M B) :
  keeps I c -> (forall a, keeps I (k a)) -> keeps I (bind c k).
Proof. intros Hc Hk. apply triple_step; auto. Qed.

Lemma keeps_ret {A : Type} (I : world -> Prop) (a : A) : keeps I (ret a).
Proof. intros w Hw. exact Hw. Qed.

Lemma keeps_raise {A : Type} (I : world -> Prop) (e : exn) :
  builtin e -> keeps I (@raise _ A e).
Proof. intros He w Hw. split; assumption. Qed.

Lemma keeps_lift {A : Type} (I : world -> Prop) (r : outcome exn A) :
  raises_builtin r -> keeps I (lift r).
Proof. intros Hr w Hw. unfold lift. destruct r; cbn in *; auto. Qed.

End Triples.

(** ** What the pure computations raise *)

Section PureRaises.
Context {num : PyNum} {fsys : FileSystem}.

Lemma all_ok_builtin {X : Type} (l : list (outcome exn X)) :
  Forall raises_builtin l -> raises_builtin (all_ok l).
Proof.
  induction 1 as [|r l Hr _ IH]; [exact I|].
  cbn. destruct r as [x|e]; [|exact Hr].
  destruct (all_ok l); [exact I|exact IH].
Qed.

Lemma truediv_builtin (x y : float) : raises_builtin (truediv x y).
Proof. unfold truediv. destruct (is_zero y); exact I. Qed.

Lemma ctruediv_builtin (z : complex) (y : float) : raises_builtin (ctruediv z y).
Proof. unfold ctruediv. destruct (is_zero y); exact I. Qed.

Lemma item0_builtin {X : Type} (l : list X) : raises_builtin (item0 l).
Proof. destruct l; exact I. Qed.

Lemma item_builtin {X : Type} (l : list X) (i : nat) : raises_builtin (item l i).
Proof. unfold item. destruct (nth_error l i); exact I. Qed.

Lemma column_builtin (k : nat) (s : list (list complex)) : raises_builtin (column k s).
Proof.
  unfold column. apply all_ok_builtin, Forall_map, Forall_forall.
  intros r _. apply item_builtin.
Qed.

Lemma fcolumn_builtin (k : nat) (a : ndarray) : raises_builtin (fcolumn k a).
Proof.
  destruct a; [exact I|]. cbn. apply all_ok_builtin, Forall_map, Forall_forall.
  intros r _. apply item_builtin.
Qed.

Lemma cols_from_builtin (start : nat) (a : ndarray) : raises_builtin (cols_from start a).
Proof. destruct a; exact I. Qed.

Lemma combine_row_builtin (re im : list float) : raises_builtin (combine_row re im).
Proof.
  unfold combine_row. destruct (Nat.eqb _ _); [exact I|].
  destruct im as [|y [|y' im]], re as [|x [|x' re]]; exact I.
Qed.

Lemma combine_complex_builtin (re im : list (list float)) :
  raises_builtin (combine_complex re im).
Proof.
  unfold combine_complex. apply all_ok_builtin.
  revert im. induction re as [|r re IH]; intros [|i im]; cbn; constructor.
  - apply combine_row_builtin.
  - apply IH.
Qed.

Lemma parse_table_builtin (skiprows : nat) (ls : list line) :
  raises_builtin (parse_table skiprows ls).
Proof.
  unfold parse_table.
  assert (H : raises_builtin (all_ok (map parse_line (skipn skiprows ls)))).
  { apply all_ok_builtin, Forall_map, Forall_forall.
    intros [[z|x]|xs|s|lbl [z|x]] _; cbn;
      repeat match goal with
             | |- context [if ?b then _ else _] => destruct b
             end; exact I. }
  destruct (all_ok _) as [rows0|e]; [|exact H].
  destruct (same_width _); [|exact I].
  destruct (filter _ rows0) as [|r [|r' rows]]; try exact I.
  destruct (Nat.eqb _ _); exact I.
Qed.

Ltac pure_step H :=
  match goal with
  | |- raises_builtin (match ?r with Return _ => _ | Raise _ => _ end) =>
      let Hr := fresh in
      assert (Hr : raises_builtin r) by H;
      destruct r; [clear Hr|exact Hr]
  end.

Lemma tmatrix_scat_matr_builtin (a : ndarray) (med_wavelen : float) :
  raises_builtin (TmatrixTheory.scat_matr_of a med_wavelen).
Proof.
  unfold TmatrixTheory.scat_matr_of.
  pure_step ltac:(apply cols_from_builtin).
  pure_step ltac:(apply cols_from_builtin).
  pure_step ltac:(apply combine_complex_builtin).
  pure_step ltac:(apply ctruediv_builtin).
  do 4 pure_step ltac:(apply column_builtin).
  exact I.
Qed.

Lemma dda_scat_matr_builtin (a : ndarray) :
  raises_builtin (DDATheory.scat_matr_of a).
Proof.
  unfold DDATheory.scat_matr_of.
  pure_step ltac:(apply cols_from_builtin).
  pure_step ltac:(apply cols_from_builtin).
  pure_step ltac:(apply combine_complex_builtin).
  do 4 pure_step ltac:(apply column_builtin).
  exact I.
Qed.

End PureRaises.

(** ** Steps that only add to the world *)

Section Growth.
Context {num : PyNum} {fsys : FileSystem}.

Lemma extends_refl (w : world) : extends w w.
Proof. split; [exists []; now rewrite app_nil_r|auto]. Qed.

Lemma extends_log (w : world) (n : nat) (fs : list (path * content)) (c : root)
    (ps : list (string * program)) (evs : list event) :
  extends w (World n (tmpdirs w) fs c ps (log w ++ evs)).
Proof. split; [now exists evs|auto]. Qed.

Lemma monotone_tempdir_kept (d : root) : monotone (tempdir_kept d).
Proof.
  intros w w' [_ Hdirs]. unfold tempdir_kept. destruct d as [n| |]; cbn; auto.
  rewrite !existsb_exists. intros [m [Hin Hm]]. exists m. auto.
Qed.

Lemma monotone_logged (ev : event) : monotone (logged ev).
Proof.
  intros w w' [[l Hl] _]. unfold logged. rewrite Hl, in_app_iff. auto.
Qed.

Lemma keeps_grows {A : Type} (I : world -> Prop) (c : M A) :
  monotone I -> grows c -> keeps I c.
Proof.
  intros HI Hc w Hw. destruct (Hc w) as [Hext Hr].
  destruct (c w) as [[a|e] w']; cbn in *; eauto.
Qed.

Ltac grows_prim :=
  intros w; cbn;
  repeat match goal with
         | |- context [match ?x with _ => _ end] => destruct x
         end;
  cbn; split; auto using extends_refl, extends_log.

Lemma grows_mkdtemp : grows mkdtemp.
Proof.
  intros w. cbn. split; [|exact I].
  split; [now eexists|]. intros n Hn. now right.
Qed.

Lemma grows_getcwd : grows getcwd.
Proof. unfold getcwd. grows_prim. Qed.

Lemma grows_chdir (d : root) : grows (chdir d).
Proof. unfold chdir. grows_prim. Qed.

Lemma grows_copy (src : path) (d : root) : grows (copy src d).
Proof. unfold copy. grows_prim. Qed.

Lemma grows_open (p : path) : grows (open p).
Proof. unfold open. grows_prim. Qed.

Lemma grows_close (f : file) : grows (close f).
Proof. unfold close. grows_prim. Qed.

Lemma grows_print (d : root) : grows (print d).
Proof. unfold print, emit. grows_prim. Qed.

Lemma grows_glob (d : root) (pat : pattern) : grows (glob d pat).
Proof. unfold glob. grows_prim. Qed.

Lemma grows_loadtxt (p : path) (skiprows : nat) : grows (loadtxt p skiprows).
Proof.
  intros w. unfold loadtxt. destruct (lookup p (files w)) as [[ls|q]|]; cbn;
    split; auto using extends_refl. apply parse_table_builtin.
Qed.

Lemma grows_run_process (cmd : string) (args : list arg) (d : root) :
  grows (run_process cmd args d).
Proof. unfold run_process. grows_prim. Qed.

Lemma grows_check_call (cmd : string) (args : list arg) (d : root) :
  grows (check_call cmd args d).
Proof.
  intros w. unfold check_call, bind. destruct (grows_run_process cmd args d w) as [He Hr].
  destruct (run_process cmd args d w) as [[c|e] w']; cbn in *; [|auto].
  destruct (Z.eqb (returncode c) 0); cbn; auto.
Qed.

(** Removing a directory keeps the log. *)
Lemma keeps_logged_rmtree (ev : event) (d : root) : keeps (logged ev) (rmtree d).
Proof.
  intros w Hw. unfold rmtree, logged in *. destruct (dir_exists d w); cbn.
  - rewrite in_app_iff. auto.
  - auto.
Qed.

(** Removing a directory that exists succeeds, and the directory is gone. *)
Lemma rmtree_removes (n : nat) :
  triple (tempdir_kept (TempDir n)) (rmtree (TempDir n))
         (fun _ w => dir_exists (TempDir n) w = false) (fun _ _ => False).
Proof.
  intros w Hw. unfold rmtree. unfold tempdir_kept in Hw. rewrite Hw. cbn.
  apply existsb_filter_out.
Qed.

End Growth.

Create HintDb keeps.
#[export] Hint Resolve keeps_grows keeps_ret keeps_raise keeps_lift
  monotone_tempdir_kept monotone_logged
  grows_mkdtemp grows_getcwd grows_chdir grows_copy grows_open grows_close
  grows_print grows_glob grows_loadtxt grows_run_process grows_check_call
  keeps_logged_rmtree
  truediv_builtin ctruediv_builtin
  item0_builtin item_builtin column_builtin fcolumn_builtin parse_table_builtin
  tmatrix_scat_matr_builtin dda_scat_matr_builtin : keeps.

Ltac keeps_auto :=
  repeat first
    [ solve [auto with keeps]
    | apply keeps_bind; [|intros ?]
    | match goal with
      | |- keeps _ (if ?b then _ else _) => destruct b
      end ].

Ltac step E_ok :=
  apply triple_step; [solve [auto with keeps] | exact E_ok | intros ?].

(** ** The temporary directory of the T-matrix theory *)

Section Cleanup.
Context {num : PyNum} {fsys : FileSystem}.

(** What is left of the temporary directory of [_raw_scat_matrs], by
    the way it ends: removed after [TheoryNotCompatibleError], removed
    on return if [delete] is set, and left in place on every other
    exception, which no handler intercepts. *)
Lemma tmatrix_tempdir_by_exit (self : Tmatrix_t) (scat : scatterer) (pos : list point)
    (k mi : float) (w : world) :
  match TmatrixTheory._raw_scat_matrs self scat pos k mi w with
  | (Return _, w') => dir_exists (TempDir (made w)) w' = negb (delete self)
  | (Raise (TheoryNotCompatibleError _ _), w') => dir_exists (TempDir (made w)) w' = false
  | (Raise _, w') => dir_exists (TempDir (made w)) w' = true
  end.
Proof.
  set (d := TempDir (made w)).
  set (E := fun (e : exn) (w' : world) =>
              match e with
              | TheoryNotCompatibleError _ _ => dir_exists d w' = false
              | _ => dir_exists d w' = true
              end).
  assert (E_ok : forall e w', builtin e -> tempdir_kept d w' -> E e w').
  { intros [] w' He Hw'; cbn in *; auto; contradiction. }
  enough (H : triple (fun w0 => w0 = w)
                (TmatrixTheory._raw_scat_matrs self scat pos k mi)
                (fun _ w' => dir_exists d w' = negb (delete self)) E).
  { specialize (H w eq_refl).
    destruct (TmatrixTheory._raw_scat_matrs self scat pos k mi w) as [[m|e] w'];
      [exact H|]. destruct e; exact H. }
  unfold TmatrixTheory._raw_scat_matrs.
  apply triple_bind with (Q := fun t w' => t = d /\ tempdir_kept d w').
  { intros w0 ->. cbn. split; [reflexivity|]. unfold tempdir_kept. cbn.
    now rewrite Nat.eqb_refl. }
  intros t. apply triple_pure. intros ->.
  do 5 step E_ok.
  assert (Hrest : forall outf : file,
    triple (tempdir_kept d)
      (close (savetxt outf (TmatrixTheory.angles_of pos)) ;;;
       TmatrixTheory._run_tmat self d ;;;
       found <- glob d (Exact "tmatrix_tmp.out") ;;
       result_file <- lift (item0 found) ;;
       tmat_result <- loadtxt result_file 0 ;;
       scat_matr <- lift (TmatrixTheory.scat_matr_of tmat_result a3) ;;
       chdir a ;;;
       (if delete self then rmtree d else ret tt) ;;;
       ret scat_matr)
      (fun _ w' => dir_exists d w' = negb (delete self)) E).
  { intros outf. unfold TmatrixTheory._run_tmat. do 7 step E_ok.
    destruct (delete self); cbn [negb].
    - apply triple_bind with (Q := fun _ w' => dir_exists d w' = false);
        [|intros _ w0 Hw0; exact Hw0].
      eapply triple_weaken; [apply rmtree_removes| |]; cbn; auto. contradiction.
    - apply triple_bind with (Q := fun _ => tempdir_kept d);
        [intros w0 Hw0; exact Hw0|intros _ w0 Hw0; exact Hw0]. }
  assert (Hencode : forall c : M file,
    keeps (tempdir_kept d) c ->
    triple (tempdir_kept d) c (fun _ => tempdir_kept d) E).
  { intros c Hc. eapply triple_weaken; [exact Hc|auto|].
    intros e w0 [He Hw0]. auto. }
  destruct scat as [r nr ni|r0 r1 nr ni rot0 rot1 shape|name].
  - apply triple_bind with (Q := fun _ => tempdir_kept d); [|exact Hrest].
    apply Hencode. keeps_auto.
  - apply triple_bind with (Q := fun _ => tempdir_kept d); [|exact Hrest].
    apply Hencode. keeps_auto.
  - apply triple_bind with (Q := fun _ _ => False); [|intros ? ? []].
    step E_ok.
    apply triple_bind with (Q := fun _ w' => dir_exists d w' = false).
    + eapply triple_weaken; [apply rmtree_removes| |]; cbn; auto. contradiction.
    + intros _ w0 Hw0. exact Hw0.
Qed.

End Cleanup.

(** ** A run of [_raw_scat_matrs] in a fresh directory *)

Section Staging.
Context {num : PyNum} {fsys : FileSystem}.

Lemma filter_fresh (d : root) (x : list string) (fs : list (path * content)) :
  fresh d fs -> filter (fun e => negb (path_eqb (fst e) (d, x))) fs = fs.
Proof.
  intros H. induction fs as [|e fs IH]; [reflexivity|]. cbn.
  unfold path_eqb at 1. cbn [fst snd]. rewrite (H e (or_introl eq_refl)). cbn.
  f_equal. apply IH. intros e' He'. apply H. now right.
Qed.

Lemma store_fresh (d : root) (x : list string) (c : content)
    (fs tail : list (path * content)) :
  fresh d fs -> store (d, x) c (fs ++ tail) = (fs ++ store (d, x) c tail)%list.
Proof.
  intros H. unfold store. rewrite filter_app, (filter_fresh d x fs H).
  now rewrite app_assoc.
Qed.

Lemma store_all_fresh (d : root) (outs : list (list string * list line))
    (fs tail : list (path * content)) :
  fresh d fs -> store_all d outs (fs ++ tail) = (fs ++ store_all d outs tail)%list.
Proof.
  intros H. unfold store_all. revert tail.
  induction outs as [|o outs IH]; intros tail; [reflexivity|].
  cbn [fold_left]. rewrite (store_fresh d _ _ fs tail H). apply IH.
Qed.

Lemma lookup_fresh (d : root) (x : list string) (fs tail : list (path * content)) :
  fresh d fs -> lookup (d, x) (fs ++ tail) = lookup (d, x) tail.
Proof.
  intros H. unfold lookup. rewrite find_app_none; [reflexivity|].
  induction fs as [|e fs IH]; [reflexivity|]. cbn.
  unfold path_eqb at 1. cbn [fst snd]. rewrite (H e (or_introl eq_refl)). cbn.
  apply IH. intros e' He'. apply H. now right.
Qed.

Lemma visible_fresh (d : root) (fs tail : list (path * content)) :
  fresh d fs -> visible d (fs ++ tail) = visible d tail.
Proof.
  intros H. unfold visible. rewrite flat_map_app.
  replace (flat_map _ fs) with (@nil (list string * list line)); [reflexivity|].
  symmetry. induction fs as [|[[r n] c] fs IH]; [reflexivity|].
  pose proof (H _ (or_introl eq_refl)) as He. cbn in He. cbn.
  destruct c; [rewrite He|]; cbn; apply IH;
    intros e' He'; apply H; now right.
Qed.

Lemma listdir_fresh (d : root) (fs tail : list (path * content)) :
  fresh d fs -> listdir d (fs ++ tail) = listdir d tail.
Proof.
  intros H. unfold listdir. rewrite flat_map_app.
  replace (flat_map _ fs) with (@nil string); [reflexivity|].
  symmetry. induction fs as [|[[r n] c] fs IH]; [reflexivity|].
  pose proof (H _ (or_introl eq_refl)) as He. cbn in He. cbn.
  rewrite He. apply IH. intros e' He'. apply H. now right.
Qed.

Lemma staged_files (d : root) (c : content) (payload : list line)
    (fs : list (path * content)) :
  fresh d fs ->
  store (d, ["tmatrix_tmp.inp"]) (Data payload)
    (store (d, ["tmatrix_tmp.inp"]) (Data []) (store (d, ["S.exe"]) c fs))
  = (fs ++ [((d, ["S.exe"]), c); ((d, ["tmatrix_tmp.inp"]), Data payload)])%list.
Proof.
  intros H. rewrite <- (app_nil_r fs) at 1.
  rewrite !store_fresh by assumption. f_equal.
  unfold store, path_eqb. repeat (progress (cbn; rewrite ?root_eqb_refl)).
  reflexivity.
Qed.

Lemma angle_rows_eq (pos : list point) :
  map Row (TmatrixTheory.angles_of pos) = angle_rows pos.
Proof. unfold TmatrixTheory.angles_of, angle_rows. now rewrite map_map. Qed.

Lemma angles_length (pos : list point) :
  List.length (TmatrixTheory.angles_of pos) = List.length pos.
Proof. apply length_map. Qed.

Ltac nonzero :=
  unfold truediv, ctruediv;
  repeat match goal with
         | H : is_zero _ = false |- _ => rewrite H
         end.

Ltac to_solver Hfresh Hsolver :=
  unfold TmatrixTheory._raw_scat_matrs; nonzero; cbn;
  erewrite bind_run by (apply copy_ok; exact Hsolver); cbn;
  erewrite bind_run by (apply chdir_ok; apply dir_exists_made); cbn;
  rewrite (staged_files _ _ _ _ Hfresh), angle_rows_eq, angles_length;
  rewrite <- !app_assoc; reflexivity.

(** Up to the call of the solver, for a [Sphere]. *)
Lemma raw_scat_matrs_sphere (self : Tmatrix_t) (r nr ni : float) (pos : list point)
    (k mi : float) (w : world) (c : content) :
  is_zero k = false -> is_zero mi = false ->
  fresh (TempDir (made w)) (files w) ->
  lookup solver_path (files w) = Some c ->
  TmatrixTheory._raw_scat_matrs self (Sphere r nr ni) pos k mi w =
  solve_and_read self (TempDir (made w)) (cwd w) (TmatrixTheory.med_wavelen_of k)
    (staged w c (sphere_header r nr ni (List.length pos) k mi ++ angle_rows pos)).
Proof.
  intros Hk Hmi Hfresh Hsolver. to_solver Hfresh Hsolver.
Qed.

(** Up to the call of the solver, for an [Axisymmetric]. *)
Lemma raw_scat_matrs_axisymmetric (self : Tmatrix_t) (r0 r1 nr ni rot0 rot1 : float)
    (shape : Z) (pos : list point) (k mi : float) (w : world) (c : content) :
  is_zero k = false -> is_zero mi = false -> is_zero r1 = false ->
  fresh (TempDir (made w)) (files w) ->
  lookup solver_path (files w) = Some c ->
  TmatrixTheory._raw_scat_matrs self (Axisymmetric r0 r1 nr ni rot0 rot1 shape) pos k mi w =
  solve_and_read self (TempDir (made w)) (cwd w) (TmatrixTheory.med_wavelen_of k)
    (staged w c (radius_lines r0 r1 shape ++
                 axisymmetric_header r0 r1 nr ni rot0 rot1 shape (List.length pos) k mi ++
                 angle_rows pos)).
Proof.
  intros Hk Hmi Hr1 Hfresh Hsolver. unfold radius_lines, TmatrixTheory._raw_scat_matrs.
  destruct (Z.eqb shape (-1)), (Z.eqb shape (-2)); to_solver Hfresh Hsolver.
Qed.

End Staging.

Section Solving.
Context {num : PyNum} {fsys : FileSystem}.

Lemma keeps_snd {A : Type} (I : world -> Prop) (c : M A) (w : world) :
  keeps I c -> I w -> I (snd (c w)).
Proof.
  intros Hc Hw. specialize (Hc w Hw). destruct (c w) as [[a|e] w']; cbn; tauto.
Qed.

(** The solver runs on the staged input file alone. *)
Lemma solve_and_read_run (self : Tmatrix_t) (w : world) (p : program)
    (payload : list line) (cur : root) (med_wavelen : float) :
  fresh (TempDir (made w)) (files w) ->
  solve_and_read self (TempDir (made w)) cur med_wavelen (staged w (Exe p) payload) =
  let c := p [] [(["tmatrix_tmp.inp"], payload)] in
  if Z.eqb (returncode c) 0
  then read_result self (TempDir (made w)) cur med_wavelen (solved w p payload)
  else (Raise (CalledProcessError (returncode c) "./S.exe"), solved w p payload).
Proof.
  intros Hfresh. unfold solve_and_read, TmatrixTheory._run_tmat, check_call.
  rewrite bind_assoc.
  erewrite bind_run.
  2:{ apply run_process_ok. unfold resolve, staged. cbn.
      rewrite (lookup_fresh _ _ _ _ Hfresh). unfold lookup, path_eqb. cbn.
      rewrite Nat.eqb_refl. reflexivity. }
  unfold staged. cbn [files log made tmpdirs cwd on_path].
  rewrite (visible_fresh _ _ _ Hfresh), (store_all_fresh _ _ _ _ Hfresh).
  unfold visible. cbn. rewrite Nat.eqb_refl. cbn.
  rewrite <- app_assoc. cbn.
  destruct (Z.eqb _ 0); reflexivity.
Qed.

End Solving.

Section Reading.
Context {num : PyNum} {fsys : FileSystem}.

Lemma keeps_logged_read_result (ev : event) (self : Tmatrix_t) (d cur : root)
    (med_wavelen : float) :
  keeps (logged ev) (read_result self d cur med_wavelen).
Proof. unfold read_result. keeps_auto. Qed.

(** Whatever happens afterwards, the solver has been run on [payload]. *)
Lemma solver_logged (self : Tmatrix_t) (w : world) (p : program)
    (payload : list line) (cur : root) (med_wavelen : float) :
  fresh (TempDir (made w)) (files w) ->
  logged (Exec "./S.exe" [] (TempDir (made w)) [(["tmatrix_tmp.inp"], payload)])
         (snd (solve_and_read self (TempDir (made w)) cur med_wavelen
                 (staged w (Exe p) payload))).
Proof.
  intros Hfresh. rewrite (solve_and_read_run _ _ _ _ _ _ Hfresh). cbv zeta.
  assert (Hlog : logged (Exec "./S.exe" [] (TempDir (made w))
                           [(["tmatrix_tmp.inp"], payload)])
                        (solved w p payload)).
  { unfold logged, solved. cbn. rewrite in_app_iff. right. cbn. tauto. }
  destruct (Z.eqb _ 0); [|exact Hlog].
  apply keeps_snd; [apply keeps_logged_read_result|exact Hlog].
Qed.

Lemma in_store_inv (p : path) (c : content) (fs : list (path * content))
    (e : path * content) :
  In e (store p c fs) -> e = (p, c) \/ In e fs.
Proof.
  unfold store. rewrite in_app_iff. intros [H|[H|[]]]; [|now left].
  right. now apply filter_In in H.
Qed.

Lemma in_store_all_inv (d : root) (outs : list (list string * list line))
    (fs : list (path * content)) (e : path * content) :
  In e (store_all d outs fs) ->
  In e fs \/ exists o, In o outs /\ e = ((d, fst o), Data (snd o)).
Proof.
  unfold store_all. revert fs. induction outs as [|o outs IH]; intros fs; cbn.
  - now left.
  - intros H. apply IH in H as [H|[o' [Ho' He]]].
    + apply in_store_inv in H as [H|H]; [|now left].
      right. exists o. split; [now left|exact H].
    + right. exists o'. split; [now right|exact He].
Qed.

Lemma in_listdir (d : root) (name : string) (fs : list (path * content)) :
  In name (listdir d fs) ->
  exists e, In e fs /\ fst (fst e) = d /\ hd_error (snd (fst e)) = Some name.
Proof.
  unfold listdir. rewrite nodup_In, in_flat_map.
  intros [[[r n] c] [Hin H]]. cbn in H.
  destruct (root_eqb r d) eqn:E; [|contradiction].
  destruct n as [|x n]; [contradiction|]. destruct H as [->|[]].
  exists ((r, name :: n), c). cbn. apply root_eqb_eq in E. auto.
Qed.

Lemma filter_none {X : Type} (f : X -> bool) (l : list X) :
  (forall x, In x l -> f x = false) -> filter f l = [].
Proof.
  induction l as [|x l IH]; intros H; [reflexivity|]. cbn.
  rewrite (H x (or_introl eq_refl)). apply IH. intros y Hy. apply H. now right.
Qed.

Lemma Permutation_filter {X : Type} (f : X -> bool) (l l' : list X) :
  Permutation l l' -> Permutation (filter f l) (filter f l').
Proof.
  induction 1 as [|x l l' _ IH|x y l|l l' l'' _ IH1 _ IH2]; cbn.
  - constructor.
  - destruct (f x); [now constructor|exact IH].
  - destruct (f x), (f y); try apply Permutation_refl. constructor.
  - now transitivity (filter f l').
Qed.

(** A name is listed exactly when it is in the directory. *)
Lemma in_dir_order (name : string) (names : list string) :
  In name (dir_order names) <-> In name names.
Proof.
  split; apply Permutation_in;
    [apply dir_order_perm|apply Permutation_sym, dir_order_perm].
Qed.

(** Where one name matches, the order of the listing does not matter. *)
Lemma filter_dir_order_single (f : string -> bool) (names : list string) (name : string) :
  filter f names = [name] -> filter f (dir_order names) = [name].
Proof.
  intros H. apply Permutation_length_1_inv. rewrite <- H.
  apply Permutation_filter, Permutation_sym, dir_order_perm.
Qed.

(** No result file: indexing the empty list of matches raises. *)
Lemma read_result_no_match (self : Tmatrix_t) (w : world) (p : program)
    (payload : list line) (cur : root) (med_wavelen : float) :
  fresh (TempDir (made w)) (files w) ->
  (forall o, In o (outputs (p [] [(["tmatrix_tmp.inp"], payload)])) ->
             hd_error (fst o) <> Some "tmatrix_tmp.out") ->
  read_result self (TempDir (made w)) cur med_wavelen (solved w p payload)
  = (Raise IndexError, solved w p payload).
Proof.
  intros Hfresh Hout. unfold read_result.
  erewrite bind_run by reflexivity.
  cbn [files solved]. rewrite (listdir_fresh _ _ _ Hfresh).
  rewrite filter_none; [reflexivity|].
  intros name Hin. destruct (matches (Exact "tmatrix_tmp.out") name) eqn:E;
    [|reflexivity].
  unfold matches in E. apply String.eqb_eq in E. subst name.
  apply (proj1 (in_dir_order _ _)), in_listdir in Hin as [e [He [_ Hname]]].
  apply in_store_all_inv in He as [He|[o [Ho ->]]].
  - cbn in He. destruct He as [<-|[<-|[]]]; discriminate Hname.
  - cbn in Hname. now apply Hout in Ho.
Qed.

(** One result file with at least two rows of eight numbers. *)
Lemma read_result_rows (self : Tmatrix_t) (w : world) (p : program)
    (payload : list line) (med_wavelen : float) (rows : list (list float)) :
  is_zero med_wavelen = false ->
  fresh (TempDir (made w)) (files w) ->
  dir_exists (cwd w) w = true ->
  outputs (p [] [(["tmatrix_tmp.inp"], payload)])
    = [(["tmatrix_tmp.out"], map Row rows)] ->
  (2 <= List.length rows)%nat ->
  Forall (fun r => List.length r = 8%nat) rows ->
  fst (read_result self (TempDir (made w)) (cwd w) med_wavelen (solved w p payload))
  = Return (map (tmatrix_point med_wavelen) rows).
Proof.
  intros Hz Hfresh Hcwd Hout Hn Hall.
  set (d := TempDir (made w)).
  assert (Hfiles : files (solved w p payload) =
            (files w ++ [((d, ["S.exe"]), Exe p);
                         ((d, ["tmatrix_tmp.inp"]), Data payload);
                         ((d, ["tmatrix_tmp.out"]), Data (map Row rows))])%list).
  { unfold solved. cbn [files]. rewrite Hout. f_equal.
    unfold store_all, store, path_eqb.
    repeat (progress (cbn; rewrite ?Nat.eqb_refl)). reflexivity. }
  unfold read_result.
  erewrite bind_run.
  2:{ unfold glob. rewrite Hfiles, (listdir_fresh _ _ _ Hfresh).
      rewrite (filter_dir_order_single _ _ "tmatrix_tmp.out"); [reflexivity|].
      unfold listdir. repeat (progress (cbn; rewrite ?Nat.eqb_refl)). reflexivity. }
  cbn.
  erewrite bind_run.
  2:{ unfold loadtxt. rewrite Hfiles, (lookup_fresh _ _ _ _ Hfresh).
      unfold lookup, path_eqb. repeat (progress (cbn; rewrite ?Nat.eqb_refl)).
      rewrite (parse_table_rows 8 rows) by (assumption || lia). reflexivity. }
  cbn. rewrite (tmatrix_scat_matr_rows rows med_wavelen Hz Hall). cbn.
  erewrite bind_run.
  2:{ apply chdir_ok. destruct (cwd w); cbn in *; auto.
      rewrite Hcwd. apply orb_true_r. }
  cbn. destruct (delete self).
  - erewrite bind_run; [reflexivity|]. apply rmtree_ok. cbn.
    now rewrite Nat.eqb_refl.
  - reflexivity.
Qed.

End Reading.

(** ** The DDA theory *)

Section DDAFacts.
Context {num : PyNum} {fsys : FileSystem}.
Variable spherical_grid : DDATheory.DDA_t -> float * float * float -> list point.
Variable paraxholocl :
  float -> float -> float -> float -> list (list complex) -> float * float -> float -> float.

Lemma zip_with_map {X Y Z W : Type} (f : Y -> Z -> W) (g : X -> Y) (h : X -> Z)
    (l : list X) :
  zip_with f (map g l) (map h l) = map (fun x => f (g x) (h x)) l.
Proof. induction l as [|x l IH]; [reflexivity|]. cbn. now rewrite IH. Qed.

Lemma fill_pixels_builtin (self : DDATheory.DDA_t) (scat : DDATheory.sphere)
    (alpha : float) (grid : list point) (scat_matr : list (list (list complex))) :
  raises_builtin (DDATheory.fill_pixels paraxholocl self scat alpha grid scat_matr).
Proof.
  unfold DDATheory.fill_pixels. apply all_ok_builtin, Forall_map, Forall_forall.
  intros [i pt] _. cbn [fst snd].
  pose proof (item_builtin scat_matr i) as H.
  destruct (item scat_matr i); [exact I|exact H].
Qed.

Lemma reshape_builtin {X : Type} (shape : nat * nat) (l : list X) :
  raises_builtin (DDATheory.reshape shape l).
Proof. unfold DDATheory.reshape. destruct (Nat.eqb _ _); exact I. Qed.

(** [calc_holo] never removes the directory it makes. *)
Lemma dda_tempdir_left (self : DDATheory.DDA_t) (scat : DDATheory.sphere)
    (alpha : float) (w : world) :
  dir_exists (TempDir (made w))
    (snd (DDATheory.calc_holo spherical_grid paraxholocl self scat alpha w)) = true.
Proof.
  unfold DDATheory.calc_holo.
  assert (Hmk : mkdtemp w = (Return (TempDir (made w)),
                 World (S (made w)) (made w :: tmpdirs w) (files w) (cwd w)
                       (on_path w) (log w ++ [Mkdtemp (TempDir (made w))])))
    by reflexivity.
  rewrite (bind_run _ _ _ _ _ Hmk).
  apply (keeps_snd (tempdir_kept (TempDir (made w)))).
  - unfold DDATheory._write_adda_angles_file.
    pose proof fill_pixels_builtin. pose proof @reshape_builtin.
    keeps_auto.
  - apply dir_exists_made.
Qed.

(** Without adda the theory object is not built: [DependencyMissing]
    names adda, and nothing has been done to the world, so no
    temporary directory was made. *)
Lemma dda_init_missing (optics0 : DDATheory.Optics) (imshape0 : nat * nat) (w : world) :
  resolve "adda" (cwd w) w = None ->
  DDATheory.__init__ optics0 imshape0 w = (Raise (DependencyMissing "adda"), w).
Proof.
  intros H. unfold DDATheory.__init__, check_output, check_call, try_except, bind,
    getcwd, run_process. now rewrite H.
Qed.

(** An adda that exits with an error is reported in the same way,
    before any temporary directory is made. *)
Lemma dda_init_failing (optics0 : DDATheory.Optics) (imshape0 : nat * nat) (w : world)
    (p : program) :
  resolve "adda" (cwd w) w = Some p ->
  returncode (p [Lit "-V"] (visible (cwd w) (files w))) <> 0%Z ->
  fst (DDATheory.__init__ optics0 imshape0 w) = Raise (DependencyMissing "adda") /\
  made (snd (DDATheory.__init__ optics0 imshape0 w)) = made w.
Proof.
  intros H Hrc. unfold DDATheory.__init__, check_output, check_call, try_except, bind,
    getcwd, run_process. rewrite H.
  apply Z.eqb_neq in Hrc. rewrite Hrc. split; reflexivity.
Qed.

End DDAFacts.

(** ** Loops that index by position *)

Section LoopFacts.
Context {num : PyNum} {fsys : FileSystem}.

Lemma skipn_nth_error_some {X : Type} (l : list X) (s : nat) (x : X) :
  nth_error l s = Some x -> skipn s l = x :: skipn (S s) l.
Proof.
  revert l. induction s as [|s IH]; intros [|y l]; cbn; try discriminate.
  - now intros [= ->].
  - intros H. now apply IH.
Qed.

Lemma skipn_nth_error_none {X : Type} (l : list X) (s : nat) :
  nth_error l s = None -> skipn s l = [].
Proof. intros H. apply skipn_all2. now apply nth_error_None. Qed.

(** A loop over the points that indexes [l] by the position of the
    point: it pairs the points with the elements of [l] in order,
    ignores what [l] has beyond the last point, and raises where [l]
    runs out. *)
Lemma indexed_loop_from {X Y P : Type} (l : list X) (h : X -> P -> outcome exn Y)
    (f : X -> P -> Y) (pts : list P) (s : nat) :
  (forall x p, In x l -> h x p = Return (f x p)) ->
  all_ok (map (fun ip => x <-- item l (fst ip) ;; h x (snd ip))
              (combine (seq s (List.length pts)) pts))
  = if (List.length pts <=? List.length (skipn s l))%nat
    then Return (zip_with (fun p x => f x p) pts (skipn s l))
    else Raise IndexError.
Proof.
  intros Hh. revert s. induction pts as [|p pts IH]; intros s; [reflexivity|].
  cbn [List.length seq combine map all_ok fst snd]. unfold item at 1.
  destruct (nth_error l s) as [x|] eqn:E.
  - rewrite (skipn_nth_error_some l s x E).
    rewrite (Hh x p) by (eapply nth_error_In; exact E).
    rewrite IH. cbn [List.length zip_with Nat.leb].
    destruct (Nat.leb _ _); reflexivity.
  - rewrite (skipn_nth_error_none l s E). reflexivity.
Qed.

Lemma indexed_loop {X Y P : Type} (l : list X) (h : X -> P -> outcome exn Y)
    (f : X -> P -> Y) (pts : list P) :
  (forall x p, In x l -> h x p = Return (f x p)) ->
  all_ok (map (fun ip => x <-- item l (fst ip) ;; h x (snd ip))
              (combine (seq 0 (List.length pts)) pts))
  = if (List.length pts <=? List.length l)%nat
    then Return (zip_with (fun p x => f x p) pts l)
    else Raise IndexError.
Proof. intros Hh. exact (indexed_loop_from l h f pts 0 Hh). Qed.

Lemma zip_with_map_r {X Y Z W : Type} (f : X -> Z -> W) (g : Y -> Z)
    (a : list X) (b : list Y) :
  zip_with f a (map g b) = zip_with (fun x y => f x (g y)) a b.
Proof.
  revert b. induction a as [|x a IH]; intros [|y b]; cbn; try reflexivity.
  now rewrite IH.
Qed.

Lemma zip_with_length {X Y Z : Type} (f : X -> Y -> Z) (a : list X) (b : list Y) :
  (List.length a <= List.length b)%nat ->
  List.length (zip_with f a b) = List.length a.
Proof.
  revert b. induction a as [|x a IH]; intros [|y b]; cbn; try lia.
  intros H. rewrite IH; lia.
Qed.

End LoopFacts.

(** ** Runs of the DDA theory *)

Section DDARuns.
Context {num : PyNum} {fsys : FileSystem}.
Variable spherical_grid : DDATheory.DDA_t -> float * float * float -> list point.
Variable paraxholocl :
  float -> float -> float -> float -> list (list complex) -> float * float -> float -> float.

(** The loop of [calc_holo] on the matrices of [rows]. *)
Lemma fill_pixels_rows (self : DDATheory.DDA_t) (scat : DDATheory.sphere) (alpha : float)
    (grid : list point) (rows : list (list float)) :
  DDATheory.fill_pixels paraxholocl self scat alpha grid (map dda_point rows)
  = if (List.length grid <=? List.length rows)%nat
    then Return (zip_with (pixel_of paraxholocl self scat alpha) grid rows)
    else Raise IndexError.
Proof.
  unfold DDATheory.fill_pixels.
  rewrite (indexed_loop (map dda_point rows)
             (fun m pt => Return (paraxholocl (pt_kr pt)
                                    (DDATheory.z scat [*] DDATheory.wavevec (DDATheory.optics self))
                                    (pt_theta pt) (pt_phi pt) m
                                    (DDATheory.polarization (DDATheory.optics self)) alpha))
             (fun m pt => paraxholocl (pt_kr pt)
                            (DDATheory.z scat [*] DDATheory.wavevec (DDATheory.optics self))
                            (pt_theta pt) (pt_phi pt) m
                            (DDATheory.polarization (DDATheory.optics self)) alpha))
    by reflexivity.
  rewrite length_map, zip_with_map_r. reflexivity.
Qed.

Lemma fcolumn_rows (k width : nat) (rows : list (list float)) :
  (k < width)%nat -> Forall (fun r => List.length r = width) rows ->
  exists v, fcolumn k (Arr2 rows) = Return v.
Proof.
  intros Hk Hall. exists (map (fun r => nth k r (of_int 0)) rows).
  unfold fcolumn. apply all_ok_map_Return. intros r Hr. unfold item.
  rewrite Forall_forall in Hall. rewrite (nth_error_nth' r (of_int 0)); [reflexivity|].
  rewrite (Hall r Hr). exact Hk.
Qed.

(** The hologram from a table of at least two rows of ten numbers. *)
Lemma hologram_from_rows (self : DDATheory.DDA_t) (scat : DDATheory.sphere)
    (alpha : float) (header : line) (rows : list (list float)) :
  let grid := spherical_grid self (DDATheory.center scat) in
  (2 <= List.length rows)%nat ->
  Forall (fun r => List.length r = 10%nat) rows ->
  hologram_from spherical_grid paraxholocl self scat alpha (header :: map Row rows)
  = if (List.length grid <=? List.length rows)%nat
    then pixels0 <-- DDATheory.reshape (DDATheory.imshape self)
                       (zip_with (pixel_of paraxholocl self scat alpha) grid rows) ;;
         Return (DDATheory.Build_Hologram pixels0 (DDATheory.optics self))
    else Raise IndexError.
Proof.
  intros grid Hn Hall. unfold hologram_from. fold grid.
  change (parse_table 1 (header :: map Row rows)) with (parse_table 0 (map Row rows)).
  rewrite (parse_table_rows 10 rows) by (assumption || lia).
  destruct (fcolumn_rows 0 10 rows) as [v0 ->]; [lia|assumption|].
  destruct (fcolumn_rows 1 10 rows) as [v1 ->]; [lia|assumption|].
  rewrite (dda_scat_matr_rows rows Hall), fill_pixels_rows.
  destruct (Nat.leb _ _); reflexivity.
Qed.

End DDARuns.

Section DDAStaging.
Context {num : PyNum} {fsys : FileSystem}.
Variable spherical_grid : DDATheory.DDA_t -> float * float * float -> list point.
Variable paraxholocl :
  float -> float -> float -> float -> list (list complex) -> float * float -> float -> float.

(** Up to the call of adda: the temporary directory holds
    [scat_params.dat] and nothing else. *)
Lemma calc_holo_staged (self : DDATheory.DDA_t) (scat : DDATheory.sphere)
    (alpha : float) (w : world) :
  let d := TempDir (made w) in
  let grid := spherical_grid self (DDATheory.center scat) in
  is_zero (DDATheory.index (DDATheory.optics self)) = false ->
  fresh d (files w) ->
  DDATheory.calc_holo spherical_grid paraxholocl self scat alpha w =
  (check_call "adda" (adda_args self scat) d ;;;
   read_holo spherical_grid paraxholocl self scat alpha d)
    (World (S (made w)) (made w :: tmpdirs w)
           (files w ++ [((d, ["scat_params.dat"]), Data (scat_params grid))])
           (cwd w) (on_path w)
           (log w ++ [Mkdtemp d; Open (d, ["scat_params.dat"]);
                      Close (d, ["scat_params.dat"])])).
Proof.
  intros d grid Hidx Hfresh. unfold DDATheory.calc_holo.
  erewrite bind_run by reflexivity. cbn beta.
  erewrite bind_run.
  2:{ unfold DDATheory._write_adda_angles_file. erewrite bind_run by reflexivity.
      reflexivity. }
  unfold truediv. rewrite Hidx.
  erewrite bind_run by reflexivity. erewrite bind_run by reflexivity. cbn beta.
  cbn [files log made tmpdirs cwd on_path fh_path fh_buf write savetxt].
  fold d. fold grid.
  rewrite length_map, zip_with_map.
  rewrite <- (app_nil_r (files w)) at 1.
  rewrite !store_fresh by assumption.
  replace (store (d, ["scat_params.dat"]) _ (store (d, ["scat_params.dat"]) _ []))
    with [((d, ["scat_params.dat"]), Data (scat_params grid))].
  2:{ unfold store, path_eqb, scat_params, angle_rows. subst d.
      repeat (progress (cbn; rewrite ?Nat.eqb_refl)). now rewrite map_map. }
  rewrite <- !app_assoc. reflexivity.
Qed.

(** With a medium index of zero the argument list of adda cannot be
    built: [calc_holo] raises [ZeroDivisionError] and adda is not
    started. *)
Lemma calc_holo_zero_index (self : DDATheory.DDA_t) (scat : DDATheory.sphere)
    (alpha : float) (w : world) :
  is_zero (DDATheory.index (DDATheory.optics self)) = true ->
  fst (DDATheory.calc_holo spherical_grid paraxholocl self scat alpha w)
  = Raise ZeroDivisionError.
Proof.
  intros Hidx. unfold DDATheory.calc_holo.
  erewrite bind_run by reflexivity. cbn beta.
  erewrite bind_run.
  2:{ unfold DDATheory._write_adda_angles_file. erewrite bind_run by reflexivity.
      reflexivity. }
  unfold truediv. rewrite Hidx. reflexivity.
Qed.

(** adda runs on [scat_params.dat] alone. *)
Lemma calc_holo_run (self : DDATheory.DDA_t) (scat : DDATheory.sphere)
    (alpha : float) (w : world) (p : program) :
  let d := TempDir (made w) in
  let grid := spherical_grid self (DDATheory.center scat) in
  let c := p (adda_args self scat) [(["scat_params.dat"], scat_params grid)] in
  is_zero (DDATheory.index (DDATheory.optics self)) = false ->
  fresh d (files w) ->
  find (fun e => String.eqb (fst e) "adda") (on_path w) = Some ("adda", p) ->
  DDATheory.calc_holo spherical_grid paraxholocl self scat alpha w =
  if Z.eqb (returncode c) 0
  then read_holo spherical_grid paraxholocl self scat alpha d
         (adda_done w p (adda_args self scat) grid)
  else (Raise (CalledProcessError (returncode c) "adda"),
        adda_done w p (adda_args self scat) grid).
Proof.
  intros d grid c Hidx Hfresh Hadda.
  rewrite (calc_holo_staged self scat alpha w Hidx Hfresh). fold d grid.
  unfold check_call. rewrite bind_assoc.
  erewrite bind_run.
  2:{ apply run_process_ok. unfold resolve. cbn. rewrite Hadda. reflexivity. }
  cbn [files log made tmpdirs cwd on_path].
  rewrite (visible_fresh _ _ _ Hfresh), (store_all_fresh _ _ _ _ Hfresh).
  replace (visible d [((d, ["scat_params.dat"]), Data (scat_params grid))])
    with [(["scat_params.dat"], scat_params grid)].
  2:{ unfold visible. subst d. cbn. now rewrite Nat.eqb_refl. }
  cbn [snd]. fold c. unfold adda_done. fold d grid c. rewrite <- !app_assoc. cbn [app].
  unfold bind at 1.
  destruct (Z.eqb (returncode c) 0); reflexivity.
Qed.

End DDAStaging.

Section DDAReading.
Context {num : PyNum} {fsys : FileSystem}.
Variable spherical_grid : DDATheory.DDA_t -> float * float * float -> list point.
Variable paraxholocl :
  float -> float -> float -> float -> list (list complex) -> float * float -> float -> float.

Lemma run_name_first (name : string) :
  prefix "run000" name = true -> exists rest, name = String "r"%char rest.
Proof.
  destruct name as [|c rest]; [discriminate|]. cbn [prefix].
  destruct (Ascii.ascii_dec "r"%char c) as [<-|]; [|discriminate]. intros _. now exists rest.
Qed.

Lemma listdir_in (d : root) (name : string) (fs : list (path * content))
    (e : path * content) :
  In e fs -> fst (fst e) = d -> hd_error (snd (fst e)) = Some name ->
  In name (listdir d fs).
Proof.
  intros Hin Hd Hname. unfold listdir. rewrite nodup_In, in_flat_map.
  exists e. split; [exact Hin|]. destruct e as [[r n] c]. cbn in *. subst r.
  rewrite root_eqb_refl.
  destruct n as [|x n]; [discriminate|]. injection Hname as ->. now left.
Qed.

(** A path that holds a file still holds one after any write. *)
Lemma path_kept_store (p q : path) (c : content) (fs : list (path * content)) :
  (exists c', In (p, c') fs) -> exists c', In (p, c') (store q c fs).
Proof.
  intros [c' Hin]. unfold store. destruct (path_eqb p q) eqn:E.
  - apply path_eqb_eq in E. subst q. exists c. rewrite in_app_iff. right. now left.
  - exists c'. rewrite in_app_iff. left. apply filter_In. split; [exact Hin|].
    cbn. now rewrite E.
Qed.

Lemma in_store_all_path (d : root) (outs : list (list string * list line))
    (fs : list (path * content)) (o : list string * list line) :
  In o outs -> exists c, In ((d, fst o), c) (store_all d outs fs).
Proof.
  assert (Hkept : forall outs' p fs',
             (exists c, In (p, c) fs') -> exists c, In (p, c) (store_all d outs' fs')).
  { unfold store_all. induction outs' as [|o' outs' IH]; intros p fs' H; [exact H|].
    cbn [fold_left]. apply IH. now apply path_kept_store. }
  unfold store_all in *. revert fs.
  induction outs as [|o' outs IH]; intros fs Hin; [destruct Hin|].
  destruct Hin as [<-|Hin]; cbn [fold_left].
  - apply Hkept. eexists. apply in_store.
  - now apply IH.
Qed.

(** No path holds two files. *)
Lemma store_paths_nodup (p : path) (c : content) (fs : list (path * content)) :
  NoDup (map fst fs) -> NoDup (map fst (store p c fs)).
Proof.
  intros H. unfold store. rewrite map_app. cbn [map fst].
  apply NoDup_app.
  - induction fs as [|e fs IH]; cbn; [constructor|].
    inversion H as [|? ? Hnot Hrest]; subst.
    destruct (negb (path_eqb (fst e) p)); [|now apply IH].
    cbn. constructor; [|now apply IH].
    intros Hin. apply Hnot. apply in_map_iff in Hin as [e' [He' Hin']].
    apply in_map_iff. exists e'. split; [exact He'|]. now apply filter_In in Hin'.
  - repeat constructor. intros [].
  - intros q Hq [Heq|[]]. subst q. apply in_map_iff in Hq as [e [He Hin]].
    apply filter_In in Hin as [_ Hin]. rewrite He, path_eqb_refl in Hin.
    discriminate Hin.
Qed.

Lemma store_all_paths_nodup (d : root) (outs : list (list string * list line))
    (fs : list (path * content)) :
  NoDup (map fst fs) -> NoDup (map fst (store_all d outs fs)).
Proof.
  unfold store_all. revert fs. induction outs as [|o outs IH]; intros fs H; [exact H|].
  cbn [fold_left]. apply IH. now apply store_paths_nodup.
Qed.

Lemma lookup_in_nodup (p : path) (c : content) (fs : list (path * content)) :
  NoDup (map fst fs) -> In (p, c) fs -> lookup p fs = Some c.
Proof.
  unfold lookup. induction fs as [|e fs IH]; intros Hnd Hin; [destruct Hin|].
  inversion Hnd as [|? ? Hnot Hrest]; subst. cbn [find].
  destruct Hin as [->|Hin].
  - cbn [fst]. now rewrite path_eqb_refl.
  - destruct (path_eqb (fst e) p) eqn:E; [|now apply IH].
    apply path_eqb_eq in E. exfalso. apply Hnot. apply in_map_iff.
    exists (p, c). now split.
Qed.

Lemma filter_head {X : Type} (f : X -> bool) (l : list X) (x : X) :
  In x l -> f x = true -> exists y ys, filter f l = y :: ys.
Proof.
  intros Hin Hf. destruct (filter f l) as [|y ys] eqn:E; [|eauto].
  assert (H : In x (filter f l)) by (apply filter_In; now split).
  rewrite E in H. destruct H.
Qed.

(** Run directories: the hologram is computed from the
    [ampl_scatgrid] of one of them, the first the file system lists. *)
Lemma read_holo_some_run (self : DDATheory.DDA_t) (scat : DDATheory.sphere)
    (alpha : float) (w : world) (p : program) (runs : list (string * list line)) :
  let d := TempDir (made w) in
  let grid := spherical_grid self (DDATheory.center scat) in
  fresh d (files w) ->
  outputs (p (adda_args self scat) [(["scat_params.dat"], scat_params grid)])
    = run_outputs runs ->
  Forall (fun nt => prefix "run000" (fst nt) = true) runs ->
  runs <> [] ->
  exists n t,
    first_run_listed d (adda_done w p (adda_args self scat) grid) = Some n /\
    In (n, t) runs /\
    fst (read_holo spherical_grid paraxholocl self scat alpha d
           (adda_done w p (adda_args self scat) grid))
    = hologram_from spherical_grid paraxholocl self scat alpha t.
Proof.
  intros d grid Hfresh Hout Hruns Hne.
  set (W := adda_done w p (adda_args self scat) grid).
  set (tail := store_all d (run_outputs runs)
                 [((d, ["scat_params.dat"]), Data (scat_params grid))]).
  assert (Hfiles : files W = (files w ++ tail)%list).
  { unfold W, adda_done. cbn [files]. fold grid. now rewrite Hout. }
  assert (Hnd : NoDup (map fst tail)).
  { apply store_all_paths_nodup. repeat constructor. intros []. }
  rewrite Forall_forall in Hruns.
  (* something matches *)
  assert (Hsome : exists n rest,
            filter (matches (StartsWith "run000")) (dir_order (listdir d (files W)))
            = n :: rest).
  { destruct runs as [|[n0 t0] runs']; [contradiction|].
    apply (filter_head _ _ n0); [|exact (Hruns (n0, t0) (or_introl eq_refl))].
    apply (proj2 (in_dir_order _ _)). rewrite Hfiles, (listdir_fresh _ _ _ Hfresh).
    destruct (in_store_all_path d (run_outputs ((n0, t0) :: runs'))
                [((d, ["scat_params.dat"]), Data (scat_params grid))]
                ([n0; "ampl_scatgrid"], t0)) as [c Hc]; [now left|].
    exact (listdir_in d n0 tail _ Hc eq_refl eq_refl). }
  destruct Hsome as [n [rest Hnames]].
  (* what matches first is one of the runs *)
  assert (Hn : In n (filter (matches (StartsWith "run000"))
                       (dir_order (listdir d (files W)))))
    by (rewrite Hnames; now left).
  apply filter_In in Hn as [Hin Hmatch].
  apply (proj1 (in_dir_order _ _)) in Hin.
  rewrite Hfiles, (listdir_fresh _ _ _ Hfresh) in Hin.
  apply in_listdir in Hin as [e [He [_ Hname]]].
  assert (Hrun : exists t, In (n, t) runs /\ In ((d, [n; "ampl_scatgrid"]), Data t) tail).
  { pose proof He as He'.
    apply in_store_all_inv in He' as [[<-|[]]|[o [Ho ->]]].
    - injection Hname as <-. discriminate Hmatch.
    - apply in_map_iff in Ho as [[n' t'] [<- Hnt]]. cbn in Hname.
      injection Hname as <-. exists t'. split; [exact Hnt|exact He]. }
  destruct Hrun as [t [Hnt Htail]]. exists n, t.
  split; [unfold first_run_listed; fold W; now rewrite Hnames|].
  split; [exact Hnt|].
  unfold read_holo. fold grid.
  erewrite bind_run by reflexivity. rewrite Hnames. cbn [map].
  erewrite bind_run by reflexivity. cbn [fst snd app].
  unfold hologram_from. fold grid.
  unfold bind at 1, loadtxt. rewrite Hfiles, (lookup_fresh _ _ _ _ Hfresh).
  rewrite (lookup_in_nodup _ _ _ Hnd Htail).
  destruct (parse_table 1 t) as [adda_result|e0]; [cbn|reflexivity].
  destruct (fcolumn 0 adda_result); [cbn|reflexivity].
  destruct (fcolumn 1 adda_result); [cbn|reflexivity].
  destruct (DDATheory.scat_matr_of adda_result) as [scat_matr|e0]; [cbn|reflexivity].
  destruct (DDATheory.fill_pixels _ _ _ _ _ _) as [pixels0|e0]; [cbn|reflexivity].
  destruct (DDATheory.reshape _ _); reflexivity.
Qed.

(** One run directory: the hologram is computed from its
    [ampl_scatgrid]. *)
Lemma read_holo_single (self : DDATheory.DDA_t) (scat : DDATheory.sphere)
    (alpha : float) (w : world) (p : program) (name : string) (table : list line) :
  let d := TempDir (made w) in
  let grid := spherical_grid self (DDATheory.center scat) in
  fresh d (files w) ->
  outputs (p (adda_args self scat) [(["scat_params.dat"], scat_params grid)])
    = [([name; "ampl_scatgrid"], table)] ->
  prefix "run000" name = true ->
  fst (read_holo spherical_grid paraxholocl self scat alpha d
         (adda_done w p (adda_args self scat) grid))
  = hologram_from spherical_grid paraxholocl self scat alpha table.
Proof.
  intros d grid Hfresh Hout Hname.
  destruct (read_holo_some_run self scat alpha w p [(name, table)] Hfresh Hout)
    as [n [t [_ [[[= <- <-]|[]] H]]]].
  - repeat constructor. exact Hname.
  - discriminate.
  - exact H.
Qed.

(** No run directory: indexing the empty list of matches raises. *)
Lemma read_holo_no_match (self : DDATheory.DDA_t) (scat : DDATheory.sphere)
    (alpha : float) (w : world) (p : program) :
  let d := TempDir (made w) in
  let grid := spherical_grid self (DDATheory.center scat) in
  fresh d (files w) ->
  (forall o name, In o (outputs (p (adda_args self scat)
                                   [(["scat_params.dat"], scat_params grid)])) ->
                  hd_error (fst o) = Some name -> prefix "run000" name = false) ->
  read_holo spherical_grid paraxholocl self scat alpha d
    (adda_done w p (adda_args self scat) grid)
  = (Raise IndexError, adda_done w p (adda_args self scat) grid).
Proof.
  intros d grid Hfresh Hout. unfold read_holo.
  erewrite bind_run by reflexivity.
  cbn [files adda_done]. rewrite (listdir_fresh _ _ _ Hfresh).
  rewrite filter_none; [reflexivity|].
  intros name Hin.
  apply (proj1 (in_dir_order _ _)), in_listdir in Hin as [e [He [_ Hname]]].
  apply in_store_all_inv in He as [He|[o [Ho ->]]].
  - cbn in He. destruct He as [<-|[]]. injection Hname as <-. reflexivity.
  - cbn in Hname. exact (Hout o name Ho Hname).
Qed.

End DDAReading.

(** ** The claims, for every arithmetic *)

Section Claims.
Context {num : PyNum} {fsys : FileSystem}.

Lemma divisors_nonzero_inv (scat : scatterer) (k mi : float) :
  divisors_nonzero scat k mi = true ->
  is_zero k = false /\ is_zero mi = false /\
  match scat with
  | Axisymmetric _ r1 _ _ _ _ _ => is_zero r1 = false
  | _ => True
  end.
Proof.
  unfold divisors_nonzero. intros H.
  apply andb_true_iff in H as [H H3]. apply andb_true_iff in H as [H1 H2].
  apply negb_true_iff in H1, H2. repeat split; try assumption.
  destruct scat; try exact I. now apply negb_true_iff in H3.
Qed.

Lemma raw_scat_matrs_handled (self : Tmatrix_t) (scat : scatterer) (pos : list point)
    (k mi : float) (w : world) (c : content) :
  TmatrixTheory._can_handle self scat = true ->
  divisors_nonzero scat k mi = true ->
  fresh (TempDir (made w)) (files w) ->
  lookup solver_path (files w) = Some c ->
  TmatrixTheory._raw_scat_matrs self scat pos k mi w =
  solve_and_read self (TempDir (made w)) (cwd w) (TmatrixTheory.med_wavelen_of k)
    (staged w c (input_lines scat pos k mi)).
Proof.
  intros Hcan Hdiv Hfresh Hsolver.
  apply divisors_nonzero_inv in Hdiv as [Hk [Hmi Hr1]].
  destruct scat; [| |discriminate Hcan].
  - now apply raw_scat_matrs_sphere.
  - now apply raw_scat_matrs_axisymmetric.
Qed.

(** A run on an output file of at least two rows of eight numbers. *)
Lemma tmatrix_run_value (self : Tmatrix_t) (scat : scatterer) (pos : list point)
    (k mi : float) (w : world) (p : program) (rows : list (list float)) :
  TmatrixTheory._can_handle self scat = true ->
  divisors_nonzero scat k mi = true ->
  is_zero (TmatrixTheory.med_wavelen_of k) = false ->
  fresh (TempDir (made w)) (files w) ->
  dir_exists (cwd w) w = true ->
  lookup solver_path (files w) = Some (Exe p) ->
  p [] [(["tmatrix_tmp.inp"], input_lines scat pos k mi)]
    = Completed 0 [(["tmatrix_tmp.out"], map Row rows)] ->
  (2 <= List.length rows)%nat ->
  Forall (fun r => List.length r = 8%nat) rows ->
  fst (TmatrixTheory._raw_scat_matrs self scat pos k mi w)
  = Return (map (tmatrix_point (TmatrixTheory.med_wavelen_of k)) rows).
Proof.
  intros Hcan Hdiv Hz Hfresh Hcwd Hsolver Hrun Hn Hall.
  rewrite (raw_scat_matrs_handled _ _ _ _ _ _ _ Hcan Hdiv Hfresh Hsolver).
  rewrite (solve_and_read_run _ _ _ _ _ _ Hfresh). cbv zeta. rewrite Hrun.
  cbn [returncode Z.eqb].
  apply read_result_rows; auto. now rewrite Hrun.
Qed.



(** For an [Axisymmetric] with any other shape the input file the
    solver is started on begins with the wavelength: no line holds an
    equivalent radius, and nothing is raised on the way. *)
Lemma unknown_shape_payload (self : Tmatrix_t)
    (r0 r1 n_real n_imag rotation0 rotation1 : float) (shape : Z)
    (pos : list point) (medium_wavevec medium_index : float) (w : world) (p : program) :
  is_zero medium_wavevec = false ->
  is_zero medium_index = false ->
  is_zero r1 = false ->
  fresh (TempDir (made w)) (files w) ->
  lookup solver_path (files w) = Some (Exe p) ->
  shape <> (-1)%Z -> shape <> (-2)%Z ->
  logged
    (Exec "./S.exe" [] (TempDir (made w))
       [(["tmatrix_tmp.inp"],
         axisymmetric_header r0 r1 n_real n_imag rotation0 rotation1 shape
           (List.length pos) medium_wavevec medium_index
         ++ angle_rows pos)])
    (snd (TmatrixTheory._raw_scat_matrs self
            (Axisymmetric r0 r1 n_real n_imag rotation0 rotation1 shape) pos
            medium_wavevec medium_index w)).
Proof.
  intros Hk Hmi Hr1 Hfresh Hsolver H1 H2.
  rewrite (raw_scat_matrs_axisymmetric _ _ _ _ _ _ _ _ _ _ _ _ _
             Hk Hmi Hr1 Hfresh Hsolver).
  unfold radius_lines. apply Z.eqb_neq in H1, H2. rewrite H1, H2.
  apply (solver_logged _ _ _ _ _ _ Hfresh).
Qed.


(** C7, as the code has it.  [Tmatrix._raw_scat_matrs] has removed
    its temporary directory when it returns with [delete] set and when
    it raises [TheoryNotCompatibleError], and has left it in place
    when it returns with [delete] unset.  [DDA.calc_holo], where the
    removal is commented out, leaves its temporary directory in place
    on every exit. *)
Theorem tempdir_release_by_exit :
  (forall (self : Tmatrix_t) (scat : scatterer) (pos : list point)
          (medium_wavevec medium_index : float) (w : world),
     match TmatrixTheory._raw_scat_matrs self scat pos medium_wavevec medium_index w with
     | (Return _, w') => dir_exists (TempDir (made w)) w' = negb (delete self)
     | (Raise (TheoryNotCompatibleError _ _), w') =>
         dir_exists (TempDir (made w)) w' = false
     | (Raise _, _) => True
     end) /\
  (forall spherical_grid paraxholocl (self : DDATheory.DDA_t) (scat : DDATheory.sphere)
          (alpha : float) (w : world),
     dir_exists (TempDir (made w))
       (snd (DDATheory.calc_holo spherical_grid paraxholocl self scat alpha w)) = true).
Proof.
  split.
  - intros self scat pos k mi w.
    pose proof (tmatrix_tempdir_by_exit self scat pos k mi w) as H.
    destruct (TmatrixTheory._raw_scat_matrs self scat pos k mi w) as [[m|e] w'];
      [exact H|]. destruct e; (exact H || exact I).
  - intros. apply dda_tempdir_left.
Qed.



End Claims.

(** ** The claims at concrete inputs *)

Section Concrete.
Import RealNum Examples.
Open Scope R_scope.

Lemma is_zero_false (x : R) : x <> 0 -> is_zero x = false.
Proof.
  intros H. cbn. destruct (Req_dec_T x 0); [contradiction|reflexivity].
Qed.

Lemma is_zero_true : is_zero 0 = true.
Proof. cbn. destruct (Req_dec_T 0 0); [reflexivity|contradiction]. Qed.

Lemma is_zero_1 : is_zero 1 = false.
Proof. apply is_zero_false. lra. Qed.

Lemma is_zero_index : is_zero 1.33 = false.
Proof. apply is_zero_false. lra. Qed.

Lemma is_zero_med_wavelen : is_zero (TmatrixTheory.med_wavelen_of 1) = false.
Proof.
  apply is_zero_false. unfold TmatrixTheory.med_wavelen_of. cbn.
  pose proof PI_RGT_0. lra.
Qed.

Lemma divisors_a_sphere : divisors_nonzero a_sphere 1 1.33 = true.
Proof.
  unfold divisors_nonzero, a_sphere. now rewrite is_zero_1, is_zero_index.
Qed.

Lemma divisors_a_spheroid (shape : Z) : divisors_nonzero (a_spheroid shape) 1 1.33 = true.
Proof.
  unfold divisors_nonzero, a_spheroid. now rewrite is_zero_1, is_zero_index.
Qed.

Lemma is_zero_dda_index : is_zero (DDATheory.index (DDATheory.optics a_dda)) = false.
Proof. exact is_zero_index. Qed.

Lemma fresh_world_with (p : program) : fresh (TempDir 0) (files (world_with p)).
Proof. intros e [<-|[]]. reflexivity. Defined.

Lemma fresh_adda_world (p : program) : fresh (TempDir 0) (files (adda_world p)).
Proof. intros e []. Defined.

Lemma rows2_width : Forall (fun r : list R => List.length r = 8%nat) rows2.
Proof. repeat constructor. Defined.

Lemma rows3_width : Forall (fun r : list R => List.length r = 8%nat) rows3.
Proof. repeat constructor. Defined.

Lemma adda_rows_width : Forall (fun r : list R => List.length r = 10%nat) adda_rows.
Proof. repeat constructor. Defined.

(** A run of [a_sphere] or of a spheroid, on a solver that writes [rows]. *)
Lemma stub_run_value (scat : scatterer) (rows : list (list R)) :
  TmatrixTheory._can_handle (Tmatrix true) scat = true ->
  divisors_nonzero scat 1 1.33 = true ->
  (2 <= List.length rows)%nat ->
  Forall (fun r => List.length r = 8%nat) rows ->
  fst (TmatrixTheory._raw_scat_matrs (Tmatrix true) scat two_points 1 1.33
         (world_with (stub 0 (tmatrix_out rows))))
  = Return (map (tmatrix_point (TmatrixTheory.med_wavelen_of 1)) rows).
Proof.
  intros Hcan Hdiv Hn Hall.
  apply (tmatrix_run_value (Tmatrix true) scat two_points 1 1.33
           (world_with (stub 0 (tmatrix_out rows))) (stub 0 (tmatrix_out rows)) rows
           Hcan Hdiv is_zero_med_wavelen (fresh_world_with _) eq_refl eq_refl eq_refl
           Hn Hall).
Qed.

(** A run of [a_sphere] up to the solver's exit. *)
Lemma stub_run (rc : Z) (outs : list (list string * list line)) :
  TmatrixTheory._raw_scat_matrs (Tmatrix true) a_sphere two_points 1 1.33
    (world_with (stub rc outs)) =
  if Z.eqb rc 0
  then read_result (Tmatrix true) (TempDir 0) StartDir (TmatrixTheory.med_wavelen_of 1)
         (solved (world_with (stub rc outs)) (stub rc outs)
            (input_lines a_sphere two_points 1 1.33))
  else (Raise (CalledProcessError rc "./S.exe"),
        solved (world_with (stub rc outs)) (stub rc outs)
          (input_lines a_sphere two_points 1 1.33)).
Proof.
  rewrite (raw_scat_matrs_handled (Tmatrix true) a_sphere two_points 1 1.33
             (world_with (stub rc outs)) (Exe (stub rc outs))
             eq_refl divisors_a_sphere (fresh_world_with _) eq_refl).
  exact (solve_and_read_run (Tmatrix true) (world_with (stub rc outs)) (stub rc outs)
           (input_lines a_sphere two_points 1 1.33) StartDir
           (TmatrixTheory.med_wavelen_of 1) (fresh_world_with _)).
Qed.

(** A run of [calc_holo] on [a_dda_sphere] up to adda's exit. *)
Lemma stub_calc_holo {fsys : FileSystem} (rc : Z) (outs : list (list string * list line)) :
  DDATheory.calc_holo grid_of probe a_dda a_dda_sphere 1 (adda_world (stub rc outs)) =
  if Z.eqb rc 0
  then read_holo grid_of probe a_dda a_dda_sphere 1 (TempDir 0)
         (adda_done (adda_world (stub rc outs)) (stub rc outs)
            (adda_args a_dda a_dda_sphere) two_points)
  else (Raise (CalledProcessError rc "adda"),
        adda_done (adda_world (stub rc outs)) (stub rc outs)
          (adda_args a_dda a_dda_sphere) two_points).
Proof.
  exact (calc_holo_run grid_of probe a_dda a_dda_sphere 1 (adda_world (stub rc outs))
           (stub rc outs) is_zero_dda_index (fresh_adda_world _) eq_refl).
Qed.

Lemma mishchenko_factor_at_1 :
  TmatrixTheory.mishchenko_factor (TmatrixTheory.med_wavelen_of 1) = mkC 0 (-1).
Proof.
  unfold TmatrixTheory.mishchenko_factor, TmatrixTheory.med_wavelen_of. cbn.
  unfold Cdiv, Cmul, Cneg. cbn. f_equal; field; apply PI_neq0.
Qed.

(** C1.  On the two-row output [rows2], whose first row has s11 = 1,
    s12 = 2, s21 = 3, s22 = 4, the first matrix [_raw_scat_matrs]
    returns has [-s21*k] in row 1, column 2 and [s12*k] in row 2,
    column 1, where [k = -2j*pi/med_wavelen]: the transpose of
    [[s11, s12], [-s21, -s22]], and the two entries differ. *)
Theorem tmatrix_scat_matr_is_transposed :
  let lam := TmatrixTheory.med_wavelen_of 1 in
  let k := TmatrixTheory.mishchenko_factor lam in
  let s12 := Cmul (cplx 2 0) k in
  let s21 := Cmul (cplx 3 0) k in
  exists m,
    fst (TmatrixTheory._raw_scat_matrs (Tmatrix true) a_sphere two_points 1 1.33
           (world_with solver2)) = Return m /\
    item3 m 0 0 1 = Some (Cneg s21) /\
    item3 m 0 1 0 = Some s12 /\
    Cneg s21 <> s12.
Proof.
  intros lam k s12 s21.
  exists (map (@tmatrix_point real_num lam) rows2).
  split; [exact (stub_run_value a_sphere rows2 eq_refl divisors_a_sphere (le_n 2) rows2_width)|].
  split; [reflexivity|]. split; [reflexivity|].
  intros H. apply (f_equal im) in H. subst s12 s21 k lam.
  rewrite mishchenko_factor_at_1 in H. cbn in H. lra.
Qed.

(** C2.  On the two-row table [adda_rows], whose first row has
    s0 = 1, s1 = 2, s2 = 3, s3 = 4, the first matrix [calc_holo]
    builds has s3 in row 1, column 2 and s2 in row 2, column 1: the
    transpose of [[s1, s2], [s3, s0]], and the two entries differ.
    Handed [probe] for the Fortran routine, [calc_holo] shows the
    entry in row 1, column 2 of each matrix it passes on: 4 and 8,
    not 3 and 7. *)
Theorem dda_scat_matr_is_transposed :
  (exists a m,
     parse_table 1 (ampl_scatgrid adda_rows) = Return a /\
     DDATheory.scat_matr_of a = Return m /\
     item3 m 0 0 0 = Some (cplx 2 0) /\
     item3 m 0 0 1 = Some (cplx 4 0) /\
     item3 m 0 1 0 = Some (cplx 3 0) /\
     item3 m 0 1 1 = Some (cplx 1 0) /\
     cplx 4 0 <> cplx 3 0) /\
  (exists h,
     fst (DDATheory.calc_holo grid_of probe a_dda a_dda_sphere 1 (adda_world adda_one))
       = Return h /\
     DDATheory.pixels h = [[re (cplx 4 0); re (cplx 8 0)]]).
Proof.
  split.
  - exists (@Arr2 real_num adda_rows), (map (@dda_point real_num) adda_rows).
    split; [reflexivity|]. split; [vm_compute; reflexivity|].
    repeat (split; [reflexivity|]).
    intros H. apply (f_equal re) in H. cbn in H. lra.
  - unfold adda_one. rewrite stub_calc_holo.
    eexists. split; vm_compute; reflexivity.
Qed.

(** C5.  An [Axisymmetric] with shape -3: [_raw_scat_matrs] raises
    nothing; it starts the solver on an input file of eight lines
    before the angles, the first of them the wavelength, and returns
    the matrices. *)
Theorem unknown_shape_reaches_solver :
  let rw := TmatrixTheory._raw_scat_matrs (Tmatrix true) (a_spheroid (-3)) two_points
              1 1.33 (world_with solver2) in
  (exists m, fst rw = Return m) /\
  In (Exec "./S.exe" [] (TempDir 0)
        [(["tmatrix_tmp.inp"],
          [Str (PFloat (2 * PI / 1));
           Str (PFloat (1.58 / 1.33));
           Str (PFloat (0.0001 / 1.33));
           Str (PFloat (0.5 / 1));
           Str (PFloat (0 * 180 / PI));
           Str (PFloat (0 * 180 / PI));
           Str (PInt (-3));
           Str (PInt 2);
           Row [0.1 * 180 / PI; 0.2 * 180 / PI];
           Row [0.3 * 180 / PI; 0.4 * 180 / PI]])])
     (log (snd rw)).
Proof.
  split.
  - eexists.
    exact (stub_run_value (a_spheroid (-3)) rows2 eq_refl (divisors_a_spheroid _)
             (le_n 2) rows2_width).
  - exact (unknown_shape_payload (Tmatrix true) 0.5 1 1.58 0.0001 0 0 (-3) two_points
             1 1.33 (world_with solver2) solver2 is_zero_1 is_zero_index is_zero_1
             (fresh_world_with _) eq_refl ltac:(discriminate) ltac:(discriminate)).
Qed.


(** C7 fails as stated: with [delete] set, a solver that exits with
    status 1 leaves the temporary directory behind; so does a
    [calc_holo] that succeeds. *)
Lemma tempdir_left_on_solver_failure :
  let rw := TmatrixTheory._raw_scat_matrs (Tmatrix true) a_sphere two_points 1 1.33
              (world_with failing_solver) in
  let rw' := DDATheory.calc_holo grid_of probe a_dda a_dda_sphere 1
               (adda_world adda_one) in
  delete (Tmatrix true) = true /\
  fst rw = Raise (CalledProcessError 1 "./S.exe") /\
  dir_exists (TempDir 0) (snd rw) = true /\
  (exists h, fst rw' = Return h) /\
  dir_exists (TempDir 0) (snd rw') = true.
Proof.
  intros rw rw'. subst rw rw'. unfold failing_solver, adda_one.
  rewrite stub_run, stub_calc_holo.
  repeat split; try (vm_compute; reflexivity).
  eexists. vm_compute. reflexivity.
Qed.



(** C10.  Without [S.exe], [_raw_scat_matrs] raises the error of
    [shutil.copy], not [DependencyMissing], and it does so after the
    temporary directory was made; the directory stays.  (Without adda,
    [DDA.__init__] raises [DependencyMissing] and makes none: see
    [dda_init_missing].) *)
Theorem missing_solver_after_tempdir :
  let rw := TmatrixTheory._raw_scat_matrs (Tmatrix true) a_sphere two_points 1 1.33
              bare_world in
  fst rw = Raise (OSError solver_path) /\
  made (snd rw) = S (made bare_world) /\
  In (Mkdtemp (TempDir 0)) (log (snd rw)) /\
  dir_exists (TempDir 0) (snd rw) = true.
Proof. repeat split; vm_compute; tauto. Qed.

End Concrete.

(** ** The theorems with hypotheses, applied *)

Section Witnesses.
Import RealNum Examples.
Open Scope R_scope.





Lemma two_runs_named :
  Forall (fun nt : string * list line => prefix "run000" (fst nt) = true)
    [("run0001", ampl_scatgrid adda_rows); ("run0002", ampl_scatgrid other_rows)].
Proof. repeat constructor. Defined.


End Witnesses.


(** * Further properties *)

(** ** The table of the T-matrix solver, by its number of columns *)

Section WidthFacts.
Context {num : PyNum} {fsys : FileSystem}.

Lemma list_ind2 {X : Type} (P : list X -> Prop) :
  P [] -> (forall x, P [x]) -> (forall x y l, P l -> P (x :: y :: l)) ->
  forall l, P l.
Proof.
  intros H0 H1 H2. fix IH 1.
  intros [|x [|y l]]; [exact H0|exact (H1 x)|exact (H2 x y l (IH l))].
Qed.

Lemma step2_tail {X : Type} (x y : X) (l : list X) :
  step2 (skipn 1 (x :: y :: l)) = y :: step2 (skipn 1 l).
Proof. destruct l; reflexivity. Qed.

Lemma step2_nth_error {X : Type} (l : list X) (i : nat) :
  nth_error (step2 l) i = nth_error l (2 * i).
Proof.
  revert l. induction i as [|i IH]; intros [|x [|y l]]; try reflexivity.
  - cbn. now destruct i.
  - replace (2 * S i)%nat with (S (S (2 * i))) by lia.
    cbn [step2 nth_error]. apply IH.
Qed.

Lemma slice2_lengths {X : Type} (l : list X) :
  (List.length (slice2 0 l) + List.length (slice2 1 l) = List.length l)%nat /\
  (if Nat.even (List.length l)
   then List.length (slice2 0 l) = List.length (slice2 1 l)
   else List.length (slice2 0 l) = S (List.length (slice2 1 l))).
Proof.
  unfold slice2.
  induction l as [| x | x y l [IH1 IH2]] using list_ind2.
  - split; reflexivity.
  - split; reflexivity.
  - rewrite step2_tail. cbn [skipn step2 List.length Nat.even] in *. split; [lia|].
    destruct (Nat.even (List.length l)); lia.
Qed.


Lemma combine_complex_each (rows : list (list float)) (F : list float -> list complex) :
  (forall r, In r rows -> combine_row (slice2 0 r) (slice2 1 r) = Return (F r)) ->
  combine_complex (map (slice2 0) rows) (map (slice2 1) rows) = Return (map F rows).
Proof.
  unfold combine_complex. induction rows as [|r rows IH]; intros H; [reflexivity|].
  cbn [map zip_with all_ok]. rewrite (H r (or_introl eq_refl)).
  rewrite IH; [reflexivity|]. intros r' Hr'. apply H. now right.
Qed.

Lemma zip_with_nth_error {X Y Z : Type} (f : X -> Y -> Z) (a : list X) (b : list Y)
    (i : nat) (x : X) (y : Y) :
  nth_error a i = Some x -> nth_error b i = Some y ->
  nth_error (zip_with f a b) i = Some (f x y).
Proof.
  revert b i. induction a as [|x' a IH]; intros [|y' b] [|i]; cbn; try discriminate.
  - now intros [= ->] [= ->].
  - apply IH.
Qed.

(** Entry [i] of one row of [re + 1.0j*im]: columns [2i] and [2i+1]. *)
Lemma row_pair (r : list float) (i : nat) :
  (2 * i + 1 < List.length r)%nat ->
  nth_error (zip_with (fun x y => cplx x y) (slice2 0 r) (slice2 1 r)) i
  = Some (cplx (col r (2 * i)) (col r (2 * i + 1))).
Proof.
  intros Hi. apply zip_with_nth_error; unfold slice2, col.
  - rewrite step2_nth_error. cbn [skipn]. apply nth_error_nth'. lia.
  - rewrite step2_nth_error, nth_error_skipn.
    replace (1 + 2 * i)%nat with (2 * i + 1)%nat by lia.
    apply nth_error_nth'. lia.
Qed.

Lemma combine_row_even (r : list float) :
  Nat.even (List.length r) = true ->
  combine_row (slice2 0 r) (slice2 1 r)
  = Return (zip_with (fun x y => cplx x y) (slice2 0 r) (slice2 1 r)).
Proof.
  intros He. destruct (slice2_lengths r) as [_ H]. rewrite He in H.
  unfold combine_row. rewrite H, Nat.eqb_refl. reflexivity.
Qed.

Lemma combine_row_odd (r : list float) :
  Nat.even (List.length r) = false -> (5 <= List.length r)%nat ->
  combine_row (slice2 0 r) (slice2 1 r) = Raise ValueError.
Proof.
  intros He Hw. destruct (slice2_lengths r) as [Hsum H]. rewrite He in H.
  unfold combine_row.
  destruct (Nat.eqb_spec (List.length (slice2 0 r)) (List.length (slice2 1 r)));
    [lia|].
  destruct (slice2 1 r) as [|y [|y' im]], (slice2 0 r) as [|x [|x' re]];
    cbn in *; try lia; reflexivity.
Qed.

(** From rows of an even number of columns, eight or more,
    [scat_matr_of] makes one matrix per row out of the first eight
    columns. *)
Lemma tmatrix_scat_matr_wide (rows : list (list float)) (width : nat)
    (med_wavelen : float) :
  is_zero med_wavelen = false ->
  Nat.even width = true -> (8 <= width)%nat ->
  Forall (fun r => List.length r = width) rows ->
  TmatrixTheory.scat_matr_of (Arr2 rows) med_wavelen
  = Return (map (tmatrix_point med_wavelen) rows).
Proof.
  intros Hz He Hw Hall. rewrite Forall_forall in Hall.
  unfold TmatrixTheory.scat_matr_of, cols_from.
  rewrite (combine_complex_each rows
             (fun r => zip_with (fun x y => cplx x y) (slice2 0 r) (slice2 1 r))).
  2:{ intros r Hr. apply combine_row_even. now rewrite (Hall r Hr). }
  unfold ctruediv. rewrite Hz.
  fold (TmatrixTheory.mishchenko_factor med_wavelen).
  unfold scale. rewrite map_map.
  set (k := TmatrixTheory.mishchenko_factor med_wavelen).
  set (f := fun r => map (fun z => cmul z k) _).
  assert (Hcol : forall i, (i < 4)%nat ->
            column i (map f rows)
            = Return (map (fun r => cmul (cplx (col r (2 * i)) (col r (2 * i + 1))) k)
                          rows)).
  { intros i Hi. apply column_map. intros r Hr. subst f. cbn beta.
    rewrite nth_error_map, row_pair; [reflexivity|]. rewrite (Hall r Hr). lia. }
  rewrite !Hcol by lia. rewrite !map_map, length_map.
  rewrite transpose3_columns. reflexivity.
Qed.

Lemma column_short (k : nat) (s : list (list complex)) (n : nat) :
  s <> [] -> Forall (fun r => List.length r = n) s -> (n <= k)%nat ->
  column k s = Raise IndexError.
Proof.
  intros Hs Hall Hk. destruct s as [|r s]; [contradiction|].
  inversion Hall as [|? ? Hr _]; subst. unfold column, item. cbn [map all_ok].
  replace (nth_error r k) with (@None complex); [reflexivity|].
  symmetry. apply nth_error_None. lia.
Qed.

Lemma column_long (k : nat) (s : list (list complex)) (n : nat) :
  Forall (fun r => List.length r = n) s -> (k < n)%nat ->
  exists v, column k s = Return v.
Proof.
  intros Hall Hk. exists (map (fun r => nth k r (of_float (of_int 0))) s).
  rewrite <- (map_id s) at 1. apply column_map. intros r Hr.
  rewrite Forall_forall in Hall. apply nth_error_nth'. rewrite (Hall r Hr). lia.
Qed.

(** The complex table was made and the factor is to be computed. *)
Lemma tmatrix_scat_matr_zero (rows : list (list float)) (med_wavelen : float)
    (F : list float -> list complex) :
  (forall r, In r rows -> combine_row (slice2 0 r) (slice2 1 r) = Return (F r)) ->
  is_zero med_wavelen = true ->
  TmatrixTheory.scat_matr_of (Arr2 rows) med_wavelen = Raise ZeroDivisionError.
Proof.
  intros Hrow Hz. unfold TmatrixTheory.scat_matr_of, cols_from.
  rewrite (combine_complex_each rows F Hrow).
  unfold ctruediv. rewrite Hz. reflexivity.
Qed.

(** Fewer than four complex columns: one of [s[:,0]] to [s[:,3]] raises. *)
Lemma tmatrix_scat_matr_narrow (rows : list (list float)) (n : nat)
    (med_wavelen : float) :
  is_zero med_wavelen = false ->
  rows <> [] ->
  (forall r, In r rows ->
     exists s, combine_row (slice2 0 r) (slice2 1 r) = Return s /\ List.length s = n) ->
  (n < 4)%nat ->
  TmatrixTheory.scat_matr_of (Arr2 rows) med_wavelen = Raise IndexError.
Proof.
  intros Hz Hne Hrow Hn.
  set (F := fun r => match combine_row (slice2 0 r) (slice2 1 r) with
                     | Return s => s
                     | Raise _ => []
                     end).
  unfold TmatrixTheory.scat_matr_of, cols_from.
  rewrite (combine_complex_each rows F).
  2:{ intros r Hr. subst F. cbn beta. destruct (Hrow r Hr) as [s [-> _]]. reflexivity. }
  unfold ctruediv. rewrite Hz.
  fold (TmatrixTheory.mishchenko_factor med_wavelen).
  set (s := scale (map F rows) (TmatrixTheory.mishchenko_factor med_wavelen)).
  assert (Hs : s <> []) by (subst s; destruct rows; [contradiction|discriminate]).
  assert (Hall : Forall (fun r => List.length r = n) s).
  { subst s. unfold scale. rewrite map_map. apply Forall_map, Forall_forall.
    intros r Hr. rewrite length_map. subst F. cbn beta.
    destruct (Hrow r Hr) as [s' [-> Hlen]]. exact Hlen. }
  assert (Hshort : forall k, (n <= k)%nat -> column k s = Raise IndexError)
    by (intros k Hk; now apply (column_short k s n)).
  assert (Hlong : forall k, (k < n)%nat -> exists v, column k s = Return v)
    by (intros k Hk; now apply (column_long k s n)).
  destruct n as [|[|[|[|n]]]]; [| | | |lia].
  - rewrite (Hshort 0%nat) by lia. reflexivity.
  - destruct (Hlong 0%nat) as [v0 ->]; [lia|].
    rewrite (Hshort 1%nat) by lia. reflexivity.
  - destruct (Hlong 0%nat) as [v0 ->]; [lia|].
    destruct (Hlong 1%nat) as [v1 ->]; [lia|].
    rewrite (Hshort 2%nat) by lia. reflexivity.
  - destruct (Hlong 0%nat) as [v0 ->]; [lia|].
    destruct (Hlong 1%nat) as [v1 ->]; [lia|].
    destruct (Hlong 2%nat) as [v2 ->]; [lia|].
    rewrite (Hshort 3%nat) by lia. reflexivity.
Qed.

(** The number of complex columns a row of fewer than eight numbers
    gives, where the sum of the two slices is defined at all. *)
Lemma combine_row_narrow (r : list float) :
  (List.length r < 5)%nat \/ List.length r = 6%nat ->
  exists s, combine_row (slice2 0 r) (slice2 1 r) = Return s /\
            List.length s = (match List.length r with
                             | 0 | 1 => 0
                             | 2 => 1
                             | 6 => 3
                             | _ => 2
                             end)%nat.
Proof.
  intros H.
  destruct r as [|a [|b [|c [|d [|e [|f [|g r]]]]]]]; cbn in H; try lia;
    eexists; split; reflexivity.
Qed.


(** The complex table of rows of fewer than eight numbers, where the
    sum of the two slices is defined. *)
Lemma narrow_rows (rows : list (list float)) (width : nat) :
  Forall (fun r => List.length r = width) rows ->
  (width < 5)%nat \/ width = 6%nat ->
  let n := (match width with 0 | 1 => 0 | 2 => 1 | 6 => 3 | _ => 2 end)%nat in
  (n < 4)%nat /\
  forall r, In r rows ->
    exists s, combine_row (slice2 0 r) (slice2 1 r) = Return s /\ List.length s = n.
Proof.
  intros Hall Hw n. split.
  - subst n. destruct width as [|[|[|[|[|[|[|[|k]]]]]]]]; lia.
  - intros r Hr. rewrite Forall_forall in Hall. subst n. rewrite <- (Hall r Hr).
    apply combine_row_narrow. now rewrite (Hall r Hr).
Qed.

Lemma tmatrix_scat_matr_other (rows : list (list float)) (width : nat)
    (med_wavelen : float) :
  rows <> [] ->
  Forall (fun r => List.length r = width) rows ->
  (width < 5)%nat \/ width = 6%nat ->
  TmatrixTheory.scat_matr_of (Arr2 rows) med_wavelen =
  if is_zero med_wavelen then Raise ZeroDivisionError else Raise IndexError.
Proof.
  intros Hne Hall Hw. destruct (narrow_rows rows width Hall Hw) as [Hn Hrow].
  destruct (is_zero med_wavelen) eqn:Hz.
  - apply (tmatrix_scat_matr_zero rows med_wavelen
             (fun r => match combine_row (slice2 0 r) (slice2 1 r) with
                       | Return s => s
                       | Raise _ => []
                       end)); [|exact Hz].
    intros r Hr. destruct (Hrow r Hr) as [s [-> _]]. reflexivity.
  - exact (tmatrix_scat_matr_narrow rows _ med_wavelen Hz Hne Hrow Hn).
Qed.

(** X1.  What [scat_matr_of] makes of a loaded table is decided by
    its number of columns and by [med_wavelen].  From an odd number
    of columns, five or more, the sum of the real and the imaginary
    columns raises [ValueError].  From any other number of columns
    the sum is made, and a [med_wavelen] of zero then raises
    [ZeroDivisionError] in the factor [-2j*pi/med_wavelen].  Where
    it is not zero, an even number of columns, eight or more, gives
    one matrix per row out of the first eight columns, the others
    ignored, and any other number of columns has one of [s[:,0]] to
    [s[:,3]] raise [IndexError]. *)
Theorem tmatrix_table_by_width (rows : list (list float)) (width : nat)
    (med_wavelen : float) :
  rows <> [] ->
  Forall (fun r => List.length r = width) rows ->
  TmatrixTheory.scat_matr_of (Arr2 rows) med_wavelen =
  if Nat.even width && (8 <=? width)%nat
  then if is_zero med_wavelen
       then Raise ZeroDivisionError
       else Return (map (tmatrix_point med_wavelen) rows)
  else if Nat.odd width && (5 <=? width)%nat
       then Raise ValueError
       else if is_zero med_wavelen
            then Raise ZeroDivisionError
            else Raise IndexError.
Proof.
  intros Hne Hall. unfold Nat.odd.
  destruct (Nat.even width) eqn:He; cbn [negb andb].
  - destruct (Nat.leb_spec 8 width) as [H8|H8].
    + destruct (is_zero med_wavelen) eqn:Hz.
      * apply (tmatrix_scat_matr_zero rows med_wavelen
                 (fun r => zip_with (fun x y => cplx x y) (slice2 0 r) (slice2 1 r)));
          [|exact Hz].
        intros r Hr. rewrite Forall_forall in Hall. apply combine_row_even.
        now rewrite (Hall r Hr).
      * now apply (tmatrix_scat_matr_wide rows width).
    + apply (tmatrix_scat_matr_other rows width med_wavelen Hne Hall).
      destruct width as [|[|[|[|[|[|[|[|n]]]]]]]]; cbn in He; try discriminate; lia.
  - destruct (Nat.leb_spec 5 width) as [H5|H5].
    + destruct rows as [|r rows]; [contradiction|].
      inversion Hall as [|? ? Hr _]; subst.
      unfold TmatrixTheory.scat_matr_of, cols_from, combine_complex.
      cbn [map zip_with all_ok]. rewrite combine_row_odd by assumption. reflexivity.
    + apply (tmatrix_scat_matr_other rows width med_wavelen Hne Hall). lia.
Qed.

End WidthFacts.


(** ** Staying inside the temporary directory *)

Section Frames.
Context {num : PyNum} {fsys : FileSystem}.

Lemma path_outside (d : root) (x : list string) (q : path) :
  fst q <> d -> (d, x) <> q.
Proof. intros H E. apply H. now subst q. Qed.

Lemma lookup_filter_outside (d : root) (q : path) (fs : list (path * content)) :
  fst q <> d ->
  lookup q (filter (fun e => negb (root_eqb (fst (fst e)) d)) fs) = lookup q fs.
Proof.
  intros H. unfold lookup. rewrite find_filter_keep; [reflexivity|].
  intros e He. apply path_eqb_eq in He. subst q. cbn beta.
  destruct (root_eqb _ d) eqn:E; [|reflexivity].
  apply root_eqb_eq in E. contradiction.
Qed.

Lemma lookup_store_all_outside (d : root) (outs : list (list string * list line))
    (q : path) (fs : list (path * content)) :
  fst q <> d -> lookup q (store_all d outs fs) = lookup q fs.
Proof.
  intros H. unfold store_all. revert fs.
  induction outs as [|o outs IH]; intros fs; [reflexivity|].
  cbn [fold_left]. rewrite IH. apply lookup_store_other. now apply path_outside.
Qed.

Ltac inside_prim :=
  intros w; cbn;
  repeat match goal with
         | |- context [match ?x with _ => _ end] => destruct x
         end;
  cbn; repeat split; auto.

Lemma inside_ret (d : root) {A : Type} (a : A) : inside d (ret a).
Proof. inside_prim. Qed.

Lemma inside_raise (d : root) {A : Type} (e : exn) : inside d (@raise _ A e).
Proof. inside_prim. Qed.

Lemma inside_lift (d : root) {A : Type} (r : outcome exn A) : inside d (lift r).
Proof. inside_prim. Qed.

Lemma inside_getcwd (d : root) : inside d getcwd.
Proof. inside_prim. Qed.

Lemma inside_glob (d d' : root) (pat : pattern) : inside d (glob d' pat).
Proof. inside_prim. Qed.

Lemma inside_print (d d' : root) : inside d (print d').
Proof. inside_prim. Qed.

Lemma inside_loadtxt (d : root) (p : path) (skiprows : nat) : inside d (loadtxt p skiprows).
Proof.
  intros w. unfold loadtxt. destruct (lookup p (files w)) as [[ls|q]|]; cbn; auto.
Qed.

Lemma inside_copy (d : root) (src : path) : inside d (copy src d).
Proof.
  intros w. unfold copy. destruct (lookup src (files w)); cbn; repeat split; auto.
  intros q Hq. apply lookup_store_other. now apply path_outside.
Qed.

Lemma inside_open (d : root) (x : list string) : inside d (open (d, x)).
Proof.
  intros w. cbn. repeat split; auto.
  intros q Hq. apply lookup_store_other. now apply path_outside.
Qed.

Lemma inside_close (d : root) (f : file) : fst (fh_path f) = d -> inside d (close f).
Proof.
  intros Hf w. cbn. repeat split; auto.
  intros q Hq. apply lookup_store_other. intros E. apply Hq. now rewrite <- E.
Qed.

Lemma inside_run_process (d : root) (cmd : string) (args : list arg) :
  inside d (run_process cmd args d).
Proof.
  intros w. unfold run_process. destruct (resolve cmd d w); cbn; repeat split; auto.
  intros q Hq. now apply lookup_store_all_outside.
Qed.

Lemma inside_bind (d : root) {A B : Type} (c : M A) (k : A -> M B) :
  inside d c -> (forall a, inside d (k a)) -> inside d (bind c k).
Proof.
  intros Hc Hk w. unfold bind. destruct (Hc w) as [H1 [H2 H3]].
  destruct (c w) as [[a|e] w']; cbn in *; [|auto].
  destruct (Hk a w') as [K1 [K2 K3]]. repeat split.
  - congruence.
  - auto.
  - intros q Hq. rewrite K3, H3; auto.
Qed.

Lemma inside_check_call (d : root) (cmd : string) (args : list arg) :
  inside d (check_call cmd args d).
Proof.
  unfold check_call. apply inside_bind; [apply inside_run_process|].
  intros c. destruct (Z.eqb _ _); [apply inside_ret|apply inside_raise].
Qed.

(** Opening a file in [d], then a continuation that stays inside [d]. *)
Lemma inside_open_bind (d : root) (x : list string) {B : Type} (k : file -> M B) :
  inside d (k (File (d, x) [])) -> inside d (bind (open (d, x)) k).
Proof.
  intros Hk w. destruct (Hk (snd (open (d, x) w))) as [K1 [K2 K3]].
  destruct (inside_open d x w) as [H1 [H2 H3]].
  unfold bind. cbn in *. repeat split; auto.
  intros q Hq. rewrite K3, H3; auto.
Qed.

End Frames.

Create HintDb inside.
#[export] Hint Resolve inside_ret inside_raise inside_lift inside_getcwd inside_glob
  inside_print inside_loadtxt inside_copy inside_open inside_close
  inside_run_process inside_check_call : inside.

Ltac inside_auto :=
  repeat first
    [ solve [auto with inside]
    | apply inside_bind; [|intros ?]
    | match goal with
      | |- inside _ (if ?b then _ else _) => destruct b
      end ].

Section TmatrixFrame.
Context {num : PyNum} {fsys : FileSystem}.


Lemma triple_inside (d : root) (base : list (path * content)) {A : Type} (c : M A)
    (E : exn -> world -> Prop) :
  (forall e w, in_tempdir d base w -> E e w) ->
  inside d c -> triple (in_tempdir d base) c (fun _ => in_tempdir d base) E.
Proof.
  intros HE Hc w [Hcwd [Hdir Hout]]. destruct (Hc w) as [H1 [H2 H3]].
  assert (HJ : in_tempdir d base (snd (c w))).
  { split; [congruence|]. split.
    - unfold tempdir_kept in *. destruct d as [n| |]; cbn in *; auto.
      rewrite existsb_exists in *. destruct Hdir as [m [Hin Hm]]. exists m. auto.
    - intros q Hq. rewrite H3 by assumption. now apply Hout. }
  destruct (c w) as [[a|e] w']; cbn in *; auto.
Qed.


Lemma triple_lift_bind {A B : Type} (P : world -> Prop) (r : outcome exn A)
    (k : A -> M B) (Q : B -> world -> Prop) (E : exn -> world -> Prop) :
  (forall e w, P w -> E e w) ->
  (forall a, triple P (k a) Q E) -> triple P (bind (lift r) k) Q E.
Proof.
  intros HE Hk w Hw. unfold bind, lift.
  destruct r as [a|e]; [exact (Hk a w Hw)|exact (HE e w Hw)].
Qed.

(** The way back: [chdir(current_directory)], the removal, the return. *)
Lemma triple_way_back (self : Tmatrix_t) (d cur : root) (base : list (path * content))
    {A : Type} (a : A) :
  triple (in_tempdir d base)
    (chdir cur ;;; (if delete self then rmtree d else ret tt) ;;; ret a)
    (fun _ w' => cwd w' = cur /\ outside_as d base w')
    (fun _ w' => cwd w' = d /\ outside_as d base w').
Proof.
  intros w [Hcwd [Hdir Hout]]. unfold bind, chdir.
  destruct (dir_exists cur w) eqn:Hcur; [|now split].
  destruct (delete self); [|now split].
  unfold rmtree.
  replace (dir_exists d _) with true.
  cbn. split; [reflexivity|].
  intros q Hq. cbn. rewrite lookup_filter_outside by assumption. now apply Hout.
Qed.

Ltac inside_step :=
  eapply triple_bind;
    [apply triple_inside; [intros ? ? [? [? ?]]; now split|solve [inside_auto]]
    |intros ?; cbn beta].

(** From the closing of the input file on. *)
Lemma triple_tail (self : Tmatrix_t) (d cur : root) (base : list (path * content))
    (outf : file) (angles : list (list float)) (med_wavelen : float) :
  fst (fh_path outf) = d ->
  triple (in_tempdir d base)
    (close (savetxt outf angles) ;;;
     TmatrixTheory._run_tmat self d ;;;
     found <- glob d (Exact "tmatrix_tmp.out") ;;
     result_file <- lift (item0 found) ;;
     tmat_result <- loadtxt result_file 0 ;;
     scat_matr <- lift (TmatrixTheory.scat_matr_of tmat_result med_wavelen) ;;
     chdir cur ;;;
     (if delete self then rmtree d else ret tt) ;;;
     ret scat_matr)
    (fun _ w' => cwd w' = cur /\ outside_as d base w')
    (fun _ w' => cwd w' = d /\ outside_as d base w').
Proof.
  intros Hf. unfold TmatrixTheory._run_tmat.
  eapply triple_bind.
  { apply triple_inside; [intros ? ? [? [? ?]]; now split|].
    apply inside_close. exact Hf. }
  intros ?. cbn beta.
  do 5 inside_step.
  apply triple_way_back.
Qed.

End TmatrixFrame.

Section TmatrixFrameRun.
Context {num : PyNum} {fsys : FileSystem}.

Lemma triple_reject (self : Tmatrix_t) (scat : scatterer) (d : root)
    (base : list (path * content)) (outf : file) :
  fst (fh_path outf) = d ->
  triple (in_tempdir d base)
    (close outf ;;; rmtree d ;;; @raise _ file (TheoryNotCompatibleError self scat))
    (fun _ _ => False)
    (fun _ w' => cwd w' = d /\ outside_as d base w').
Proof.
  intros Hf. eapply triple_bind.
  { apply triple_inside; [intros ? ? [? [? ?]]; now split|].
    apply inside_close. exact Hf. }
  intros ?. cbn beta. intros w [Hcwd [Hdir Hout]]. unfold bind, rmtree.
  replace (dir_exists d w) with true.
  cbn. split; [exact Hcwd|].
  intros q Hq. cbn. rewrite lookup_filter_outside by assumption. now apply Hout.
Qed.

(** The working directory and the files outside the temporary
    directory, by the way [_raw_scat_matrs] ends. *)
Lemma tmatrix_run_frame (self : Tmatrix_t) (scat : scatterer) (pos : list point)
    (k mi : float) (w : world) :
  match TmatrixTheory._raw_scat_matrs self scat pos k mi w with
  | (Return _, w') =>
      cwd w' = cwd w /\ outside_as (TempDir (made w)) (files w) w'
  | (Raise _, w') =>
      cwd w' = match lookup solver_path (files w) with
               | Some _ => TempDir (made w)
               | None => cwd w
               end /\
      outside_as (TempDir (made w)) (files w) w'
  end.
Proof.
  set (d := TempDir (made w)).
  unfold TmatrixTheory._raw_scat_matrs.
  erewrite bind_run by reflexivity. cbn beta.
  erewrite bind_run by reflexivity. cbn beta.
  fold solver_path.
  destruct (lookup solver_path (files w)) as [c|] eqn:Hs.
  2:{ erewrite bind_raise by (apply copy_missing; exact Hs).
      split; [reflexivity|]. intros q Hq. reflexivity. }
  erewrite bind_run by (apply copy_ok; exact Hs). cbn beta.
  erewrite bind_run by (apply chdir_ok; apply dir_exists_made). cbn beta.
  erewrite bind_run by reflexivity. cbn beta.
  match goal with
  | |- match ?c ?W with _ => _ end =>
      enough (H : triple (in_tempdir d (files w)) c
                    (fun _ w' => cwd w' = cwd w /\ outside_as d (files w) w')
                    (fun _ w' => cwd w' = d /\ outside_as d (files w) w'));
      [ assert (HW : in_tempdir d (files w) W);
        [ | specialize (H W HW); destruct (c W) as [[m|e] w']; exact H ] | ]
  end.
  - split; [reflexivity|]. split; [apply dir_exists_made|].
    intros q Hq. cbn [files].
    rewrite !lookup_store_other by (now apply path_outside). reflexivity.
  - apply triple_lift_bind; [intros ? ? [? [? ?]]; now split|]. intros med_wavelen.
    eapply (triple_bind _ _ _
              (fun outf w' => in_tempdir d (files w) w' /\ fst (fh_path outf) = d)).
    2:{ intros outf w' [HP Hf]. exact (triple_tail self d (cwd w) (files w) outf
                                          _ med_wavelen Hf w' HP). }
    destruct scat as [r nr ni|r0 r1 nr ni rot0 rot1 shape|name].
    + do 2 (apply triple_lift_bind; [intros ? ? [? [? ?]]; now split|]; intros ?).
      intros w' HP. split; [exact HP|reflexivity].
    + do 3 (apply triple_lift_bind; [intros ? ? [? [? ?]]; now split|]; intros ?).
      intros w' HP. split; [exact HP|].
      cbn. destruct (Z.eqb shape (-1)), (Z.eqb shape (-2)); reflexivity.
    + eapply triple_weaken; [apply triple_reject; reflexivity|intros ? ? []|auto].
Qed.

End TmatrixFrameRun.

(** ** Runs of the T-matrix theory *)

Section TmatrixRuns.
Context {num : PyNum} {fsys : FileSystem}.

Lemma monotone_True : monotone (fun _ => True).
Proof. intros w w' _ _. exact I. Qed.

Lemma keeps_True_rmtree (d : root) : keeps (fun _ => True) (rmtree d).
Proof. intros w _. unfold rmtree. destruct (dir_exists d w); cbn; auto. Qed.

(** For a scatterer it handles, [_raw_scat_matrs] raises nothing but
    the exceptions of the library calls. *)
Lemma handled_raises_builtin (self : Tmatrix_t) (scat : scatterer) (pos : list point)
    (k mi : float) (w : world) :
  TmatrixTheory._can_handle self scat = true ->
  raises_builtin (fst (TmatrixTheory._raw_scat_matrs self scat pos k mi w)).
Proof.
  intros Hcan.
  assert (H : keeps (fun _ => True) (TmatrixTheory._raw_scat_matrs self scat pos k mi)).
  { pose proof monotone_True. pose proof keeps_True_rmtree.
    unfold TmatrixTheory._raw_scat_matrs, TmatrixTheory._run_tmat.
    destruct scat; [| |discriminate Hcan]; keeps_auto. }
  specialize (H w I).
  destruct (TmatrixTheory._raw_scat_matrs self scat pos k mi w) as [[m|e] w'];
    [exact I|exact (proj1 H)].
Qed.

(** For any other scatterer, with the solver in place and a
    [medium_wavevec] that is not zero, it raises
    [TheoryNotCompatibleError]. *)
Lemma rejected_raises (self : Tmatrix_t) (name : string) (pos : list point)
    (k mi : float) (w : world) (c : content) :
  is_zero k = false ->
  lookup solver_path (files w) = Some c ->
  fst (TmatrixTheory._raw_scat_matrs self (OtherScatterer name) pos k mi w)
  = Raise (TheoryNotCompatibleError self (OtherScatterer name)).
Proof.
  intros Hk Hsolver. unfold TmatrixTheory._raw_scat_matrs, truediv. rewrite Hk. cbn.
  erewrite bind_run by (apply copy_ok; exact Hsolver). cbn.
  erewrite bind_run by (apply chdir_ok; apply dir_exists_made). cbn.
  erewrite bind_raise; [reflexivity|].
  unfold bind, rmtree. cbn. rewrite Nat.eqb_refl. cbn. reflexivity.
Qed.

(** [read_result] when the solver left the one file [tmatrix_tmp.out]. *)
Lemma read_result_table (self : Tmatrix_t) (w : world) (p : program)
    (payload : list line) (cur : root) (med_wavelen : float) (table : list line) :
  fresh (TempDir (made w)) (files w) ->
  outputs (p [] [(["tmatrix_tmp.inp"], payload)]) = [(["tmatrix_tmp.out"], table)] ->
  read_result self (TempDir (made w)) cur med_wavelen (solved w p payload) =
  (scat_matr <- lift (a <-- parse_table 0 table ;;
                      TmatrixTheory.scat_matr_of a med_wavelen) ;;
   chdir cur ;;;
   (if delete self then rmtree (TempDir (made w)) else ret tt) ;;;
   ret scat_matr) (solved w p payload).
Proof.
  intros Hfresh Hout.
  set (d := TempDir (made w)).
  assert (Hfiles : files (solved w p payload) =
            (files w ++ [((d, ["S.exe"]), Exe p);
                         ((d, ["tmatrix_tmp.inp"]), Data payload);
                         ((d, ["tmatrix_tmp.out"]), Data table)])%list).
  { unfold solved. cbn [files]. rewrite Hout. f_equal.
    unfold store_all, store, path_eqb.
    repeat (progress (cbn; rewrite ?Nat.eqb_refl)). reflexivity. }
  unfold read_result.
  erewrite bind_run.
  2:{ unfold glob. rewrite Hfiles, (listdir_fresh _ _ _ Hfresh).
      rewrite (filter_dir_order_single _ _ "tmatrix_tmp.out"); [reflexivity|].
      unfold listdir. repeat (progress (cbn; rewrite ?Nat.eqb_refl)). reflexivity. }
  erewrite bind_run by reflexivity. cbn beta.
  unfold bind at 1, loadtxt. rewrite Hfiles, (lookup_fresh _ _ _ _ Hfresh).
  unfold lookup, path_eqb. repeat (progress (cbn; rewrite ?Nat.eqb_refl)).
  unfold bind at 2, lift.
  destruct (parse_table 0 table) as [a|e]; reflexivity.
Qed.

(** One result file with at least two rows of an even number of
    columns, eight or more: the matrices, the way back and the
    removal. *)
Lemma read_result_wide (self : Tmatrix_t) (w : world) (p : program)
    (payload : list line) (med_wavelen : float) (rows : list (list float))
    (width : nat) :
  is_zero med_wavelen = false ->
  fresh (TempDir (made w)) (files w) ->
  dir_exists (cwd w) w = true ->
  outputs (p [] [(["tmatrix_tmp.inp"], payload)])
    = [(["tmatrix_tmp.out"], map Row rows)] ->
  (2 <= List.length rows)%nat ->
  Nat.even width = true -> (8 <= width)%nat ->
  Forall (fun r => List.length r = width) rows ->
  exists w',
    read_result self (TempDir (made w)) (cwd w) med_wavelen (solved w p payload)
    = (Return (map (tmatrix_point med_wavelen) rows), w') /\
    log w' = (log (solved w p payload) ++ [Chdir (cwd w)]
              ++ (if delete self then [Rmtree (TempDir (made w))] else []))%list.
Proof.
  intros Hz Hfresh Hcwd Hout Hn He Hw Hall.
  rewrite (read_result_table _ _ _ _ _ _ (map Row rows) Hfresh Hout).
  rewrite (parse_table_rows width rows) by (assumption || lia).
  rewrite (tmatrix_scat_matr_wide rows width _ Hz He Hw Hall).
  erewrite bind_run by reflexivity.
  erewrite bind_run.
  2:{ apply chdir_ok. destruct (cwd w); cbn in *; auto.
      rewrite Hcwd. apply orb_true_r. }
  cbn beta. destruct (delete self).
  - erewrite bind_run.
    2:{ apply rmtree_ok. cbn. now rewrite Nat.eqb_refl. }
    eexists. split; [reflexivity|]. cbn. now rewrite <- !app_assoc.
  - eexists. split; [reflexivity|]. cbn. now rewrite <- !app_assoc.
Qed.

End TmatrixRuns.

Section TmatrixTheorems.
Context {num : PyNum} {fsys : FileSystem}.








(** X9.  On every exit of [_raw_scat_matrs], every file outside its
    temporary directory is as it was before the call (the solver, as
    every subprocess here, writes below its working directory). *)
Theorem tmatrix_writes_only_tempdir (self : Tmatrix_t) (scat : scatterer)
    (pos : list point) (medium_wavevec medium_index : float) (w : world) :
  outside_as (TempDir (made w)) (files w)
    (snd (TmatrixTheory._raw_scat_matrs self scat pos medium_wavevec medium_index w)).
Proof.
  pose proof (tmatrix_run_frame self scat pos medium_wavevec medium_index w) as H.
  destruct (TmatrixTheory._raw_scat_matrs self scat pos medium_wavevec medium_index w)
    as [[m|e] w']; exact (proj2 H).
Qed.

End TmatrixTheorems.



Section DDATheorems.
Context {num : PyNum} {fsys : FileSystem}.
Variable spherical_grid : DDATheory.DDA_t -> float * float * float -> list point.
Variable paraxholocl :
  float -> float -> float -> float -> list (list complex) -> float * float -> float -> float.

Lemma keeps_logged_read_holo (ev : event) (self : DDATheory.DDA_t)
    (scat : DDATheory.sphere) (alpha : float) (d : root) :
  keeps (logged ev) (read_holo spherical_grid paraxholocl self scat alpha d).
Proof.
  unfold read_holo.
  pose proof (fill_pixels_builtin paraxholocl). pose proof @reshape_builtin.
  keeps_auto.
Qed.

(** X10.  Where the medium index is not zero and adda is on the
    path, [calc_holo] starts adda in the temporary directory with
    the arguments [-scat_matr ampl -store_scat_grid -lambda], the
    medium wavelength, [-eq_rad], the radius, [-m], the real and the
    imaginary part of the index each divided by the medium index; the
    directory then holds [scat_params.dat] alone, with the lines
    [global_type=pairs], [N=] and the number of grid points,
    [pairs=], and one row [(theta, phi)] in degrees per grid point. *)
Theorem adda_started_on_angles (self : DDATheory.DDA_t) (scat : DDATheory.sphere)
    (alpha : float) (w : world) (p : program) :
  let grid := spherical_grid self (DDATheory.center scat) in
  is_zero (DDATheory.index (DDATheory.optics self)) = false ->
  fresh (TempDir (made w)) (files w) ->
  find (fun e => String.eqb (fst e) "adda") (on_path w) = Some ("adda", p) ->
  logged
    (Exec "adda"
       [Lit "-scat_matr"; Lit "ampl"; Lit "-store_scat_grid";
        Lit "-lambda"; StrOf (PFloat (DDATheory.med_wavelen (DDATheory.optics self)));
        Lit "-eq_rad"; StrOf (PFloat (DDATheory.r scat));
        Lit "-m";
        StrOf (PFloat (DDATheory.n_real scat [/] DDATheory.index (DDATheory.optics self)));
        StrOf (PFloat (DDATheory.n_imag scat [/] DDATheory.index (DDATheory.optics self)))]
       (TempDir (made w))
       [(["scat_params.dat"],
         [Text "global_type=pairs";
          Labelled "N=" (PInt (Z.of_nat (List.length grid)));
          Text "pairs="]
         ++ map (fun pt => Row [pt_theta pt [*] of_int 180 [/] np_pi;
                                pt_phi pt [*] of_int 180 [/] np_pi]) grid)])
    (snd (DDATheory.calc_holo spherical_grid paraxholocl self scat alpha w)).
Proof.
  intros grid Hidx Hfresh Hadda.
  rewrite (calc_holo_run spherical_grid paraxholocl self scat alpha w p
             Hidx Hfresh Hadda).
  cbv zeta. fold grid.
  set (ev := Exec _ _ _ _).
  assert (Hlog : logged ev (adda_done w p (adda_args self scat) grid)).
  { unfold logged, adda_done. cbn [log]. rewrite in_app_iff. right. cbn. tauto. }
  destruct (Z.eqb _ 0); [|exact Hlog].
  apply keeps_snd; [apply keeps_logged_read_holo|exact Hlog].
Qed.


(** X12.  With a medium index that is not zero: when adda exits
    with a status other than 0, [calc_holo] raises [CalledProcessError] with that status and the command
    [adda], and stops there: the temporary directory stays, with
    [scat_params.dat] and whatever adda wrote. *)
Theorem adda_exit_status_raised (self : DDATheory.DDA_t) (scat : DDATheory.sphere)
    (alpha : float) (w : world) (p : program) :
  let grid := spherical_grid self (DDATheory.center scat) in
  let status :=
    returncode (p (adda_args self scat) [(["scat_params.dat"], scat_params grid)]) in
  is_zero (DDATheory.index (DDATheory.optics self)) = false ->
  fresh (TempDir (made w)) (files w) ->
  find (fun e => String.eqb (fst e) "adda") (on_path w) = Some ("adda", p) ->
  status <> 0%Z ->
  DDATheory.calc_holo spherical_grid paraxholocl self scat alpha w
  = (Raise (CalledProcessError status "adda"),
     adda_done w p (adda_args self scat) grid).
Proof.
  intros grid status Hidx Hfresh Hadda Hrc.
  rewrite (calc_holo_run spherical_grid paraxholocl self scat alpha w p
             Hidx Hfresh Hadda).
  cbv zeta. fold grid. fold status. apply Z.eqb_neq in Hrc. now rewrite Hrc.
Qed.

(** X13.  With a medium index that is not zero: when adda exits
    with status 0 and leaves nothing whose name starts with
    [run000], [calc_holo] raises [IndexError]. *)
Theorem no_run_directory_raises (self : DDATheory.DDA_t) (scat : DDATheory.sphere)
    (alpha : float) (w : world) (p : program) :
  let grid := spherical_grid self (DDATheory.center scat) in
  let c := p (adda_args self scat) [(["scat_params.dat"], scat_params grid)] in
  is_zero (DDATheory.index (DDATheory.optics self)) = false ->
  fresh (TempDir (made w)) (files w) ->
  find (fun e => String.eqb (fst e) "adda") (on_path w) = Some ("adda", p) ->
  returncode c = 0%Z ->
  (forall o name, In o (outputs c) -> hd_error (fst o) = Some name ->
                  prefix "run000" name = false) ->
  DDATheory.calc_holo spherical_grid paraxholocl self scat alpha w
  = (Raise IndexError, adda_done w p (adda_args self scat) grid).
Proof.
  intros grid c Hidx Hfresh Hadda Hrc Hout.
  rewrite (calc_holo_run spherical_grid paraxholocl self scat alpha w p
             Hidx Hfresh Hadda).
  cbv zeta. fold grid. fold c. rewrite Hrc. cbn [Z.eqb].
  now apply read_holo_no_match.
Qed.

(** X14.  [calc_holo] does not change the working directory of the
    process, and on every exit every file outside its temporary
    directory is as it was before the call. *)
Theorem calc_holo_stays_inside (self : DDATheory.DDA_t) (scat : DDATheory.sphere)
    (alpha : float) (w : world) :
  let w' := snd (DDATheory.calc_holo spherical_grid paraxholocl self scat alpha w) in
  cwd w' = cwd w /\ outside_as (TempDir (made w)) (files w) w'.
Proof.
  cbv zeta. set (d := TempDir (made w)). unfold DDATheory.calc_holo.
  erewrite bind_run by reflexivity. cbn beta. fold d.
  match goal with
  | |- cwd (snd (?c ?W)) = _ /\ _ =>
      assert (H : inside d c);
      [|destruct (H W) as [H1 [_ H3]]; split; [exact H1|];
        intros q Hq; now rewrite H3]
  end.
  apply inside_bind.
  - unfold DDATheory._write_adda_angles_file. apply inside_open_bind.
    apply inside_close. reflexivity.
  - intros ?. inside_auto.
Qed.

(** X15.  [DDA.__init__] goes on to build the theory exactly when
    adda is found and [adda -V] exits with status 0; in every other
    case it raises [DependencyMissing] naming adda, whatever the
    underlying error was.  It makes no temporary directory and removes
    none. *)
Theorem dda_init_outcomes (optics0 : DDATheory.Optics) (imshape0 : nat * nat) (w : world) :
  let rw := DDATheory.__init__ optics0 imshape0 w in
  made (snd rw) = made w /\
  tmpdirs (snd rw) = tmpdirs w /\
  fst rw =
    match resolve "adda" (cwd w) w with
    | Some p =>
        if Z.eqb (returncode (p [Lit "-V"] (visible (cwd w) (files w)))) 0
        then Return (DDATheory.DDA optics0 imshape0)
        else Raise (DependencyMissing "adda")
    | None => Raise (DependencyMissing "adda")
    end.
Proof.
  unfold DDATheory.__init__, check_output, check_call, try_except, bind, getcwd,
    run_process.
  destruct (resolve "adda" (cwd w) w) as [p|]; [|repeat split].
  destruct (Z.eqb _ 0); repeat split.
Qed.

End DDATheorems.


(** ** The fields of the T-matrix theory *)

Section FieldTheorems.
Context {num : PyNum} {fsys : FileSystem} {trig : PyTrig}.
Variable calc_scat_field :
  float -> float -> list (list complex) -> list float -> complex * complex.
Variable fieldstocart : complex * complex -> float -> float -> complex * complex * complex.

(** The loop of [_raw_fields] on the matrices of [rows]. *)
Lemma fields_rows (med_wavelen : float) (pol : list float) (pos : list point)
    (rows : list (list float)) :
  all_ok (map (fun ip => TmatrixTheory.field_at calc_scat_field fieldstocart
                           (map (tmatrix_point med_wavelen) rows) pol (fst ip) (snd ip))
              (combine (seq 0 (List.length pos)) pos))
  = if (List.length pos <=? List.length rows)%nat
    then Return (zip_with (field_of calc_scat_field fieldstocart med_wavelen pol) pos rows)
    else Raise IndexError.
Proof.
  unfold TmatrixTheory.field_at.
  set (post := fun phi => [[np_cos phi; np_sin phi]; [fneg (np_sin phi); np_cos phi]]).
  rewrite (indexed_loop (map (tmatrix_point med_wavelen) rows)
             (fun m pt => prod <-- TmatrixTheory.dot m (post (pt_phi pt)) ;;
                          Return (fieldstocart
                                    (calc_scat_field (pt_kr pt) (pt_phi pt) prod
                                       (firstn 2 pol))
                                    (pt_theta pt) (pt_phi pt)))
             (fun m pt => fieldstocart
                            (calc_scat_field (pt_kr pt) (pt_phi pt)
                               (match TmatrixTheory.dot m (post (pt_phi pt)) with
                                | Return prod => prod
                                | Raise _ => []
                                end)
                               (firstn 2 pol))
                            (pt_theta pt) (pt_phi pt))).
  2:{ intros m pt Hm. apply in_map_iff in Hm as [r [<- _]]. reflexivity. }
  rewrite length_map, zip_with_map_r. reflexivity.
Qed.


End FieldTheorems.

(** ** The message of [DependencyMissing] *)

Section MessageFacts.

Lemma str_append_inj_r (s a b : string) : String.append s a = String.append s b -> a = b.
Proof. induction s as [|c s IH]; cbn; [auto|]. intros [= H]. auto. Qed.

Lemma str_append_length (a b : string) :
  String.length (String.append a b) = (String.length a + String.length b)%nat.
Proof. induction a as [|c a IH]; cbn; [reflexivity|]. now rewrite IH. Qed.

Lemma str_append_inj_l (a b t : string) : String.append a t = String.append b t -> a = b.
Proof.
  revert b. induction a as [|c a IH]; intros [|c' b] H; cbn in H.
  - reflexivity.
  - apply (f_equal String.length) in H. cbn in H. rewrite str_append_length in H. lia.
  - apply (f_equal String.length) in H. cbn in H. rewrite str_append_length in H. lia.
  - injection H as -> H. f_equal. now apply IH.
Qed.

Lemma str_append_assoc (a b c : string) :
  String.append (String.append a b) c = String.append a (String.append b c).
Proof. induction a as [|x a IH]; cbn; [reflexivity|]. now rewrite IH. Qed.

Lemma prefix_append (a b : string) : prefix a (String.append a b) = true.
Proof.
  induction a as [|c a IH]; cbn; [now destruct b|].
  destruct (ascii_dec c c); [exact IH|contradiction].
Qed.

Lemma substring_all (a : string) : substring 0 (String.length a) a = a.
Proof. induction a as [|c a IH]; cbn; [reflexivity|]. now rewrite IH. Qed.

Lemma substring_append_head (a b : string) :
  substring 0 (String.length a) (String.append a b) = a.
Proof.
  induction a as [|c a IH]; cbn; [now destruct b|]. now rewrite IH.
Qed.

Lemma substring_append_tail (a b : string) (n : nat) :
  substring (String.length a) n (String.append a b) = substring 0 n b.
Proof. induction a as [|c a IH]; cbn; [reflexivity|exact IH]. Qed.

(** X17.  The message of [DependencyMissing] holds the name of the
    dependency between a fixed beginning and a fixed end.  It begins
    with [External Dependency: ], the name follows from character 21
    on, and after the name the message ends with
    [ could not be found.  Is it installed and configured properly?];
    it holds nothing else.  So two dependencies have the same
    message only if they have the same name. *)
Theorem dependency_message_names_dep (dep1 dep2 : string) :
  let head := "External Dependency: " in
  let tail := " could not be found.  Is it installed and configured properly?" in
  let message := DDATheory.__str__ dep1 in
  prefix head message = true /\
  substring 21 (String.length dep1) message = dep1 /\
  substring (21 + String.length dep1) 62 message = tail /\
  String.length message = (21 + String.length dep1 + 62)%nat /\
  (message = DDATheory.__str__ dep2 <-> dep1 = dep2).
Proof.
  intros head tail message. subst message. unfold DDATheory.__str__. fold head tail.
  split; [apply prefix_append|].
  split.
  { change 21%nat with (String.length head). rewrite substring_append_tail.
    apply substring_append_head. }
  split.
  { change 21%nat with (String.length head).
    rewrite <- str_append_length, <- str_append_assoc, substring_append_tail.
    apply (substring_all tail). }
  split.
  { rewrite !str_append_length. reflexivity. }
  split; [|now intros ->]. intros H.
  apply str_append_inj_r in H. now apply str_append_inj_l in H.
Qed.

End MessageFacts.

(** ** Zero divisors *)

Ltac stops_here Hend d :=
  erewrite bind_raise by reflexivity; apply Hend;
  [ cbn; now rewrite <- !app_assoc
  | reflexivity
  | subst d; cbn; now rewrite Nat.eqb_refl ].

Section ZeroDivisors.
Context {num : PyNum} {fsys : FileSystem}.
Variable spherical_grid : DDATheory.DDA_t -> float * float * float -> list point.
Variable paraxholocl :
  float -> float -> float -> float -> list (list complex) -> float * float -> float -> float.


(** X19.  With a medium index of zero the argument list of adda
    cannot be built: [calc_holo] raises [ZeroDivisionError] after it
    has made the temporary directory and written [scat_params.dat]
    into it; adda is not started and the directory is left in place. *)
Theorem zero_index_raises (self : DDATheory.DDA_t) (scat : DDATheory.sphere)
    (alpha : float) (w : world) :
  let d := TempDir (made w) in
  let grid := spherical_grid self (DDATheory.center scat) in
  is_zero (DDATheory.index (DDATheory.optics self)) = true ->
  fresh d (files w) ->
  DDATheory.calc_holo spherical_grid paraxholocl self scat alpha w =
  (Raise ZeroDivisionError,
   World (S (made w)) (made w :: tmpdirs w)
         (files w ++ [((d, ["scat_params.dat"]), Data (scat_params grid))])
         (cwd w) (on_path w)
         (log w ++ [Mkdtemp d; Open (d, ["scat_params.dat"]);
                    Close (d, ["scat_params.dat"])])).
Proof.
  intros d grid Hidx Hfresh. unfold DDATheory.calc_holo.
  erewrite bind_run by reflexivity. cbn beta.
  erewrite bind_run.
  2:{ unfold DDATheory._write_adda_angles_file. erewrite bind_run by reflexivity.
      reflexivity. }
  unfold truediv. rewrite Hidx.
  erewrite bind_raise by reflexivity.
  cbn [files log made tmpdirs cwd on_path fh_path fh_buf write savetxt].
  fold d. fold grid.
  rewrite length_map, zip_with_map.
  rewrite <- (app_nil_r (files w)) at 1.
  rewrite !store_fresh by assumption.
  replace (store (d, ["scat_params.dat"]) _ (store (d, ["scat_params.dat"]) _ []))
    with [((d, ["scat_params.dat"]), Data (scat_params grid))].
  2:{ unfold store, path_eqb, scat_params, angle_rows. subst d.
      repeat (progress (cbn; rewrite ?Nat.eqb_refl)). now rewrite map_map. }
  now rewrite <- !app_assoc.
Qed.

End ZeroDivisors.

(** ** Comment lines *)

Section CommentLines.
Context {num : PyNum}.

Lemma rows_without_comment (s : string) (before after : list line) :
  blank_before_comment s = true ->
  match all_ok (map parse_line (before ++ Text s :: after)),
        all_ok (map parse_line (before ++ after)) with
  | Return a, Return b =>
      filter (fun r => negb (is_empty r)) a = filter (fun r => negb (is_empty r)) b
  | Raise e, Raise e' => e = e'
  | _, _ => False
  end.
Proof.
  intros Hs. induction before as [|l before IH]; cbn [app map all_ok].
  - unfold parse_line at 1. rewrite Hs.
    destruct (all_ok (map parse_line after)); reflexivity.
  - destruct (parse_line l) as [r|e]; [|reflexivity].
    destruct (all_ok (map parse_line (before ++ Text s :: after))) as [a|e],
             (all_ok (map parse_line (before ++ after))) as [b|e'];
      try contradiction; [|exact IH].
    cbn [filter]. now rewrite IH.
Qed.

(** X20.  [np.loadtxt] skips comment lines: below the lines skipped by
    [skiprows], a line that holds nothing before its [#], or nothing
    at all, changes neither the table that is loaded nor the error
    that is raised. *)
Theorem comment_line_skipped (skiprows : nat) (s : string) (before after : list line) :
  blank_before_comment s = true ->
  (skiprows <= List.length before)%nat ->
  parse_table skiprows (before ++ Text s :: after)
  = parse_table skiprows (before ++ after).
Proof.
  intros Hs Hn. unfold parse_table. rewrite !skipn_app.
  replace (skiprows - List.length before)%nat with 0%nat by lia. cbn [skipn].
  pose proof (rows_without_comment s (skipn skiprows before) after Hs) as H.
  destruct (all_ok (map parse_line (skipn skiprows before ++ Text s :: after))) as [a|e],
           (all_ok (map parse_line (skipn skiprows before ++ after))) as [b|e'];
    try contradiction; [now rewrite H|now subst].
Qed.

End CommentLines.

(** ** The further theorems with hypotheses, applied *)

Section FurtherWitnesses.
Import RealNum Examples.
Open Scope R_scope.

Lemma rows2_nonempty : rows2 <> [].
Proof. discriminate. Defined.

(** X1 applied to the two rows of eight numbers [rows2]. *)
Lemma tmatrix_table_by_width_witness :
  rows2 <> [] /\
  Forall (fun r => List.length r = 8%nat) rows2 /\
  TmatrixTheory.scat_matr_of (@Arr2 real_num rows2) 1
  = Return (map (@tmatrix_point real_num 1) rows2).
Proof.
  split; [apply rows2_nonempty|]. split; [apply rows2_width|].
  rewrite (@tmatrix_table_by_width real_num rows2 8 1 rows2_nonempty rows2_width).
  cbn [Nat.even Nat.leb andb]. now rewrite is_zero_1.
Defined.



Lemma one_is_not_zero : 1%Z <> 0%Z.
Proof. discriminate. Defined.



Lemma rows1_row_nonempty : [1; 0; 2; 0; 3; 0; 4; 0] <> @nil R.
Proof. discriminate. Defined.



(** X10 applied to [a_dda_sphere], adda leaving one run directory. *)
Lemma adda_started_on_angles_witness :
  is_zero (DDATheory.index (DDATheory.optics a_dda)) = false /\
  fresh (TempDir 0) (files (adda_world adda_one)) /\
  find (fun e => String.eqb (fst e) "adda") (on_path (adda_world adda_one))
    = Some ("adda", adda_one) /\
  logged
    (Exec "adda"
       [Lit "-scat_matr"; Lit "ampl"; Lit "-store_scat_grid";
        Lit "-lambda"; StrOf (PFloat 0.658);
        Lit "-eq_rad"; StrOf (PFloat 0.5);
        Lit "-m"; StrOf (PFloat (1.58 / 1.33)); StrOf (PFloat (0.0001 / 1.33))]
       (TempDir 0)
       [(["scat_params.dat"],
         [Text "global_type=pairs"; Labelled "N=" (PInt 2); Text "pairs=";
          Row [0.1 * 180 / PI; 0.2 * 180 / PI];
          Row [0.3 * 180 / PI; 0.4 * 180 / PI]])])
    (snd (DDATheory.calc_holo grid_of probe a_dda a_dda_sphere 1 (adda_world adda_one))).
Proof.
  split; [exact is_zero_dda_index|].
  split; [apply fresh_adda_world|]. split; [reflexivity|].
  exact (adda_started_on_angles grid_of probe a_dda a_dda_sphere 1
           (adda_world adda_one) adda_one is_zero_dda_index
           (fresh_adda_world adda_one) eq_refl).
Defined.


Lemma two_is_not_zero : 2%Z <> 0%Z.
Proof. discriminate. Defined.

(** X12 applied to an adda that exits with status 2. *)
Lemma adda_exit_status_raised_witness :
  is_zero (DDATheory.index (DDATheory.optics a_dda)) = false /\
  fresh (TempDir 0) (files (adda_world adda_failing)) /\
  find (fun e => String.eqb (fst e) "adda") (on_path (adda_world adda_failing))
    = Some ("adda", adda_failing) /\
  returncode
    (adda_failing (adda_args a_dda a_dda_sphere)
       [(["scat_params.dat"],
         scat_params (grid_of a_dda (DDATheory.center a_dda_sphere)))]) <> 0%Z /\
  DDATheory.calc_holo grid_of probe a_dda a_dda_sphere 1 (adda_world adda_failing)
  = (Raise (CalledProcessError 2 "adda"),
     adda_done (adda_world adda_failing) adda_failing
       (adda_args a_dda a_dda_sphere) two_points).
Proof.
  split; [exact is_zero_dda_index|].
  split; [apply fresh_adda_world|]. split; [reflexivity|].
  split; [apply two_is_not_zero|].
  exact (adda_exit_status_raised grid_of probe a_dda a_dda_sphere 1
           (adda_world adda_failing) adda_failing is_zero_dda_index
           (fresh_adda_world adda_failing) eq_refl two_is_not_zero).
Defined.

Lemma adda_stray_leaves_no_run (o : list string * list line) (name : string) :
  In o [(["log"], @nil line)] -> hd_error (fst o) = Some name ->
  prefix "run000" name = false.
Proof. intros [<-|[]] [= <-]. reflexivity. Defined.

(** X13 applied to an adda that leaves a log file alone. *)
Lemma no_run_directory_raises_witness :
  is_zero (DDATheory.index (DDATheory.optics a_dda)) = false /\
  fresh (TempDir 0) (files (adda_world adda_stray)) /\
  find (fun e => String.eqb (fst e) "adda") (on_path (adda_world adda_stray))
    = Some ("adda", adda_stray) /\
  returncode
    (adda_stray (adda_args a_dda a_dda_sphere)
       [(["scat_params.dat"],
         scat_params (grid_of a_dda (DDATheory.center a_dda_sphere)))]) = 0%Z /\
  DDATheory.calc_holo grid_of probe a_dda a_dda_sphere 1 (adda_world adda_stray)
  = (Raise IndexError,
     adda_done (adda_world adda_stray) adda_stray
       (adda_args a_dda a_dda_sphere) two_points).
Proof.
  split; [exact is_zero_dda_index|].
  split; [apply fresh_adda_world|]. split; [reflexivity|]. split; [reflexivity|].
  exact (no_run_directory_raises grid_of probe a_dda a_dda_sphere 1
           (adda_world adda_stray) adda_stray is_zero_dda_index
           (fresh_adda_world adda_stray) eq_refl eq_refl adda_stray_leaves_no_run).
Defined.



(** X19 applied to [zero_index_dda]. *)
Lemma zero_index_raises_witness :
  is_zero (DDATheory.index (DDATheory.optics zero_index_dda)) = true /\
  fresh (TempDir 0) (files (adda_world adda_one)) /\
  DDATheory.calc_holo grid_of probe zero_index_dda a_dda_sphere 1 (adda_world adda_one) =
  (Raise ZeroDivisionError,
   World 1 [0%nat] [((TempDir 0, ["scat_params.dat"]), Data (scat_params two_points))]
         StartDir [("adda", adda_one)]
         [Mkdtemp (TempDir 0); Open (TempDir 0, ["scat_params.dat"]);
          Close (TempDir 0, ["scat_params.dat"])]).
Proof.
  split; [exact is_zero_true|]. split; [apply fresh_adda_world|].
  exact (zero_index_raises grid_of probe zero_index_dda a_dda_sphere 1
           (adda_world adda_one) is_zero_true (fresh_adda_world adda_one)).
Defined.

(** X20 applied to [commented_table], read as adda's output is. *)
Lemma comment_line_skipped_witness :
  blank_before_comment "# second angle" = true /\
  (1 <= 2)%nat /\
  parse_table 1 commented_table
  = parse_table 1 (ampl_scatgrid adda_rows).
Proof.
  split; [reflexivity|]. split; [apply le_S, le_n|].
  exact (comment_line_skipped 1 "# second angle"
           [Text "theta phi s1.r s1.i s2.r s2.i s3.r s3.i s4.r s4.i";
            Row [0; 0; 1; 0; 2; 0; 3; 0; 4; 0]]
           [Row [90; 0; 5; 0; 6; 0; 7; 0; 8; 0]]
           eq_refl (le_S _ _ (le_n 1))).
Defined.

End FurtherWitnesses.
